(** * SolaXd: the RS485 protocol engine of [solaxd.c]

    A shallow embedding of the frame codec ([solax_CalculateCRC],
    [solax_RS485_Send], [solax_RS485_Receive]), the telemetry decoder and
    the query state machine ([solax_ReceiveQuery], [solax_QueryHandle]) and
    the aggregation step ([solax_LiveData_Average], the loop of [main]).

    Conventions of the embedding.
    - A [uint8_t], [uint16_t], [uint32_t] or [int] value is a [Z]; every
      narrowing the C code performs is written out with [mod].
    - [Solax_Message_t] is a struct of 109 [uint8_t] without padding, which
      the code itself reads and writes as a flat byte array; it is a
      [list Z] of bytes here, with the fields as offsets.
    - An access outside an array and a loop that does not end are explicit
      outcomes ([OutOfBounds], [OutOfFuel]) of the [exec] monad.
    - A C [float] is an IEEE-754 binary32 number of [SpecFloat]
      ([prec = 24], [emax = 128]), every operation rounded to nearest even.
    - [read] and [write] on the serial line are the environment: what they
      return is an argument of the function that calls them.
    - Logging has no effect on the state and is left out of these
      functions; the hexadecimal trace line ([log_Bin2Hex]) is embedded on
      its own, with the buffer its callers give it. The test mode
      ([arg_TestMode]) is off, its sample frames are used as inputs. *)

From Stdlib Require Import ZArith Lia Bool.
From Stdlib Require Import Floats.SpecFloat.
From Stdlib Require Import Ascii.
From stdpp Require Import base tactics option list strings.

Local Open Scope Z_scope.

(** ** Outcomes of a run *)

Inductive fault : Type :=
  | OutOfBounds   (* an array is accessed outside its bounds *)
  | OutOfFuel.    (* the loop has not ended within the given number of steps *)

Inductive exec (A : Type) : Type :=
  | Ok (a : A)
  | Fault (f : fault).

Arguments Ok {A} a.
Arguments Fault {A} f.

Global Instance exec_ret : MRet exec := fun A a => Ok a.
Global Instance exec_bind : MBind exec := fun A B k m =>
  match m with
  | Ok a => k a
  | Fault f => Fault f
  end.

(** ** Machine integers *)

Definition u8 (z : Z) : Z := z mod 256.
Definition u16 (z : Z) : Z := z mod 65536.
Definition u32 (z : Z) : Z := z mod 4294967296.

(** [#define lowByte(i) ((uint8_t) i)] and
    [#define highByte(i) ((uint8_t) (((int) i) >> 8))]. *)
Definition lowByte (i : Z) : Z := u8 i.
Definition highByte (i : Z) : Z := u8 (Z.shiftr i 8).

Definition is_byte (b : Z) : Prop := 0 <= b < 256.
Definition bytes (l : list Z) : Prop := Forall is_byte l.

(** ** Arrays *)

(** [a[i]] for reading and [a[i] = v] for writing. *)
Definition load {A} (a : list A) (i : Z) : exec A :=
  if i <? 0 then Fault OutOfBounds
  else match a !! Z.to_nat i with
       | Some x => Ok x
       | None => Fault OutOfBounds
       end.

Definition store {A} (a : list A) (i : Z) (v : A) : exec (list A) :=
  if (0 <=? i) && (i <? Z.of_nat (length a)) then Ok (<[Z.to_nat i := v]> a)
  else Fault OutOfBounds.

(** ** Loops [for (i = 0; i <= bound; i++)] over a [uint8_t i]

    The counter wraps at 256; the comparison is made in [int]. One unit of
    fuel is one run of the body. *)
Fixpoint for_u8 {St : Type} (fuel : nat) (bound : Z) (body : Z -> St -> exec St)
    (i : Z) (s : St) : exec St :=
  if i <=? bound then
    match fuel with
    | O => Fault OutOfFuel
    | S fuel' =>
        s' ← body i s; for_u8 fuel' bound body (u8 (i + 1)) s'
    end
  else Ok s.

(** ** Typedefs *)

Inductive Solax_StateQuery_t : Type :=
  | STATE_BROARDCAST
  | STATE_INVERTER_ADDRESS
  | STATE_QUERY_LIVE_DATA.

(** The four enumerators, and [ERR_IO] for the value [-1] that the code
    returns through this type when [read] or [write] fails. *)
Inductive Solax_ErrorQuery_t : Type :=
  | ERR_NONE
  | ERR_NO_DATA
  | ERR_INVALID_MSG
  | ERR_CRC_ERROR
  | ERR_IO.

Definition err_code (e : Solax_ErrorQuery_t) : Z :=
  match e with
  | ERR_NONE => 0
  | ERR_NO_DATA => 1
  | ERR_INVALID_MSG => 2
  | ERR_CRC_ERROR => 3
  | ERR_IO => -1
  end.

Global Instance Solax_ErrorQuery_eq_dec : EqDecision Solax_ErrorQuery_t.
Proof. solve_decision. Defined.

Global Instance Solax_StateQuery_eq_dec : EqDecision Solax_StateQuery_t.
Proof. solve_decision. Defined.

(** [Solax_Message_t]: offsets of the fields in the 109-byte struct. *)
Definition sizeof_Solax_Message_t : Z := 109.
Definition off_Header : Z := 0.
Definition off_Source : Z := 2.
Definition off_Destination : Z := 4.
Definition off_ControlCode : Z := 6.
Definition off_FunctionCode : Z := 7.
Definition off_DataLength : Z := 8.
Definition off_Data : Z := 9.

Abbreviation Solax_Message_t := (list Z).

(** A field at a constant offset of the struct. *)
Definition field (m : Solax_Message_t) (off : Z) : Z := nth (Z.to_nat off) m 0.

Definition ControlCode (m : Solax_Message_t) : Z := field m off_ControlCode.
Definition FunctionCode (m : Solax_Message_t) : Z := field m off_FunctionCode.
Definition DataLength (m : Solax_Message_t) : Z := field m off_DataLength.
(** [m.Data[k]] for a constant [k] below 100. *)
Definition Data (m : Solax_Message_t) (k : Z) : Z := field m (off_Data + k).

Definition wf_msg (m : Solax_Message_t) : Prop :=
  Z.of_nat (length m) = sizeof_Solax_Message_t /\ bytes m.

(** ** Frame codec *)

(** [[
uint16_t solax_CalculateCRC(const uint8_t data[], const uint8_t dataLen)
{
    uint8_t i;
    uint16_t chkSum = 0;
    for (i = 0; i <= dataLen; i++) chkSum = chkSum + data[i];
    return chkSum;
}
]] *)
Definition solax_CalculateCRC (fuel : nat) (data : list Z) (dataLen : Z) : exec Z :=
  for_u8 fuel dataLen
    (fun i chkSum => b ← load data i; mret (u16 (chkSum + b))) 0 0.

(** [write(fd_tty, txMessage, msgLen)] hands the first [msgLen] bytes of the
    buffer to the serial line. *)
Definition load_range {A} (a : list A) (n : Z) : exec (list A) :=
  if (0 <=? n) && (n <=? Z.of_nat (length a)) then Ok (take (Z.to_nat n) a)
  else Fault OutOfBounds.

(** [solax_RS485_Send]. [wr] is what [write] returns; the result carries the
    buffer as the call leaves it, the bytes handed to [write] and the
    returned code. *)
Definition solax_RS485_Send (fuel : nat) (txMessage : Solax_Message_t) (wr : Z)
    : exec (Solax_Message_t * list Z * Solax_ErrorQuery_t) :=
  m ← store txMessage (off_Header + 0) 0xAA;
  m ← store m (off_Header + 1) 0x55;
  let msgLen := u8 (DataLength m + 9) in
  crc ← solax_CalculateCRC fuel m (u8 (msgLen - 1));
  m ← store m (off_Data + (DataLength m + 0)) (highByte crc);
  m ← store m (off_Data + (DataLength m + 1)) (lowByte crc);
  let msgLen := u8 (msgLen + 2) in
  frame ← load_range m msgLen;
  if decide (wr = msgLen) then mret (m, frame, ERR_NONE)
  else mret (m, frame, ERR_IO).

(** [read(fd_tty, rxMessage, sizeof(Solax_Message_t))]: [None] when the call
    fails; otherwise the bytes the line delivers, at most [sizeof] of them,
    overwrite the head of the buffer and the rest of the buffer keeps what
    it held. *)
Definition read (rd : option (list Z)) (buf : Solax_Message_t) (n : Z)
    : Z * Solax_Message_t :=
  match rd with
  | None => (-1, buf)
  | Some input =>
      let got := take (Z.to_nat n) input in
      (Z.of_nat (length got), got ++ drop (length got) buf)
  end.

(** [solax_RS485_Receive]. *)
Definition solax_RS485_Receive (fuel : nat) (rxMessage : Solax_Message_t)
    (rd : option (list Z)) : exec (Solax_Message_t * Solax_ErrorQuery_t) :=
  let '(rxLen, m) := read rd rxMessage sizeof_Solax_Message_t in
  if rxLen <? 0 then mret (m, ERR_IO)
  else if rxLen =? 0 then mret (m, ERR_NO_DATA)
  else if (rxLen <? 11) || negb (field m (off_Header + 0) =? 0xAA)
                        || negb (field m (off_Header + 1) =? 0x55)
  then mret (m, ERR_INVALID_MSG)
  else
    let msgLen := u8 (DataLength m + 9) in
    if msgLen + 2 >? rxLen then mret (m, ERR_INVALID_MSG)
    else
      crc ← solax_CalculateCRC fuel m (u8 (msgLen - 1));
      hi ← load m (off_Data + (DataLength m + 0));
      if negb (hi =? highByte crc) then mret (m, ERR_CRC_ERROR)
      else
        lo ← load m (off_Data + (DataLength m + 1));
        if negb (lo =? lowByte crc) then mret (m, ERR_CRC_ERROR)
        else mret (m, ERR_NONE).

(** ** Floats: IEEE-754 binary32 *)

Definition float : Type := spec_float.
Definition prec : Z := 24.
Definition emax : Z := 128.

(** Conversion of an integer to [float], and the four operations used. *)
Definition float_of_Z (z : Z) : float := binary_normalize prec emax z 0 false.
Definition fadd : float -> float -> float := SFadd prec emax.
Definition fmul : float -> float -> float := SFmul prec emax.
Definition fdiv : float -> float -> float := SFdiv prec emax.
Definition flt : float -> float -> bool := SFltb.

Definition fzero : float := S754_zero false.
(** The literals [0.1f] and [0.01f]. *)
Definition f0_1 : float := S754_finite false 13421773 (-27).
Definition f0_01 : float := S754_finite false 10737418 (-30).

(** ** Telemetry *)

Record Solax_LiveData_t : Type := mkLiveData {
  valid : bool;
  Temperature : float;
  Energy_Today : float;
  DC1_Voltage : float;
  DC2_Voltage : float;
  DC1_Current : float;
  DC2_Current : float;
  AC_Current : float;
  AC_Voltage : float;
  Frequency : float;
  Power : float;
  Energy_Total : float;
  Runtime_Total : float;
  Status : Z;
  ErrorBits : Z
}.

(** [(Solax_LiveData_t) {0}]. *)
Definition Solax_LiveData_zero : Solax_LiveData_t :=
  mkLiveData false fzero fzero fzero fzero fzero fzero fzero fzero fzero fzero
             fzero fzero 0 0.

(** [value = (Data[a] << 8) | Data[b]] and
    [value = (Data[a] << 24) | (Data[b] << 16) | (Data[c] << 8) | Data[d]],
    stored in a [uint32_t]. The shifts are made in [int]; where the top
    byte is 0x80 or more the 32-bit pattern is the one gcc produces. *)
Definition value16 (m : Solax_Message_t) (a b : Z) : Z :=
  u32 (Z.lor (Z.shiftl (Data m a) 8) (Data m b)).
Definition value32 (m : Solax_Message_t) (a b c d : Z) : Z :=
  u32 (Z.lor (Z.lor (Z.lor (Z.shiftl (Data m a) 24) (Z.shiftl (Data m b) 16))
                    (Z.shiftl (Data m c) 8)) (Data m d)).

(** The [else] branch of [case STATE_QUERY_LIVE_DATA] in
    [solax_ReceiveQuery]: the assignments to [*liveData], in order. A field
    that is not assigned keeps what [liveData] holds. *)
Definition solax_ReceiveQuery_decode (liveData : Solax_LiveData_t)
    (rxMessage : Solax_Message_t) : Solax_LiveData_t :=
  let energy_total := value32 rxMessage 22 23 24 25 in
  let runtime_total := value32 rxMessage 26 27 28 29 in
  {| Temperature := float_of_Z (value16 rxMessage 0 1);
     Energy_Today := fmul (float_of_Z (value16 rxMessage 2 3)) f0_1;
     DC1_Voltage := fmul (float_of_Z (value16 rxMessage 4 5)) f0_1;
     DC2_Voltage := fmul (float_of_Z (value16 rxMessage 6 7)) f0_1;
     DC1_Current := fmul (float_of_Z (value16 rxMessage 8 9)) f0_1;
     DC2_Current := fmul (float_of_Z (value16 rxMessage 10 11)) f0_1;
     AC_Current := fmul (float_of_Z (value16 rxMessage 12 13)) f0_1;
     AC_Voltage := fmul (float_of_Z (value16 rxMessage 14 15)) f0_1;
     Frequency := fmul (float_of_Z (value16 rxMessage 16 17)) f0_01;
     Power := float_of_Z (value16 rxMessage 18 19);
     Energy_Total :=
       if energy_total =? 0 then Energy_Total liveData
       else fmul (float_of_Z energy_total) f0_1;
     Runtime_Total :=
       if runtime_total =? 0 then Runtime_Total liveData
       else float_of_Z runtime_total;
     Status := u8 (value16 rxMessage 30 31);
     ErrorBits := u32 (value32 rxMessage 49 48 47 46);
     valid := true |}.

(** The statics and globals that [solax_ReceiveQuery] touches. *)
Record Solax_Rx_t : Type := mkRx {
  rxMessage : Solax_Message_t;
  solax_InverterSerialNumber : list Z
}.

(** [solax_ReceiveQuery]. The result is the receive state, [*liveData] and
    the returned code. *)
Definition solax_ReceiveQuery (fuel : nat) (stateQuery : Solax_StateQuery_t)
    (rx : Solax_Rx_t) (liveData : Solax_LiveData_t) (rd : option (list Z))
    : exec (Solax_Rx_t * Solax_LiveData_t * Solax_ErrorQuery_t) :=
  '(m, error) ← solax_RS485_Receive fuel (rxMessage rx) rd;
  let rx := mkRx m (solax_InverterSerialNumber rx) in
  if decide (error = ERR_IO) then mret (rx, liveData, ERR_IO)
  else
    let liveData := Solax_LiveData_zero in
    match stateQuery with
    | STATE_BROARDCAST =>
        if decide (error = ERR_NO_DATA) then mret (rx, liveData, error)
        else if decide (error = ERR_CRC_ERROR) then mret (rx, liveData, error)
        else if bool_decide (error = ERR_INVALID_MSG)
                || negb (ControlCode m =? 0x10) || negb (FunctionCode m =? 0x80)
        then mret (rx, liveData, error)
        else
          (* memcpy(solax_InverterSerialNumber, rxMessage.Data, 14); [14] = 0 *)
          let serial := take 14 (drop (Z.to_nat off_Data) m) ++ [0] in
          mret (mkRx m serial, liveData, error)
    | STATE_INVERTER_ADDRESS =>
        if decide (error = ERR_NO_DATA) then mret (rx, liveData, error)
        else if decide (error = ERR_CRC_ERROR) then mret (rx, liveData, error)
        else if bool_decide (error = ERR_INVALID_MSG)
                || negb (ControlCode m =? 0x10) || negb (FunctionCode m =? 0x81)
                || negb (Data m 0 =? 0x06)
        then mret (rx, liveData, error)
        else mret (rx, liveData, error)
    | STATE_QUERY_LIVE_DATA =>
        if decide (error = ERR_NO_DATA) then mret (rx, liveData, error)
        else if decide (error = ERR_CRC_ERROR) then mret (rx, liveData, error)
        else if bool_decide (error = ERR_INVALID_MSG)
                || negb (ControlCode m =? 0x11) || negb (FunctionCode m =? 0x82)
        then mret (rx, liveData, error)
        else mret (rx, solax_ReceiveQuery_decode liveData m, error)
    end.

(** ** Query state machine *)

(** The command-line settings the protocol engine reads. *)
Record Args : Type := mkArgs {
  arg_AV_Samples : Z;
  arg_InverterAddr : Z
}.

Definition DEFAULT_AVERAGE_SAMPLES : Z := 10.
Definition DEFAULT_INVERTER_ADDRESS : Z := 0x0A.
Definition QUALITY_OF_SERVICE_COUNT : Z := 100.
Definition TIMEOUT_INVERTER_ONLINE : Z := 30.
Definition MAX_INDEX_OF_LIVE_DATA : Z := QUALITY_OF_SERVICE_COUNT - 1.

Definition default_args : Args :=
  mkArgs DEFAULT_AVERAGE_SAMPLES DEFAULT_INVERTER_ADDRESS.

(** A [static Solax_Message_t txMessage] of a sender. Each sender assigns
    every byte it transmits before it calls [solax_RS485_Send], so the
    buffer is taken as the zero-initialised one at every call. *)
Definition txMessage_static : Solax_Message_t := replicate 109 0.

(** Assignment of header fields, in the order of the struct. *)
Definition set_fields (m : Solax_Message_t)
    (s0 s1 d0 d1 cc fc dl : Z) : Solax_Message_t :=
  <[8%nat := dl]> (<[7%nat := fc]> (<[6%nat := cc]> (<[5%nat := d1]>
    (<[4%nat := d0]> (<[3%nat := s1]> (<[2%nat := s0]> m)))))).

Definition solax_Send_Broardcast (fuel : nat) (wr : Z) :=
  solax_RS485_Send fuel
    (set_fields txMessage_static 0x01 0x00 0x00 0x00 0x10 0x00 0x00) wr.

Definition solax_Send_InverterAddress (fuel : nat) (a : Args)
    (serial : list Z) (wr : Z) :=
  let m := set_fields txMessage_static 0x00 0x00 0x00 0x00 0x10 0x01 0x0F in
  (* memcpy(txMessage.Data, solax_InverterSerialNumber, 14) *)
  let m := take 9 m ++ take 14 serial ++ drop (9 + length (take 14 serial)) m in
  m ← store m (off_Data + 14) (u8 (arg_InverterAddr a));
  solax_RS485_Send fuel m wr.

Definition solax_Send_QueryLiveData (fuel : nat) (a : Args) (wr : Z) :=
  solax_RS485_Send fuel
    (set_fields txMessage_static 0x01 0x00 0x00 (u8 (arg_InverterAddr a))
                0x11 0x02 0x00) wr.

Definition solax_SendQuery (fuel : nat) (a : Args)
    (stateQuery : Solax_StateQuery_t) (serial : list Z) (wr : Z)
    : exec (Solax_Message_t * list Z * Solax_ErrorQuery_t) :=
  match stateQuery with
  | STATE_BROARDCAST => solax_Send_Broardcast fuel wr
  | STATE_INVERTER_ADDRESS => solax_Send_InverterAddress fuel a serial wr
  | STATE_QUERY_LIVE_DATA => solax_Send_QueryLiveData fuel a wr
  end.

(** The statics of [solax_QueryHandle], the global [solax_InverterOnline]
    and the receive state. *)
Record Solax_Query_t : Type := mkQuery {
  stateQuery : Solax_StateQuery_t;
  timeoutInverterOnline : Z;
  countError : Z;
  solax_InverterOnline : bool;
  rx : Solax_Rx_t
}.

(** The initial values of the statics and globals. *)
Definition Solax_Rx_init : Solax_Rx_t := mkRx (replicate 109 0) (replicate 15 0).

Definition Solax_Query_init : Solax_Query_t :=
  mkQuery STATE_QUERY_LIVE_DATA TIMEOUT_INVERTER_ONLINE 0 false Solax_Rx_init.

(** The [switch (stateQuery)] of [solax_QueryHandle]: the new
    [(stateQuery, countError, timeoutInverterOnline)]. [errorRx] is tested
    as [if (errorRx)]. *)
Definition solax_QueryHandle_switch (st : Solax_StateQuery_t)
    (countError timeout : Z) (errorRx : Solax_ErrorQuery_t)
    : Solax_StateQuery_t * Z * Z :=
  match st with
  | STATE_BROARDCAST =>
      if negb (err_code errorRx =? 0) then
        let countError := countError + 1 in
        if countError >=? 10 then (STATE_QUERY_LIVE_DATA, 0, timeout)
        else (st, countError, timeout)
      else (STATE_INVERTER_ADDRESS, 0, timeout)
  | STATE_INVERTER_ADDRESS =>
      if negb (err_code errorRx =? 0) then
        let countError := countError + 1 in
        if countError >=? 3 then (STATE_BROARDCAST, 0, timeout)
        else (st, countError, timeout)
      else (STATE_QUERY_LIVE_DATA, 0, timeout)
  | STATE_QUERY_LIVE_DATA =>
      if negb (err_code errorRx =? 0) then
        let countError := countError + 1 in
        if countError >=? 3 then (STATE_BROARDCAST, 0, timeout)
        else (st, countError, timeout)
      else (st, countError, 0)
  end.

(** The update of [solax_InverterOnline] that follows the switch: the new
    [(solax_InverterOnline, timeoutInverterOnline)]. *)
Definition solax_QueryHandle_online (online : bool) (timeout : Z) : bool * Z :=
  if online then
    let timeout := timeout + 1 in
    if timeout >=? TIMEOUT_INVERTER_ONLINE then (false, timeout)
    else (true, timeout)
  else
    if timeout =? 0 then (true, timeout) else (false, timeout).

(** [solax_QueryHandle]. [rd] and [wr] are what [read] and [write] return in
    this call. The result is the new state, [*liveData], the bytes handed
    to [write] (none when the call returns before sending) and the returned
    code. *)
Definition solax_QueryHandle (fuel : nat) (a : Args) (q : Solax_Query_t)
    (liveData : Solax_LiveData_t) (rd : option (list Z)) (wr : Z)
    : exec (Solax_Query_t * Solax_LiveData_t * list Z * Solax_ErrorQuery_t) :=
  '(rx', liveData, errorRx) ← solax_ReceiveQuery fuel (stateQuery q) (rx q) liveData rd;
  if decide (errorRx = ERR_IO)
  then mret (mkQuery (stateQuery q) (timeoutInverterOnline q) (countError q)
                     (solax_InverterOnline q) rx', liveData, [], ERR_IO)
  else
    let '(st, cnt, timeout) :=
      solax_QueryHandle_switch (stateQuery q) (countError q)
                               (timeoutInverterOnline q) errorRx in
    let '(online, timeout) :=
      solax_QueryHandle_online (solax_InverterOnline q) timeout in
    let q' := mkQuery st timeout cnt online rx' in
    '(_, frame, errorTx) ← solax_SendQuery fuel a st (solax_InverterSerialNumber rx') wr;
    if decide (errorTx = ERR_IO) then mret (q', liveData, frame, ERR_IO)
    else mret (q', liveData, frame, errorRx).

(** ** Aggregation *)

(** The body of the averaging loop for a valid slot: the sums, the bitwise
    or and the four conditional assignments. *)
Definition accumulate (acc s : Solax_LiveData_t) : Solax_LiveData_t :=
  {| valid := valid acc;
     Temperature := fadd (Temperature acc) (Temperature s);
     DC1_Voltage := fadd (DC1_Voltage acc) (DC1_Voltage s);
     DC2_Voltage := fadd (DC2_Voltage acc) (DC2_Voltage s);
     DC1_Current := fadd (DC1_Current acc) (DC1_Current s);
     DC2_Current := fadd (DC2_Current acc) (DC2_Current s);
     AC_Current := fadd (AC_Current acc) (AC_Current s);
     AC_Voltage := fadd (AC_Voltage acc) (AC_Voltage s);
     Frequency := fadd (Frequency acc) (Frequency s);
     Power := fadd (Power acc) (Power s);
     ErrorBits := Z.lor (ErrorBits acc) (ErrorBits s);
     Energy_Today :=
       if flt (Energy_Today acc) (Energy_Today s) then Energy_Today s
       else Energy_Today acc;
     Energy_Total :=
       if flt (Energy_Total acc) (Energy_Total s) then Energy_Total s
       else Energy_Total acc;
     Runtime_Total :=
       if flt (Runtime_Total acc) (Runtime_Total s) then Runtime_Total s
       else Runtime_Total acc;
     Status := if Status acc <? Status s then Status s else Status acc |}.

(** [if (cnt) { ... /= cnt; }]. *)
Definition divide (acc : Solax_LiveData_t) (cnt : Z) : Solax_LiveData_t :=
  if cnt =? 0 then acc
  else
    let c := float_of_Z cnt in
    {| valid := valid acc;
       Temperature := fdiv (Temperature acc) c;
       DC1_Voltage := fdiv (DC1_Voltage acc) c;
       DC2_Voltage := fdiv (DC2_Voltage acc) c;
       DC1_Current := fdiv (DC1_Current acc) c;
       DC2_Current := fdiv (DC2_Current acc) c;
       AC_Current := fdiv (AC_Current acc) c;
       AC_Voltage := fdiv (AC_Voltage acc) c;
       Frequency := fdiv (Frequency acc) c;
       Power := fdiv (Power acc) c;
       ErrorBits := ErrorBits acc;
       Energy_Today := Energy_Today acc;
       Energy_Total := Energy_Total acc;
       Runtime_Total := Runtime_Total acc;
       Status := Status acc |}.

(** The state of the averaging loop: [solax_LiveData], [idx] and [cnt]. *)
Definition avg_state : Type := Solax_LiveData_t * Z * Z.

(** One run of the body of the first loop of [solax_LiveData_Average];
    [continue] leaves the state as it is. *)
Definition average_body (liveData : list Solax_LiveData_t) (max_idx : Z)
    (i : Z) (s : avg_state) : exec avg_state :=
  let '(acc, idx, cnt) := s in
  slot ← load liveData idx;
  if negb (valid slot) then mret (acc, idx, cnt)
  else
    let acc := accumulate acc slot in
    let idx := if negb (idx =? 0) then u8 (idx - 1) else max_idx in
    mret (acc, idx, u8 (cnt + 1)).

(** One run of the body of the second loop: [qos += liveData[idx].valid]. *)
Definition qos_body (liveData : list Solax_LiveData_t) (idx : Z) (qos : Z)
    : exec Z :=
  slot ← load liveData idx;
  mret (u8 (qos + (if valid slot then 1 else 0))).

(** [solax_LiveData_Average]: the new [solax_LiveData] and
    [solax_QualityOfService]. *)
Definition solax_LiveData_Average (fuel : nat) (a : Args)
    (liveData : list Solax_LiveData_t) (idx max_idx : Z)
    : exec (Solax_LiveData_t * float) :=
  '(acc, _, cnt) ← for_u8 fuel (arg_AV_Samples a) (average_body liveData max_idx)
                        0 (Solax_LiveData_zero, idx, 0);
  let solax_LiveData := divide acc cnt in
  qos ← for_u8 fuel max_idx (qos_body liveData) 0 0;
  mret (solax_LiveData, fdiv (float_of_Z qos) (float_of_Z (max_idx + 1))).

(** ** The loop of [main] *)

Record Main_t : Type := mkMain {
  query : Solax_Query_t;
  liveData : list Solax_LiveData_t;
  index : Z;
  solax_LiveData : Solax_LiveData_t;
  solax_QualityOfService : float
}.

Definition Main_init : Main_t :=
  mkMain Solax_Query_init (replicate 100 Solax_LiveData_zero) 0
         Solax_LiveData_zero fzero.

(** One run of the body of [while (1)], up to [poll_HTTP_Server]. [None]
    when [main] returns. *)
Definition main_tick (fuel : nat) (a : Args) (s : Main_t)
    (rd : option (list Z)) (wr : Z) : exec (option Main_t) :=
  slot ← load (liveData s) (index s);
  '(q, slot, _, error) ← solax_QueryHandle fuel a (query s) slot rd wr;
  if decide (error = ERR_IO) then mret None
  else
    hist ← store (liveData s) (index s) slot;
    '(avg, qos) ← solax_LiveData_Average fuel a hist (index s) MAX_INDEX_OF_LIVE_DATA;
    let index := u8 (index s + 1) in
    let index := if index >? MAX_INDEX_OF_LIVE_DATA then 0 else index in
    mret (Some (mkMain q hist index avg qos)).

(** The loop of [main] over the answers of the serial line, one pair of a
    [read] and a [write] result per tick. *)
Fixpoint main_loop (fuel : nat) (a : Args) (s : Main_t)
    (ticks : list (option (list Z) * Z)) : exec (option Main_t) :=
  match ticks with
  | [] => mret (Some s)
  | (rd, wr) :: ticks' =>
      r ← main_tick fuel a s rd wr;
      match r with
      | None => mret None
      | Some s' => main_loop fuel a s' ticks'
      end
  end.

(** ** The sample frames of the test mode

    The 18 zero bytes that end the payload of [rx_msg_3] and [rx_msg_4] are
    written with [replicate]. *)

Definition rx_msg_1 : list Z :=
  [0xAA; 0x55; 0x00; 0xFF; 0x01; 0x00; 0x10; 0x80; 0x0E; 0x31; 0x32; 0x33;
   0x34; 0x35; 0x36; 0x37; 0x37; 0x36; 0x35; 0x34; 0x33; 0x32; 0x31; 0x05;
   0x75].

Definition rx_msg_2 : list Z :=
  [0xAA; 0x55; 0x00; 0x0A; 0x00; 0x00; 0x10; 0x81; 0x01; 0x06; 0x01; 0xA1].

Definition rx_msg_3 : list Z :=
  [0xAA; 0x55; 0x00; 0x0A; 0x01; 0x00; 0x11; 0x82; 0x32; 0x00; 0x0B; 0x00;
   0x01; 0x06; 0xDD; 0x00; 0x00; 0x00; 0x1F; 0x00; 0x00; 0x00; 0x15; 0x09;
   0x21; 0x13; 0x87; 0x01; 0xE7; 0xFF; 0xFF; 0x00; 0x00; 0x12; 0xD3; 0x00;
   0x00; 0x0A; 0x0F; 0x00; 0x02]
  ++ replicate 18 0x00 ++ [0x07; 0x9C].

Definition rx_msg_4 : list Z :=
  [0xAA; 0x55; 0x00; 0x0A; 0x01; 0x00; 0x11; 0x82; 0x32; 0x00; 0x0B; 0x00;
   0x01; 0x06; 0xCB; 0x00; 0x00; 0x00; 0x1E; 0x00; 0x00; 0x00; 0x14; 0x09;
   0x22; 0x13; 0x89; 0x01; 0xD7; 0xFF; 0xFF; 0x00; 0x00; 0x12; 0xD3; 0x00;
   0x00; 0x0A; 0x0F; 0x00; 0x02]
  ++ replicate 18 0x00 ++ [0x07; 0x7B].

(** ** Logging of the frames *)

(** Loops [for (i = 0; i < bound; i++)] over an [int i]. *)
Fixpoint for_int {St : Type} (fuel : nat) (bound : Z) (body : Z -> St -> exec St)
    (i : Z) (s : St) : exec St :=
  if i <? bound then
    match fuel with
    | O => Fault OutOfFuel
    | S fuel' => s' ← body i s; for_int fuel' bound body (i + 1) s'
    end
  else Ok s.

(** [sprintf(&buff[pos], ...)] for the output [s]: the characters of [s] and
    the terminating NUL are stored from [pos] on; the value is the number of
    characters, the NUL not counted. *)
Fixpoint store_chars (buff : list ascii) (pos : Z) (s : list ascii)
    : exec (list ascii) :=
  match s with
  | [] => store buff pos "000"%char
  | c :: s' => b ← store buff pos c; store_chars b (pos + 1) s'
  end.

Definition sprintf (buff : list ascii) (pos : Z) (s : string)
    : exec (list ascii * Z) :=
  b ← store_chars buff pos (String.list_ascii_of_string s);
  mret (b, Z.of_nat (String.length s)).

(** The output of the format ["%02X "] for an [int] from 0 to 255: two
    hexadecimal digits in upper case and a space. *)
Definition hex_digit (d : Z) : ascii :=
  ascii_of_N (Z.to_N (if d <? 10 then 48 + d else 55 + d)).

Definition fmt_02X_space (x : Z) : string :=
  String.String (hex_digit (x / 16)) (String.String (hex_digit (x mod 16)) " ").

(** [[
int log_Bin2Hex(char buff[], const uint8_t data[], const uint8_t dataLen)
]] The result is the buffer and the returned length. *)
Definition log_Bin2Hex (fuel : nat) (buff : list ascii) (data : list Z)
    (dataLen : Z) : exec (list ascii * Z) :=
  if negb (dataLen =? 0) then
    for_int fuel dataLen
      (fun i '(buff, len) =>
         '(buff, len) ←
           (if i mod 8 =? 0
            then '(b, k) ← sprintf buff len " "; mret (b, len + k)
            else mret (buff, len));
         x ← load data i;
         '(b, k) ← sprintf buff len (fmt_02X_space x);
         mret (b, len + k))
      0 (buff, 0)
  else sprintf buff 0 " No Data".

(** The size of the [char buff[...]] that [solax_RS485_Send] and
    [solax_RS485_Receive] pass to [log_Bin2Hex]. *)
Definition log_buff_size : Z :=
  3 * sizeof_Solax_Message_t + sizeof_Solax_Message_t / 8 + 3.

(** * The specification side

    The notions of the specification that the properties compare the code
    with, the invariants of the statics and the inputs of the examples. *)

(** ** Loops, checksum and frames *)

(** A counted loop: [n] runs of the body, the counter going up from [i]. *)
Fixpoint iterM {St : Type} (body : Z -> St -> exec St) (i : Z) (n : nat)
    (s : St) : exec St :=
  match n with
  | O => Ok s
  | S n' => s' ← body i s; iterM body (i + 1) n' s'
  end.

(** The checksum in the words of the specification: the sum of the bytes
    modulo 65536, and its two bytes, high byte first. *)
Definition sum_bytes (l : list Z) : Z := foldr Z.add 0 l.

Definition checksum (l : list Z) : Z := sum_bytes l mod 65536.

Definition big_endian16 (c : Z) : list Z := [c / 256; c mod 256].

(** The frame that [solax_RS485_Send] builds from the buffer [m]: the
    marker, then the header and payload that [m] holds, that is the
    [DataLength m + 7] bytes after the two header bytes. *)
Definition frame_body (m : Solax_Message_t) : list Z :=
  [0xAA; 0x55] ++ take (Z.to_nat (DataLength m) + 7) (drop 2 m).

(** Decoding in the words of the specification, on the bytes that [read]
    delivered. *)
Definition decode_spec (input : list Z) : Solax_ErrorQuery_t :=
  let len := Z.of_nat (length input) in
  if len =? 0 then ERR_NO_DATA
  else if (len <? 11) || negb (bool_decide (take 2 input = [0xAA; 0x55]))
  then ERR_INVALID_MSG
  else
    let declared := nth 8 input 0 in
    if 9 + declared + 2 >? len then ERR_INVALID_MSG
    else
      let n := Z.to_nat (9 + declared) in
      if bool_decide (take 2 (drop n input) = big_endian16 (checksum (take n input)))
      then ERR_NONE
      else ERR_CRC_ERROR.

(** The inputs on which the length byte makes [msgLen] wrap: the marker is
    there and the length byte is 247 or more. *)
Definition length_byte_wraps (input : list Z) : Prop :=
  (11 <= length input)%nat /\ take 2 input = [0xAA; 0x55] /\
  247 <= nth 8 input 0.

(** ** Telemetry *)

(** Big-endian value of a byte sequence, and the field of [width] bytes at
    [off] of the payload array [Data]. *)
Definition big_endian (l : list Z) : Z := fold_left (fun acc b => acc * 256 + b) l 0.

Definition payload (m : Solax_Message_t) : list Z := drop 9 m.

Definition be_field (m : Solax_Message_t) (off width : nat) : Z :=
  big_endian (take width (drop off (payload m))).

(** The same bytes taken last to first. *)
Definition rev_field (m : Solax_Message_t) (off width : nat) : Z :=
  big_endian (rev (take width (drop off (payload m)))).

(** The scales of the table. *)
Definition scale_1 (raw : Z) : float := float_of_Z raw.

Definition scale_0_1 (raw : Z) : float := fmul (float_of_Z raw) f0_1.

Definition scale_0_01 (raw : Z) : float := fmul (float_of_Z raw) f0_01.

(** The decoder in the words of the table of the specification. *)
Definition decode_table (m : Solax_Message_t) : Solax_LiveData_t :=
  {| valid := true;
     Temperature := scale_1 (be_field m 0 2);
     Energy_Today := scale_0_1 (be_field m 2 2);
     DC1_Voltage := scale_0_1 (be_field m 4 2);
     DC2_Voltage := scale_0_1 (be_field m 6 2);
     DC1_Current := scale_0_1 (be_field m 8 2);
     DC2_Current := scale_0_1 (be_field m 10 2);
     AC_Current := scale_0_1 (be_field m 12 2);
     AC_Voltage := scale_0_1 (be_field m 14 2);
     Frequency := scale_0_01 (be_field m 16 2);
     Power := scale_1 (be_field m 18 2);
     Energy_Total := scale_0_1 (be_field m 22 4);
     Runtime_Total := scale_1 (be_field m 26 4);
     Status := be_field m 30 2 mod 256;
     ErrorBits := rev_field m 46 4 |}.

(** The binary32 number nearest to 1.1. *)
Definition f1_1 : float := fdiv (float_of_Z 11) (float_of_Z 10).

(** Equality of two floats that are numbers, as a test. *)
Definition feqb (a b : float) : bool :=
  match a, b with
  | S754_zero s, S754_zero s' => Bool.eqb s s'
  | S754_finite s m e, S754_finite s' m' e' =>
      Bool.eqb s s' && Pos.eqb m m' && Z.eqb e e'
  | _, _ => false
  end.

(** [raw] times the constant [c] is the correctly rounded quotient of [raw]
    by [d], or the float just above or just below it. *)
Definition scaled_near (c : float) (d : Z) (raw : Z) : bool :=
  let x := fmul (float_of_Z raw) c in
  let q := fdiv (float_of_Z raw) (float_of_Z d) in
  feqb x q || feqb x (SFsucc prec emax q) || feqb x (SFpred prec emax q).

(** A test on the [n] integers from [z] upward. *)
Fixpoint all_from (n : nat) (z : Z) (p : Z -> bool) : bool :=
  match n with
  | O => true
  | S n' => p z && all_from n' (z + 1) p
  end.

(** ** State machine *)

(** The reply that the state expects, as [solax_ReceiveQuery] tests it. *)
Definition expected_reply (st : Solax_StateQuery_t) (m : Solax_Message_t) : bool :=
  match st with
  | STATE_BROARDCAST => (ControlCode m =? 0x10) && (FunctionCode m =? 0x80)
  | STATE_INVERTER_ADDRESS =>
      (ControlCode m =? 0x10) && (FunctionCode m =? 0x81) && (Data m 0 =? 0x06)
  | STATE_QUERY_LIVE_DATA => (ControlCode m =? 0x11) && (FunctionCode m =? 0x82)
  end.

(** The length of the frame that each state transmits. *)
Definition tx_len (st : Solax_StateQuery_t) : Z :=
  match st with
  | STATE_INVERTER_ADDRESS => 26
  | _ => 11
  end.


(** Between two ticks the counter is below 30 when the flag is on and at 30
    or more when it is off: the flag cannot go on without a success. *)
Definition online_inv (q : Solax_Query_t) : Prop :=
  if solax_InverterOnline q then 0 <= timeoutInverterOnline q < 30
  else 30 <= timeoutInverterOnline q.

(** What the statics must satisfy between two ticks. *)
Definition wf_rx (r : Solax_Rx_t) : Prop :=
  wf_msg (rxMessage r) /\ length (solax_InverterSerialNumber r) = 15%nat /\
  bytes (solax_InverterSerialNumber r).

(** What one tick of [main] satisfies between two ticks. *)
Definition main_inv (s : Main_t) : Prop :=
  length (liveData s) = 100%nat /\ 0 <= index s <= 99 /\ wf_rx (rx (query s)).

(** ** Windowed average *)

(** The slot before [idx], going round from 0 to [max_idx]. *)
Definition walk_back (max_idx idx : Z) : Z :=
  if idx =? 0 then max_idx else idx - 1.

(** The samples the walk adds up: the valid slots met from [idx] backward,
    up to the first invalid slot and at most [n] of them. *)
Fixpoint valid_run (hist : list Solax_LiveData_t) (max_idx : Z) (n : nat)
    (idx : Z) : list Solax_LiveData_t :=
  match n with
  | O => []
  | S n' =>
      match hist !! Z.to_nat idx with
      | Some slot =>
          if valid slot then slot :: valid_run hist max_idx n' (walk_back max_idx idx)
          else []
      | None => []
      end
  end.

(** Sum and running maximum of a list of floats, from zero. *)
Definition fsum (l : list float) : float := fold_left fadd l fzero.

Definition fmax (a b : float) : float := if flt a b then b else a.

Definition fmaximum (l : list float) : float := fold_left fmax l fzero.

(** The sum divided by the number of samples; zero when there is none. *)
Definition mean (l : list float) : float :=
  match l with
  | [] => fzero
  | _ => fdiv (fsum l) (float_of_Z (Z.of_nat (length l)))
  end.

(** The published snapshot in the words of the specification: over the
    samples of the walk, a mean for the summed fields, a bitwise or for
    ErrorBits and a running maximum for the four others. *)
Definition window_average (run : list Solax_LiveData_t) : Solax_LiveData_t :=
  {| valid := false;
     Temperature := mean (map Temperature run);
     DC1_Voltage := mean (map DC1_Voltage run);
     DC2_Voltage := mean (map DC2_Voltage run);
     DC1_Current := mean (map DC1_Current run);
     DC2_Current := mean (map DC2_Current run);
     AC_Current := mean (map AC_Current run);
     AC_Voltage := mean (map AC_Voltage run);
     Frequency := mean (map Frequency run);
     Power := mean (map Power run);
     ErrorBits := fold_left Z.lor (map ErrorBits run) 0;
     Energy_Today := fmaximum (map Energy_Today run);
     Energy_Total := fmaximum (map Energy_Total run);
     Runtime_Total := fmaximum (map Runtime_Total run);
     Status := fold_left Z.max (map Status run) 0 |}.

(** ** Decidable side conditions *)

Global Instance is_byte_dec (b : Z) : Decision (is_byte b).
Proof. unfold is_byte. apply _. Defined.

Global Instance bytes_dec (l : list Z) : Decision (bytes l).
Proof. unfold bytes. apply _. Defined.

Global Instance wf_msg_dec (m : Solax_Message_t) : Decision (wf_msg m).
Proof. unfold wf_msg. apply _. Defined.

Global Instance wf_rx_dec (r : Solax_Rx_t) : Decision (wf_rx r).
Proof. unfold wf_rx. apply _. Defined.

Global Instance length_byte_wraps_dec (input : list Z) :
  Decision (length_byte_wraps input).
Proof. unfold length_byte_wraps. apply _. Defined.

(** ** Inputs of the examples *)

(** The header and serial number of [rx_msg_1] in a message buffer. *)
Definition tx_msg_1 : Solax_Message_t := take 23 rx_msg_1 ++ replicate 86 0.

(** An input that the line can deliver: the marker, and 0xF8 as the length
    byte. *)
Definition rx_wrap : list Z :=
  [0xAA; 0x55; 0x00; 0x00; 0x00; 0x00; 0x00; 0x00; 0xF8; 0x00; 0x00].

(** The frame [rx_msg_3] with Energy_Total and Runtime_Total reading zero,
    and its checksum. *)
Definition rx_zero_totals : list Z :=
  [0xAA; 0x55; 0x00; 0x0A; 0x01; 0x00; 0x11; 0x82; 0x32; 0x00; 0x0B; 0x00;
   0x01; 0x06; 0xDD; 0x00; 0x00; 0x00; 0x1F; 0x00; 0x00; 0x00; 0x15; 0x09;
   0x21; 0x13; 0x87; 0x01; 0xE7; 0xFF; 0xFF]
  ++ replicate 8 0x00 ++ [0x00; 0x02] ++ replicate 18 0x00 ++ [0x06; 0x9E].

(** The sample decoded from [rx_msg_3]. *)
Definition sample_3 : Solax_LiveData_t :=
  solax_ReceiveQuery_decode Solax_LiveData_zero (rx_msg_3 ++ replicate 48 0).

Definition tick_no_data : option (list Z) * Z := (Some [], 11).

Definition tick_live_data : option (list Z) * Z := (Some rx_msg_3, 11).

(** A history in which slot 3 is invalid and all others hold the sample of
    [rx_msg_3]. *)
Definition hist_gap : list Solax_LiveData_t :=
  replicate 3 sample_3 ++ [Solax_LiveData_zero] ++ replicate 96 sample_3.

(** A history whose slot 99 is invalid and whose 99 other slots are
    valid. *)
Definition hist_last_invalid : list Solax_LiveData_t :=
  replicate 99 sample_3 ++ [Solax_LiveData_zero].

(** ** Inputs of the line, frames of the queries, invariants of a run *)

(** A single read that the line can deliver and that the receiver can
    classify: at most 109 bytes on which the length byte does not wrap. *)
Definition input_ok (input : list Z) : Prop :=
  bytes input /\ (length input <= 109)%nat /\ ~ length_byte_wraps input.

Global Instance input_ok_dec (input : list Z) : Decision (input_ok input).
Proof. unfold input_ok. apply _. Defined.

(** The three queries of the protocol, as byte sequences: marker, source,
    destination, control code, function code, payload length and payload,
    followed by the checksum. *)
Definition query_body (a : Args) (st : Solax_StateQuery_t) (serial : list Z)
    : list Z :=
  match st with
  | STATE_BROARDCAST => [0xAA; 0x55; 0x01; 0x00; 0x00; 0x00; 0x10; 0x00; 0x00]
  | STATE_INVERTER_ADDRESS =>
      [0xAA; 0x55; 0x00; 0x00; 0x00; 0x00; 0x10; 0x01; 0x0F]
      ++ take 14 serial ++ [u8 (arg_InverterAddr a)]
  | STATE_QUERY_LIVE_DATA =>
      [0xAA; 0x55; 0x01; 0x00; 0x00; u8 (arg_InverterAddr a); 0x11; 0x02; 0x00]
  end.

Definition query_frame (a : Args) (st : Solax_StateQuery_t) (serial : list Z)
    : list Z :=
  query_body a st serial ++ big_endian16 (checksum (query_body a st serial)).

(** What the serial line can answer in one tick: a failed [read], or a read
    that the receiver can classify. *)
Definition tick_ok (t : option (list Z) * Z) : Prop :=
  match fst t with
  | None => True
  | Some input => input_ok input
  end.

(** The number of failures in a row at which each state is left. *)
Definition error_threshold (st : Solax_StateQuery_t) : Z :=
  match st with
  | STATE_BROARDCAST => 10
  | STATE_INVERTER_ADDRESS => 3
  | STATE_QUERY_LIVE_DATA => 3
  end.

(** The counters of the state machine between two ticks: the error counter
    is below the threshold of the state, the online counter is below 30 when
    the flag is on and is 30 when it is off. *)
Definition query_inv (q : Solax_Query_t) : Prop :=
  0 <= countError q < error_threshold (stateQuery q) /\
  if solax_InverterOnline q
  then 0 <= timeoutInverterOnline q < TIMEOUT_INVERTER_ONLINE
  else timeoutInverterOnline q = TIMEOUT_INVERTER_ONLINE.

Global Instance tick_ok_dec (t : option (list Z) * Z) : Decision (tick_ok t).
Proof. unfold tick_ok. destruct (fst t); apply _. Defined.

Global Instance query_inv_dec (q : Solax_Query_t) : Decision (query_inv q).
Proof. unfold query_inv. destruct (solax_InverterOnline q); apply _. Defined.

Global Instance main_inv_dec (s : Main_t) : Decision (main_inv s).
Proof. unfold main_inv. apply _. Defined.

(** The state and the error counter after [k] ticks without an answer,
    counted from an entry into the live-data state: three ticks in the
    live-data state, ten in the broadcast state, and again. *)
Definition silent_cycle (k : Z) : Solax_StateQuery_t * Z :=
  let r := k mod 13 in
  if r <? 3 then (STATE_QUERY_LIVE_DATA, r) else (STATE_BROARDCAST, r - 3).

(** The quality of service for [k] valid slots out of 100, and what is
    tested of it: it lies between 0 and 1, is 1 for 100 valid slots only and
    0 for none only. *)
Definition qos_of (k : Z) : float := fdiv (float_of_Z k) (float_of_Z 100).

Definition qos_in_unit_interval (k : Z) : bool :=
  SFleb fzero (qos_of k) && SFleb (qos_of k) (float_of_Z 1) &&
  Bool.eqb (feqb (qos_of k) (float_of_Z 1)) (k =? 100) &&
  Bool.eqb (feqb (qos_of k) fzero) (k =? 0).

(** A float that is not a NaN. *)
Definition is_nan (f : float) : bool :=
  match f with
  | S754_nan => true
  | _ => false
  end.

(** The three counters of a sample are numbers. *)
Definition counters_are_numbers (s : Solax_LiveData_t) : Prop :=
  is_nan (Energy_Today s) = false /\ is_nan (Energy_Total s) = false /\
  is_nan (Runtime_Total s) = false.

Global Instance counters_are_numbers_dec (s : Solax_LiveData_t) :
  Decision (counters_are_numbers s).
Proof. unfold counters_are_numbers. apply _. Defined.

(** A float that is a number with the sign bit clear: a zero, a finite
    number or an infinity, none of them negative. *)
Definition nonneg_number (f : float) : bool :=
  match f with
  | S754_zero false | S754_infinity false | S754_finite false _ _ => true
  | _ => false
  end.

(** Every reading of a sample is such a number, the status is a byte and
    the error bits are 32 bits. *)
Definition readings_are_numbers (s : Solax_LiveData_t) : Prop :=
  Forall (fun f => nonneg_number f = true)
    [Temperature s; Energy_Today s; DC1_Voltage s; DC2_Voltage s;
     DC1_Current s; DC2_Current s; AC_Current s; AC_Voltage s; Frequency s;
     Power s; Energy_Total s; Runtime_Total s] /\
  0 <= Status s < 256 /\ 0 <= ErrorBits s < 4294967296.

Global Instance readings_are_numbers_dec (s : Solax_LiveData_t) :
  Decision (readings_are_numbers s).
Proof. unfold readings_are_numbers. apply _. Defined.

(** The slot that the last tick has written, and its sample. *)
Definition last_index (s : Main_t) : Z :=
  if index s =? 0 then MAX_INDEX_OF_LIVE_DATA else index s - 1.

Definition latest (s : Main_t) : Solax_LiveData_t :=
  nth (Z.to_nat (last_index s)) (liveData s) Solax_LiveData_zero.

(** The published snapshot and the latest sample: zero when the sample is
    invalid, and counters that are not below those of the sample when it is
    valid. *)
Definition snapshot_covers_latest (s : Main_t) : Prop :=
  if valid (latest s) then
    SFleb (Energy_Today (latest s)) (Energy_Today (solax_LiveData s)) = true /\
    SFleb (Energy_Total (latest s)) (Energy_Total (solax_LiveData s)) = true /\
    SFleb (Runtime_Total (latest s)) (Runtime_Total (solax_LiveData s)) = true
  else solax_LiveData s = Solax_LiveData_zero.

(** The text of the log line for the bytes [data], the first of them at
    index [i]: a space before every eighth byte, then two digits and a space
    for each byte. *)
Definition hex_group (i x : Z) : list ascii :=
  (if i mod 8 =? 0 then [" "%char] else [])
  ++ [hex_digit (x / 16); hex_digit (x mod 16); " "%char].

Fixpoint hex_line (i : Z) (data : list Z) : list ascii :=
  match data with
  | [] => []
  | x :: data' => hex_group i x ++ hex_line (i + 1) data'
  end.

(** Reading the log line back: spaces are skipped, two digits make a
    byte. *)
Definition hex_value (c : ascii) : Z :=
  let n := Z.of_N (N_of_ascii c) in
  if n <? 58 then n - 48 else n - 55.

Fixpoint hex_parse (s : list ascii) : list Z :=
  match s with
  | [] => []
  | c :: s' =>
      if ascii_dec c " " then hex_parse s'
      else match s' with
           | [] => []
           | l :: s'' => (16 * hex_value c + hex_value l) :: hex_parse s''
           end
  end.

(** A buffer with the text [s] and its NUL written at [pos]. *)
Definition emit (buff : list ascii) (pos : nat) (s : list ascii) : list ascii :=
  take pos buff ++ s ++ ["000"%char] ++ drop (pos + length s + 1) buff.

(** * Properties *)

Ltac by_computation := apply (bool_decide_unpack _); vm_compute; exact I.

(** ** The [exec] monad, the loops and the arrays *)

Lemma bind_Ok {A B} (k : A -> exec B) (a : A) : (Ok a ≫= k) = k a.
Proof. reflexivity. Qed.

Lemma bind_inv_Ok {A B} (k : A -> exec B) (m : exec A) (b : B) :
  (m ≫= k) = Ok b -> exists a, m = Ok a /\ k a = Ok b.
Proof. destruct m as [a|f]; [eauto | discriminate]. Qed.

Lemma u8_small z : 0 <= z < 256 -> u8 z = z.
Proof. intros; unfold u8; apply Z.mod_small; lia. Qed.

Lemma u8_range z : 0 <= u8 z < 256.
Proof. unfold u8; apply Z.mod_pos_bound; lia. Qed.

Lemma u16_range z : 0 <= u16 z < 65536.
Proof. unfold u16; apply Z.mod_pos_bound; lia. Qed.

Lemma is_byte_u8 (z : Z) : is_byte (u8 z).
Proof. apply u8_range. Qed.

Lemma load_Ok {A} (a : list A) (i : Z) (x : A) :
  0 <= i -> a !! Z.to_nat i = Some x -> load a i = Ok x.
Proof.
  intros Hi Hx. unfold load.
  destruct (Z.ltb_spec i 0); [lia|]. now rewrite Hx.
Qed.

Lemma load_OutOfBounds {A} (a : list A) (i : Z) :
  Z.of_nat (length a) <= i -> load a i = Fault OutOfBounds.
Proof.
  intros Hi. unfold load.
  destruct (Z.ltb_spec i 0); [reflexivity|].
  rewrite lookup_ge_None_2; [reflexivity | lia].
Qed.

Lemma store_Ok {A} (a : list A) (i : Z) (v : A) :
  0 <= i < Z.of_nat (length a) -> store a i v = Ok (<[Z.to_nat i := v]> a).
Proof.
  intros Hi. unfold store.
  destruct (Z.leb_spec 0 i); [|lia].
  destruct (Z.ltb_spec i (Z.of_nat (length a))); [reflexivity|lia].
Qed.

Lemma store_OutOfBounds {A} (a : list A) (i : Z) (v : A) :
  Z.of_nat (length a) <= i -> store a i v = Fault OutOfBounds.
Proof.
  intros Hi. unfold store.
  destruct (Z.ltb_spec i (Z.of_nat (length a))); [lia|].
  now rewrite andb_false_r.
Qed.

(** With a bound of at most 254 the loop is the counted loop of
    [bound + 1 - i] runs, once the fuel covers them. *)
Lemma for_u8_counted {St} (body : Z -> St -> exec St) (bound : Z) :
  bound <= 254 ->
  forall (n fuel : nat) (i : Z) (s : St),
    0 <= i -> n = Z.to_nat (bound + 1 - i) -> (n <= fuel)%nat ->
    for_u8 fuel bound body i s = iterM body i n s.
Proof.
  intros Hb n. induction n as [|n IH]; intros fuel i s Hi Hn Hf.
  - destruct fuel; simpl; destruct (Z.leb_spec i bound); try reflexivity; lia.
  - destruct fuel as [|fuel]; [lia|]. simpl.
    destruct (Z.leb_spec i bound); [|lia].
    destruct (body i s) as [s'|f]; [|reflexivity]. simpl.
    rewrite u8_small by lia. apply IH; lia.
Qed.

(** With a bound of 255 or more the [uint8_t] counter never exceeds it: the
    loop does not return, whatever the fuel. *)
Lemma for_u8_diverges {St} (body : Z -> St -> exec St) (bound : Z) :
  255 <= bound ->
  forall (fuel : nat) (i : Z) (s r : St),
    0 <= i < 256 -> for_u8 fuel bound body i s <> Ok r.
Proof.
  intros Hb fuel. induction fuel as [|fuel IH]; intros i s r Hi; simpl;
    destruct (Z.leb_spec i bound); try lia; try discriminate.
  destruct (body i s) as [s'|f]; [|discriminate]. simpl.
  apply IH, u8_range.
Qed.

Lemma field_insert_ne (m : Solax_Message_t) (off : Z) (i : nat) (v : Z) :
  Z.to_nat off <> i -> field (<[i := v]> m) off = field m off.
Proof.
  intros Hne. unfold field. rewrite !nth_lookup.
  now rewrite list_lookup_insert_ne by congruence.
Qed.

Lemma field_lookup (m : Solax_Message_t) (off : Z) (b : Z) :
  m !! Z.to_nat off = Some b -> field m off = b.
Proof. intros H. unfold field. now rewrite nth_lookup, H. Qed.

Lemma field_is_byte (m : Solax_Message_t) (off : Z) :
  bytes m -> is_byte (field m off).
Proof.
  intros Hm. unfold field. rewrite nth_lookup.
  destruct (m !! Z.to_nat off) as [b|] eqn:Hb; simpl.
  - eapply Forall_lookup_1; eauto.
  - unfold is_byte; lia.
Qed.

Lemma field_app_l (input rest : list Z) (off : Z) :
  (Z.to_nat off < length input)%nat ->
  field (input ++ rest) off = nth (Z.to_nat off) input 0.
Proof. intros H. unfold field. now rewrite app_nth1 by exact H. Qed.

Lemma nth_is_byte (l : list Z) (k : nat) : bytes l -> is_byte (nth k l 0).
Proof.
  intros Hl. rewrite nth_lookup.
  destruct (l !! k) as [b|] eqn:Hb; simpl.
  - eapply Forall_lookup_1; eauto.
  - unfold is_byte; lia.
Qed.

Lemma Data_is_byte (m : Solax_Message_t) (k : Z) : bytes m -> 0 <= Data m k < 256.
Proof. intros Hm. apply (field_is_byte m (off_Data + k) Hm). Qed.

(** Writing two cells in a row and taking the prefix that ends with them. *)
Lemma take_insert2 {A} (l : list A) (n : nat) (x y : A) :
  (n + 2 <= length l)%nat ->
  take (n + 2) (<[S n := y]> (<[n := x]> l)) = take n l ++ [x; y].
Proof.
  revert l. induction n as [|n IH]; intros l Hl.
  - destruct l as [|a [|b l]]; simpl in *; try lia. now rewrite take_0.
  - destruct l as [|a l]; simpl in *; [lia|]. f_equal. apply IH. lia.
Qed.

Lemma take2_drop (l : list Z) (k : nat) :
  (k + 2 <= length l)%nat -> take 2 (drop k l) = [nth k l 0; nth (S k) l 0].
Proof.
  revert l. induction k as [|k IH]; intros l Hl.
  - destruct l as [|a [|b l]]; simpl in *; try lia. now rewrite take_0.
  - destruct l as [|a l]; simpl in *; [lia|]. apply IH. lia.
Qed.

Lemma take4_drop (l : list Z) (k : nat) :
  (k + 4 <= length l)%nat ->
  take 4 (drop k l) = [nth k l 0; nth (1 + k) l 0; nth (2 + k) l 0; nth (3 + k) l 0].
Proof.
  revert l. induction k as [|k IH]; intros l Hl.
  - destruct l as [|a [|b [|c [|d l]]]]; simpl in *; try lia. now rewrite take_0.
  - destruct l as [|a l]; simpl in *; [lia|].
    rewrite IH by lia. reflexivity.
Qed.

Lemma load_app_l (input rest : list Z) (i : Z) :
  0 <= i < Z.of_nat (length input) ->
  load (input ++ rest) i = Ok (nth (Z.to_nat i) input 0).
Proof.
  intros Hi. apply load_Ok; [lia|].
  rewrite lookup_app_l by lia.
  destruct (lookup_lt_is_Some_2 input (Z.to_nat i)) as [b Hb]; [lia|].
  rewrite Hb. f_equal. symmetry. rewrite nth_lookup, Hb. reflexivity.
Qed.

(** ** The additive checksum *)

Lemma sum_bytes_app l1 l2 : sum_bytes (l1 ++ l2) = sum_bytes l1 + sum_bytes l2.
Proof. unfold sum_bytes. induction l1; simpl; lia. Qed.

Lemma checksum_range (l : list Z) : 0 <= checksum l < 65536.
Proof. unfold checksum. apply Z.mod_pos_bound. lia. Qed.

Lemma highByte_lowByte (c : Z) :
  0 <= c < 65536 -> [highByte c; lowByte c] = big_endian16 c.
Proof.
  intros Hc. unfold highByte, lowByte, big_endian16.
  rewrite Z.shiftr_div_pow2 by lia. change (2 ^ 8) with 256.
  rewrite (u8_small (c / 256)); [reflexivity|].
  split; [apply Z.div_pos; lia | apply Z.div_lt_upper_bound; lia].
Qed.

Lemma CalculateCRC_iter (data : list Z) :
  forall (n : nat) (i : Z) (chk : Z),
    0 <= i -> (Z.to_nat i + n <= length data)%nat ->
    iterM (fun i chkSum => b ← load data i; mret (u16 (chkSum + b))) i n chk
    = Ok (if decide (n = O) then chk
          else u16 (chk + sum_bytes (take n (drop (Z.to_nat i) data)))).
Proof.
  induction n as [|n IH]; intros i chk Hi Hlen; [reflexivity|].
  cbn [iterM].
  destruct (lookup_lt_is_Some_2 data (Z.to_nat i)) as [b Hb]; [lia|].
  rewrite (load_Ok _ _ _ Hi Hb). cbn -[u16].
  rewrite IH by lia.
  replace (Z.to_nat (i + 1)) with (S (Z.to_nat i)) by lia.
  rewrite (drop_S _ _ _ Hb). cbn [take sum_bytes foldr].
  destruct n as [|n]; cbn -[u16 take drop].
  - rewrite take_0. simpl. now rewrite Z.add_0_r.
  - f_equal. unfold u16. fold (sum_bytes (take (S n) (drop (S (Z.to_nat i)) data))).
    rewrite Zplus_mod_idemp_l. f_equal. lia.
Qed.

(** [solax_CalculateCRC data dataLen] sums the bytes [data[0..dataLen]]. *)
Lemma solax_CalculateCRC_spec (fuel : nat) (data : list Z) (dataLen : Z) :
  0 <= dataLen <= 254 -> dataLen < Z.of_nat (length data) ->
  (Z.to_nat dataLen < fuel)%nat ->
  solax_CalculateCRC fuel data dataLen
  = Ok (checksum (take (S (Z.to_nat dataLen)) data)).
Proof.
  intros Hd Hlen Hf. unfold solax_CalculateCRC.
  rewrite (for_u8_counted _ dataLen ltac:(lia) (S (Z.to_nat dataLen))) by lia.
  rewrite CalculateCRC_iter by (simpl; lia).
  simpl decide. cbn iota. reflexivity.
Qed.

(** With [dataLen = 255] the function does not return. *)
Lemma solax_CalculateCRC_255 (fuel : nat) (data : list Z) (r : Z) :
  solax_CalculateCRC fuel data 255 <> Ok r.
Proof. apply for_u8_diverges; lia. Qed.

(** ** [solax_RS485_Send] *)

Lemma solax_RS485_Send_spec (fuel : nat) (m : Solax_Message_t) (wr : Z) :
  wf_msg m -> DataLength m <= 98 -> (Z.to_nat (DataLength m) + 9 <= fuel)%nat ->
  exists m',
    solax_RS485_Send fuel m wr
    = Ok (m', frame_body m ++ big_endian16 (checksum (frame_body m)),
          if decide (wr = DataLength m + 11) then ERR_NONE else ERR_IO).
Proof.
  intros [Hlen Hb] Hdl Hfuel.
  pose proof (field_is_byte m off_DataLength Hb) as Hdlb.
  fold (DataLength m) in Hdlb. unfold is_byte in Hdlb.
  unfold sizeof_Solax_Message_t in Hlen.
  unfold solax_RS485_Send.
  rewrite store_Ok by (unfold off_Header; lia). rewrite bind_Ok.
  rewrite store_Ok by (rewrite length_insert; unfold off_Header; lia).
  rewrite bind_Ok.
  set (m2 := <[Z.to_nat (off_Header + 1) := 85]> (<[Z.to_nat (off_Header + 0) := 170]> m)).
  assert (Hdl2 : DataLength m2 = DataLength m).
  { unfold DataLength, m2. rewrite !field_insert_ne by (compute; lia). reflexivity. }
  assert (Hlen2 : length m2 = 109%nat).
  { unfold m2. rewrite !length_insert. lia. }
  rewrite Hdl2.
  set (dl := DataLength m) in *.
  rewrite (u8_small (dl + 9)) by lia.
  rewrite (u8_small (dl + 9 - 1)) by lia.
  rewrite solax_CalculateCRC_spec by lia.
  rewrite bind_Ok.
  replace (S (Z.to_nat (dl + 9 - 1))) with (Z.to_nat dl + 9)%nat by lia.
  assert (Hbody : take (Z.to_nat dl + 9) m2 = frame_body m).
  { unfold frame_body, m2. fold dl.
    destruct m as [|a [|b m0]]; simpl in Hlen; try lia.
    replace (Z.to_nat dl + 9)%nat with (S (S (Z.to_nat dl + 7))) by lia.
    reflexivity. }
  rewrite Hbody.
  set (crc := checksum (frame_body m)).
  rewrite store_Ok by (unfold off_Data; lia). rewrite bind_Ok.
  assert (Hdl3 : DataLength (<[Z.to_nat (off_Data + (dl + 0)) := highByte crc]> m2) = dl).
  { unfold DataLength. rewrite field_insert_ne; [exact Hdl2|].
    unfold off_Data, off_DataLength. lia. }
  rewrite Hdl3.
  rewrite store_Ok by (rewrite length_insert; unfold off_Data; lia).
  rewrite bind_Ok.
  rewrite (u8_small (dl + 9 + 2)) by lia.
  unfold load_range. rewrite !length_insert.
  destruct (Z.leb_spec 0 (dl + 9 + 2)); [|lia].
  destruct (Z.leb_spec (dl + 9 + 2) (Z.of_nat (length m2))); [|lia].
  cbn [andb]. rewrite bind_Ok.
  replace (Z.to_nat (dl + 9 + 2)) with (Z.to_nat dl + 9 + 2)%nat by lia.
  replace (Z.to_nat (off_Data + (dl + 1))) with (S (Z.to_nat dl + 9)) by (unfold off_Data; lia).
  replace (Z.to_nat (off_Data + (dl + 0))) with (Z.to_nat dl + 9)%nat by (unfold off_Data; lia).
  rewrite take_insert2 by lia.
  rewrite Hbody, (highByte_lowByte crc) by apply checksum_range.
  eexists.
  replace (dl + 9 + 2) with (dl + 11) by lia.
  destruct (decide (wr = dl + 11)); reflexivity.
Qed.

(** C1. The checksum that [solax_RS485_Send] appends is the sum modulo 65536
    of all bytes from the marker through the last payload byte, high byte
    first; for the 23 bytes of [rx_msg_1] before its checksum the function
    [solax_CalculateCRC] returns 0x0575, the two bytes 0x05 0x75 that end
    [rx_msg_1], and the receiver accepts [rx_msg_1]. *)
Theorem C1_additive_checksum (fuel : nat) (m : Solax_Message_t) (wr : Z) :
  wf_msg m -> DataLength m <= 98 -> (Z.to_nat (DataLength m) + 9 <= fuel)%nat ->
  (exists m' r,
     solax_RS485_Send fuel m wr
     = Ok (m', frame_body m ++ big_endian16 (checksum (frame_body m)), r)) /\
  solax_CalculateCRC 23 rx_msg_1 22 = Ok (checksum (take 23 rx_msg_1)) /\
  checksum (take 23 rx_msg_1) = 0x0575 /\
  drop 23 rx_msg_1 = big_endian16 0x0575 /\
  big_endian16 0x0575 = [0x05; 0x75] /\
  solax_RS485_Receive 23 (replicate 109 0) (Some rx_msg_1)
  = Ok (rx_msg_1 ++ replicate 84 0, ERR_NONE).
Proof.
  intros Hm Hdl Hfuel. split; [|repeat split; vm_compute; reflexivity].
  destruct (solax_RS485_Send_spec fuel m wr Hm Hdl Hfuel) as [m' Hsend].
  eauto.
Qed.

Lemma C1_additive_checksum_witness :
  wf_msg tx_msg_1 /\ DataLength tx_msg_1 <= 98 /\
  exists m' r, solax_RS485_Send 23 tx_msg_1 25 = Ok (m', rx_msg_1, r).
Proof.
  assert (H1 : wf_msg tx_msg_1) by by_computation.
  assert (H2 : DataLength tx_msg_1 <= 98) by by_computation.
  assert (H3 : (Z.to_nat (DataLength tx_msg_1) + 9 <= 23)%nat) by by_computation.
  split; [exact H1 | split; [exact H2 |]].
  exact (proj1 (C1_additive_checksum 23 tx_msg_1 25 H1 H2 H3)).
Defined.

(** C9. For every payload of at most 98 bytes [solax_RS485_Send] builds the
    frame: marker, header and payload followed by the big-endian additive
    checksum, and hands it to [write], whatever [write] then answers; it
    returns [ERR_NONE] when [write] takes the whole frame, and the only
    failure code it has is that of the transport. The encoding itself fails
    only beyond 98 bytes: with a payload of 99 bytes or more the checksum
    does not fit the data array and no code is returned. *)
Theorem C9_send (fuel : nat) (m : Solax_Message_t) (wr : Z) :
  wf_msg m -> (107 <= fuel)%nat ->
  (DataLength m <= 98 ->
   exists m',
     solax_RS485_Send fuel m wr
     = Ok (m', frame_body m ++ big_endian16 (checksum (frame_body m)),
           if decide (wr = DataLength m + 11) then ERR_NONE else ERR_IO)) /\
  (99 <= DataLength m -> forall r, solax_RS485_Send fuel m wr <> Ok r).
Proof.
  intros Hm Hfuel. split.
  - intros Hdl. apply solax_RS485_Send_spec; [exact Hm | exact Hdl |].
    destruct Hm as [_ Hb].
    pose proof (field_is_byte m off_DataLength Hb) as Hdlb.
    fold (DataLength m) in Hdlb. unfold is_byte in Hdlb. lia.
  - intros Hdl r. destruct Hm as [Hlen Hb].
    unfold sizeof_Solax_Message_t in Hlen.
    unfold solax_RS485_Send.
    rewrite store_Ok by (unfold off_Header; lia). rewrite bind_Ok.
    rewrite store_Ok by (rewrite length_insert; unfold off_Header; lia).
    rewrite bind_Ok.
    set (m2 := <[Z.to_nat (off_Header + 1) := 85]>
                 (<[Z.to_nat (off_Header + 0) := 170]> m)).
    assert (Hdl2 : DataLength m2 = DataLength m).
    { unfold DataLength, m2. rewrite !field_insert_ne by (compute; lia).
      reflexivity. }
    assert (Hlen2 : length m2 = 109%nat).
    { unfold m2. rewrite !length_insert. lia. }
    rewrite Hdl2. set (dl := DataLength m) in *.
    intros Hres. apply bind_inv_Ok in Hres as (crc & _ & Hres).
    destruct (Z.le_gt_cases 100 dl) as [Hbig|H99].
    + rewrite store_OutOfBounds in Hres by (unfold off_Data; lia).
      discriminate.
    + rewrite store_Ok in Hres by (unfold off_Data; lia).
      rewrite bind_Ok in Hres.
      assert (Hdl3 : DataLength (<[Z.to_nat (off_Data + (dl + 0)) := highByte crc]> m2) = dl).
      { unfold DataLength. rewrite field_insert_ne; [exact Hdl2|].
        unfold off_Data, off_DataLength. lia. }
      rewrite Hdl3 in Hres.
      rewrite store_OutOfBounds in Hres
        by (rewrite length_insert; unfold off_Data; lia).
      discriminate.
Qed.

Lemma C9_send_witness :
  wf_msg tx_msg_1 /\ DataLength tx_msg_1 <= 98 /\
  exists m', solax_RS485_Send 107 tx_msg_1 25 = Ok (m', rx_msg_1, ERR_NONE).
Proof.
  assert (H1 : wf_msg tx_msg_1) by by_computation.
  assert (H2 : DataLength tx_msg_1 <= 98) by by_computation.
  split; [exact H1 | split; [exact H2 |]].
  exact (proj1 (C9_send 107 tx_msg_1 25 H1 (le_n 107)) H2).
Defined.

(** ** [solax_RS485_Receive] *)

Lemma decode_spec_not_IO (input : list Z) : decode_spec input <> ERR_IO.
Proof.
  unfold decode_spec.
  repeat match goal with
         | |- context [if ?c then _ else _] => destruct c
         end; discriminate.
Qed.

Lemma decode_spec_NONE_length (input : list Z) :
  decode_spec input = ERR_NONE -> (11 <= length input)%nat.
Proof.
  unfold decode_spec.
  destruct (Z.eqb_spec (Z.of_nat (length input)) 0); [discriminate|].
  destruct (Z.ltb_spec (Z.of_nat (length input)) 11); [discriminate|]. lia.
Qed.

Lemma decode_spec_wraps (input : list Z) :
  (length input <= 109)%nat -> length_byte_wraps input ->
  decode_spec input = ERR_INVALID_MSG.
Proof.
  intros Hlen109 (Hlen & Hmark & Hdl). unfold decode_spec. rewrite Hmark.
  destruct (Z.eqb_spec (Z.of_nat (length input)) 0); [lia|].
  destruct (Z.ltb_spec (Z.of_nat (length input)) 11); [lia|].
  rewrite bool_decide_eq_true_2 by reflexivity. cbn [orb negb].
  destruct (Z.gtb_spec (9 + nth 8 input 0 + 2) (Z.of_nat (length input)));
    [reflexivity | lia].
Qed.

(** On every input on which the length byte does not wrap the receiver
    returns, and classifies the bytes as the specification says; the bytes
    beyond the declared frame length play no part. *)
Lemma solax_RS485_Receive_spec (fuel : nat) (buf : Solax_Message_t)
    (input : list Z) :
  length buf = 109%nat -> bytes input -> (length input <= 109)%nat ->
  (256 <= fuel)%nat -> ~ length_byte_wraps input ->
  solax_RS485_Receive fuel buf (Some input)
  = Ok (input ++ drop (length input) buf, decode_spec input).
Proof.
  intros Hbuf Hin Hlen Hfuel Hnw.
  unfold solax_RS485_Receive, read, decode_spec, sizeof_Solax_Message_t.
  rewrite take_ge by lia.
  set (m := input ++ drop (length input) buf).
  set (len := Z.of_nat (length input)).
  destruct (Z.ltb_spec len 0); [lia|].
  destruct (Z.eqb_spec len 0); [reflexivity|].
  destruct (Z.ltb_spec len 11) as [Hlt|Hge]; [reflexivity|]. cbn [orb].
  assert (Hlen11 : (11 <= length input)%nat) by (unfold len in Hge; lia).
  assert (Hm0 : field m (off_Header + 0) = nth 0 input 0)
    by (apply field_app_l; unfold off_Header, off_DataLength; lia).
  assert (Hm1 : field m (off_Header + 1) = nth 1 input 0)
    by (apply field_app_l; unfold off_Header, off_DataLength; lia).
  assert (Hm8 : DataLength m = nth 8 input 0)
    by (apply field_app_l; unfold off_Header, off_DataLength; lia).
  rewrite Hm0, Hm1, Hm8.
  change (take 2 input) with (take 2 (drop 0 input)).
  rewrite (take2_drop input 0) by lia.
  set (dl := nth 8 input 0) in *.
  pose proof (nth_is_byte input 8 Hin) as Hdlb. fold dl in Hdlb.
  unfold is_byte in Hdlb.
  assert (Hmark : negb (nth 0 input 0 =? 170) || negb (nth 1 input 0 =? 85)
                  = negb (bool_decide ([nth 0 input 0; nth 1 input 0] = [170; 85]))).
  { destruct (Z.eqb_spec (nth 0 input 0) 170) as [->|H0];
    destruct (Z.eqb_spec (nth 1 input 0) 85) as [->|H1]; cbn [negb orb];
    case_bool_decide; try reflexivity; congruence. }
  rewrite Hmark.
  destruct (bool_decide _) eqn:Hmk; [|reflexivity]. cbn [negb].
  assert (Hdl : dl <= 246).
  { destruct (Z.le_gt_cases dl 246) as [Hle|Hgt]; [exact Hle|].
    exfalso. apply Hnw. split; [exact Hlen11|]. split; [|unfold dl in *; lia].
    apply bool_decide_eq_true_1 in Hmk.
    change (take 2 input) with (take 2 (drop 0 input)).
    now rewrite (take2_drop input 0) by lia. }
  rewrite (u8_small (dl + 9)) by lia.
  replace (9 + dl + 2) with (dl + 9 + 2) by lia.
  destruct (Z.gtb_spec (dl + 9 + 2) len) as [Hgt|Hle]; [reflexivity|].
  unfold len in Hle.
  rewrite (u8_small (dl + 9 - 1)) by lia.
  assert (Hlm : length m = 109%nat).
  { unfold m. rewrite length_app, length_drop. lia. }
  set (crc := checksum (take (Z.to_nat (9 + dl)) input)).
  assert (Hcrc : solax_CalculateCRC fuel m (dl + 9 - 1) = Ok crc).
  { rewrite solax_CalculateCRC_spec by lia.
    replace (S (Z.to_nat (dl + 9 - 1))) with (Z.to_nat (9 + dl)) by lia.
    unfold m. now rewrite take_app_le by lia. }
  rewrite Hcrc, bind_Ok.
  unfold m, off_Data.
  rewrite !load_app_l by lia. rewrite bind_Ok.
  rewrite (take2_drop input (Z.to_nat (9 + dl))) by lia.
  rewrite <- (highByte_lowByte crc) by apply checksum_range.
  replace (Z.to_nat (9 + (dl + 0))) with (Z.to_nat (9 + dl)) by lia.
  replace (Z.to_nat (9 + (dl + 1))) with (S (Z.to_nat (9 + dl))) by lia.
  destruct (Z.eqb_spec (nth (Z.to_nat (9 + dl)) input 0) (highByte crc)) as [->|H0];
    cbn [negb].
  - rewrite bind_Ok.
    destruct (Z.eqb_spec (nth (S (Z.to_nat (9 + dl))) input 0) (lowByte crc)) as [->|H1];
      cbn [negb].
    + now rewrite bool_decide_eq_true_2.
    + now rewrite bool_decide_eq_false_2 by congruence.
  - now rewrite bool_decide_eq_false_2 by congruence.
Qed.

(** A length byte of 247 or more makes [msgLen] wrap, the length test
    passes and the checksum bytes are looked up outside the buffer. *)
Lemma solax_RS485_Receive_wrap (fuel : nat) (buf : Solax_Message_t)
    (input : list Z) (m : Solax_Message_t) :
  length buf = 109%nat -> bytes input -> (length input <= 109)%nat ->
  length_byte_wraps input ->
  decode_spec input = ERR_INVALID_MSG /\
  forall e, solax_RS485_Receive fuel buf (Some input) <> Ok (m, e).
Proof.
  intros Hbuf Hin Hlen109 (Hlen11 & Hmark & Hdl).
  assert (Hlen : (11 <= length input <= 109)%nat) by lia. split.
  - unfold decode_spec. rewrite Hmark.
    destruct (Z.eqb_spec (Z.of_nat (length input)) 0); [lia|].
    destruct (Z.ltb_spec (Z.of_nat (length input)) 11); [lia|].
    rewrite bool_decide_eq_true_2 by reflexivity. cbn [orb negb].
    destruct (Z.gtb_spec (9 + nth 8 input 0 + 2) (Z.of_nat (length input)));
      [reflexivity | lia].
  - intros e.
    unfold solax_RS485_Receive, read, sizeof_Solax_Message_t.
    rewrite take_ge by lia.
    set (m' := input ++ drop (length input) buf).
    destruct (Z.ltb_spec (Z.of_nat (length input)) 0); [lia|].
    destruct (Z.eqb_spec (Z.of_nat (length input)) 0); [lia|].
    destruct (Z.ltb_spec (Z.of_nat (length input)) 11); [lia|]. cbn [orb].
    assert (Hm0 : field m' (off_Header + 0) = 170).
    { unfold m'. rewrite field_app_l by (unfold off_Header; lia).
      pose proof (take2_drop input 0 ltac:(lia)) as Ht.
      rewrite drop_0, Hmark in Ht. now inversion Ht. }
    assert (Hm1 : field m' (off_Header + 1) = 85).
    { unfold m'. rewrite field_app_l by (unfold off_Header; lia).
      pose proof (take2_drop input 0 ltac:(lia)) as Ht.
      rewrite drop_0, Hmark in Ht. now inversion Ht. }
    assert (Hm8 : DataLength m' = nth 8 input 0)
      by (apply field_app_l; unfold off_DataLength; lia).
    rewrite Hm0, Hm1, Hm8. cbn [Z.eqb Pos.eqb negb orb].
    set (dl := nth 8 input 0) in *.
    pose proof (nth_is_byte input 8 Hin) as Hdlb. fold dl in Hdlb.
    unfold is_byte in Hdlb.
    assert (Hlm : length m' = 109%nat).
    { unfold m'. rewrite length_app, length_drop. lia. }
    assert (Hu : u8 (dl + 9) = dl + 9 - 256).
    { unfold u8. symmetry. apply (Z.mod_unique _ _ 1); lia. }
    rewrite Hu.
    destruct (Z.gtb_spec (dl + 9 - 256 + 2) (Z.of_nat (length input))); [lia|].
    intros Hres. apply bind_inv_Ok in Hres as (crc & _ & Hres).
    rewrite (load_OutOfBounds m' (off_Data + (dl + 0))) in Hres
      by (unfold off_Data; lia).
    discriminate.
Qed.

(** What [solax_RS485_Receive] leaves in the buffer is what [read] put
    there. *)
Lemma solax_RS485_Receive_buffer (fuel : nat) (buf : Solax_Message_t)
    (rd : option (list Z)) (m : Solax_Message_t) (e : Solax_ErrorQuery_t) :
  solax_RS485_Receive fuel buf rd = Ok (m, e) ->
  m = snd (read rd buf sizeof_Solax_Message_t).
Proof.
  unfold solax_RS485_Receive.
  destruct (read rd buf sizeof_Solax_Message_t) as [rxLen m0]. cbn [snd].
  repeat match goal with
         | |- (if ?c then _ else _) = _ -> _ => destruct c
         | |- mret _ = Ok _ -> _ => intros [= <- <-]; reflexivity
         | |- (_ ≫= _) = Ok _ -> _ =>
             let H := fresh in
             intros H; apply bind_inv_Ok in H as (? & _ & H); revert H
         end.
Qed.

Lemma read_wf (input : list Z) (buf : Solax_Message_t) :
  wf_msg buf -> bytes input ->
  wf_msg (snd (read (Some input) buf sizeof_Solax_Message_t)).
Proof.
  intros [Hlen Hb] Hin. unfold sizeof_Solax_Message_t in *. cbn [read snd].
  split.
  - unfold sizeof_Solax_Message_t.
    rewrite length_app, length_drop, length_take. lia.
  - apply Forall_app. split.
    + apply Forall_take, Hin.
    + apply Forall_drop, Hb.
Qed.

(** The bytes that follow a complete frame play no part in its
    classification. *)
Lemma decode_spec_trailing (frame extra : list Z) :
  (11 <= length frame)%nat -> Z.of_nat (length frame) = nth 8 frame 0 + 11 ->
  decode_spec (frame ++ extra) = decode_spec frame.
Proof.
  intros H11 Hlen. unfold decode_spec.
  rewrite length_app.
  destruct (Z.eqb_spec (Z.of_nat (length frame + length extra)) 0); [lia|].
  destruct (Z.eqb_spec (Z.of_nat (length frame)) 0); [lia|].
  destruct (Z.ltb_spec (Z.of_nat (length frame + length extra)) 11); [lia|].
  destruct (Z.ltb_spec (Z.of_nat (length frame)) 11); [lia|].
  rewrite take_app_le by lia. cbn [orb].
  destruct (bool_decide (take 2 frame = [170; 85])); [|reflexivity]. cbn [negb].
  rewrite app_nth1 by lia.
  set (d := nth 8 frame 0) in *.
  destruct (Z.gtb_spec (9 + d + 2) (Z.of_nat (length frame + length extra))); [lia|].
  destruct (Z.gtb_spec (9 + d + 2) (Z.of_nat (length frame))); [lia|].
  rewrite take_app_le by lia. rewrite drop_app_le by lia.
  rewrite take_app_le by (rewrite length_drop; lia).
  reflexivity.
Qed.

Lemma solax_RS485_Receive_trailing (fuel : nat) (buf : Solax_Message_t)
    (frame extra : list Z) :
  length buf = 109%nat -> bytes (frame ++ extra) ->
  (length (frame ++ extra) <= 109)%nat -> (256 <= fuel)%nat ->
  decode_spec frame = ERR_NONE ->
  Z.of_nat (length frame) = nth 8 frame 0 + 11 ->
  exists m, solax_RS485_Receive fuel buf (Some (frame ++ extra)) = Ok (m, ERR_NONE).
Proof.
  intros Hbuf Hb Hlen Hfuel Hd Hl.
  pose proof (decode_spec_NONE_length frame Hd) as H11.
  pose proof (decode_spec_trailing frame extra H11 Hl) as Ht.
  eexists. rewrite solax_RS485_Receive_spec; try assumption.
  - rewrite Ht, Hd. reflexivity.
  - intros Hw. rewrite (decode_spec_wraps _ Hlen Hw) in Ht. congruence.
Qed.

(** C2. On the 11 bytes [rx_wrap] the declared frame length, 9 + 248 + 2,
    exceeds the bytes available and the specification asks for
    [ERR_INVALID_MSG]; in the code [msgLen] wraps to 1, the length test
    passes, and the checksum bytes [Data[248]] and [Data[249]] are looked
    up outside the 109-byte buffer. *)
Theorem C2_length_byte_wraps (fuel : nat) :
  decode_spec rx_wrap = ERR_INVALID_MSG /\
  solax_RS485_Receive (S fuel) (replicate 109 0) (Some rx_wrap)
  = Fault OutOfBounds.
Proof.
  split; [reflexivity|].
  unfold solax_RS485_Receive.
  change (read (Some rx_wrap) (replicate 109 0) sizeof_Solax_Message_t)
    with (11, rx_wrap ++ replicate 98 0).
  cbv beta iota.
  change (u8 (u8 (DataLength (rx_wrap ++ replicate 98 0) + 9) - 1)) with 0.
  rewrite solax_CalculateCRC_spec by (simpl; lia).
  reflexivity.
Qed.

(** ** The telemetry decoder *)

(** [0.1f] and [0.01f] are the correctly rounded quotients 1/10 and 1/100. *)
Lemma f0_1_correct : f0_1 = fdiv (float_of_Z 1) (float_of_Z 10).
Proof. vm_compute. reflexivity. Qed.

Lemma f0_01_correct : f0_01 = fdiv (float_of_Z 1) (float_of_Z 100).
Proof. vm_compute. reflexivity. Qed.

Lemma feqb_eq (a b : float) : feqb a b = true -> a = b.
Proof.
  destruct a as [s|s| |s m e], b as [s'|s'| |s' m' e']; cbn; try discriminate.
  - intros H. apply Bool.eqb_prop in H. now subst.
  - intros H. apply andb_prop in H as [H He]. apply andb_prop in H as [Hs Hm].
    apply Bool.eqb_prop in Hs. apply Pos.eqb_eq in Hm. apply Z.eqb_eq in He.
    now subst.
Qed.

Lemma all_from_spec (p : Z -> bool) :
  forall (n : nat) (z k : Z),
    all_from n z p = true -> z <= k < z + Z.of_nat n -> p k = true.
Proof.
  induction n as [|n IH]; intros z k Hall Hk; [lia|].
  cbn [all_from] in Hall. apply andb_prop in Hall as [Hz Hrest].
  destruct (Z.eq_dec k z) as [->|Hne]; [exact Hz|].
  apply (IH (z + 1)); [exact Hrest | lia].
Qed.

(** For every 16-bit reading the product with [0.1f], or with [0.01f], is
    within one float of the correctly rounded tenth, or hundredth, of the
    reading. *)
Lemma scale_accuracy (raw : Z) :
  0 <= raw < 65536 ->
  (let q := fdiv (float_of_Z raw) (float_of_Z 10) in
   scale_0_1 raw = q \/ scale_0_1 raw = SFsucc prec emax q \/
   scale_0_1 raw = SFpred prec emax q) /\
  (let q := fdiv (float_of_Z raw) (float_of_Z 100) in
   scale_0_01 raw = q \/ scale_0_01 raw = SFsucc prec emax q \/
   scale_0_01 raw = SFpred prec emax q).
Proof.
  intros Hraw.
  assert (H1 : all_from (Z.to_nat 65536) 0 (scaled_near f0_1 10) = true)
    by (vm_cast_no_check (eq_refl true)).
  assert (H2 : all_from (Z.to_nat 65536) 0 (scaled_near f0_01 100) = true)
    by (vm_cast_no_check (eq_refl true)).
  pose proof (all_from_spec _ _ 0 raw H1 ltac:(lia)) as N1.
  pose proof (all_from_spec _ _ 0 raw H2 ltac:(lia)) as N2.
  unfold scaled_near in N1, N2. cbv zeta in *.
  split.
  - apply orb_prop in N1 as [N1|N1]; [apply orb_prop in N1 as [N1|N1]|];
      apply feqb_eq in N1; auto.
  - apply orb_prop in N2 as [N2|N2]; [apply orb_prop in N2 as [N2|N2]|];
      apply feqb_eq in N2; auto.
Qed.

Lemma lor_add_disjoint (a y n : Z) :
  0 <= n -> 0 <= y < 2 ^ n -> a mod 2 ^ n = 0 -> Z.lor a y = a + y.
Proof.
  intros Hn Hy Ha.
  assert (Hland : Z.land a y = 0).
  { apply Z.bits_inj'. intros k Hk. rewrite Z.land_spec, Z.bits_0.
    destruct (Z.lt_ge_cases k n) as [Hlt|Hge].
    - rewrite <- (Z.mod_pow2_bits_low a n k) by lia. rewrite Ha, Z.bits_0.
      reflexivity.
    - rewrite <- (Z.mod_small y (2 ^ n)) by lia.
      rewrite Z.mod_pow2_bits_high by lia. apply andb_false_r. }
  rewrite <- Z.lxor_lor by exact Hland.
  symmetry. apply Z.add_nocarry_lxor. exact Hland.
Qed.

Lemma Data_payload (m : Solax_Message_t) (k : nat) :
  Data m (Z.of_nat k) = nth k (payload m) 0.
Proof.
  unfold Data, field, payload, off_Data.
  replace (Z.to_nat (9 + Z.of_nat k)) with (9 + k)%nat by lia.
  rewrite !nth_lookup, lookup_drop. reflexivity.
Qed.

Lemma value16_be_field (m : Solax_Message_t) (k : nat) :
  wf_msg m -> (k + 2 <= 100)%nat ->
  value16 m (Z.of_nat k) (Z.of_nat (S k)) = be_field m k 2.
Proof.
  intros [Hlen Hb] Hk. unfold sizeof_Solax_Message_t in Hlen.
  unfold value16, be_field.
  rewrite take2_drop by (unfold payload; rewrite length_drop; lia).
  rewrite <- !Data_payload.
  pose proof (Data_is_byte m (Z.of_nat k) Hb).
  pose proof (Data_is_byte m (Z.of_nat (S k)) Hb).
  rewrite Z.shiftl_mul_pow2 by lia.
  rewrite (lor_add_disjoint _ _ 8) by (try apply Z_mod_mult; lia).
  unfold big_endian, u32. simpl fold_left.
  rewrite Z.mod_small by lia. lia.
Qed.

Lemma lor4_add (d0 d1 d2 d3 : Z) :
  0 <= d0 < 256 -> 0 <= d1 < 256 -> 0 <= d2 < 256 -> 0 <= d3 < 256 ->
  u32 (Z.lor (Z.lor (Z.lor (Z.shiftl d0 24) (Z.shiftl d1 16)) (Z.shiftl d2 8)) d3)
  = big_endian [d0; d1; d2; d3].
Proof.
  intros H0 H1 H2 H3.
  rewrite !Z.shiftl_mul_pow2 by lia.
  rewrite (lor_add_disjoint (d0 * 2 ^ 24) _ 24); try lia.
  2:{ apply Z_mod_mult. }
  rewrite (lor_add_disjoint _ (d2 * 2 ^ 8) 16); try lia.
  2:{ replace (d0 * 2 ^ 24 + d1 * 2 ^ 16) with ((d0 * 2 ^ 8 + d1) * 2 ^ 16) by lia.
      apply Z_mod_mult. }
  rewrite (lor_add_disjoint _ d3 8); try lia.
  2:{ replace (d0 * 2 ^ 24 + d1 * 2 ^ 16 + d2 * 2 ^ 8)
        with ((d0 * 2 ^ 16 + d1 * 2 ^ 8 + d2) * 2 ^ 8) by lia.
      apply Z_mod_mult. }
  unfold big_endian, u32. simpl fold_left.
  rewrite Z.mod_small by lia. lia.
Qed.

Lemma value32_be_field (m : Solax_Message_t) (k : nat) :
  wf_msg m -> (k + 4 <= 100)%nat ->
  value32 m (Z.of_nat k) (Z.of_nat (1 + k)) (Z.of_nat (2 + k)) (Z.of_nat (3 + k))
  = be_field m k 4.
Proof.
  intros [Hlen Hb] Hk. unfold sizeof_Solax_Message_t in Hlen.
  unfold value32, be_field.
  rewrite take4_drop by (unfold payload; rewrite length_drop; lia).
  rewrite <- !Data_payload.
  apply lor4_add; apply Data_is_byte, Hb.
Qed.

Lemma value32_rev_field (m : Solax_Message_t) (k : nat) :
  wf_msg m -> (k + 4 <= 100)%nat ->
  value32 m (Z.of_nat (3 + k)) (Z.of_nat (2 + k)) (Z.of_nat (1 + k)) (Z.of_nat k)
  = rev_field m k 4.
Proof.
  intros [Hlen Hb] Hk. unfold sizeof_Solax_Message_t in Hlen.
  unfold value32, rev_field.
  rewrite take4_drop by (unfold payload; rewrite length_drop; lia).
  rewrite <- !Data_payload. cbn [rev app].
  apply lor4_add; apply Data_is_byte, Hb.
Qed.

Ltac eval_of_nat H k :=
  let a := eval vm_compute in (Z.of_nat k) in
  change (Z.of_nat k) with a in H.

Ltac field16 m k Hm :=
  let H := fresh in
  pose proof (value16_be_field m k Hm ltac:(lia)) as H;
  eval_of_nat H k; eval_of_nat H (S k);
  rewrite H; clear H.

Ltac field32 lem m k Hm :=
  let H := fresh in
  pose proof (lem m k Hm ltac:(lia)) as H;
  eval_of_nat H k; eval_of_nat H (1 + k)%nat; eval_of_nat H (2 + k)%nat;
  eval_of_nat H (3 + k)%nat;
  rewrite H; clear H.

Lemma solax_ReceiveQuery_decode_table (m : Solax_Message_t) :
  wf_msg m -> solax_ReceiveQuery_decode Solax_LiveData_zero m = decode_table m.
Proof.
  intros Hm. unfold solax_ReceiveQuery_decode, decode_table.
  field16 m 0%nat Hm. field16 m 2%nat Hm. field16 m 4%nat Hm.
  field16 m 6%nat Hm. field16 m 8%nat Hm. field16 m 10%nat Hm.
  field16 m 12%nat Hm. field16 m 14%nat Hm. field16 m 16%nat Hm.
  field16 m 18%nat Hm. field16 m 30%nat Hm.
  field32 value32_be_field m 22%nat Hm. field32 value32_be_field m 26%nat Hm.
  field32 value32_rev_field m 46%nat Hm.
  assert (Hrev : u32 (rev_field m 46 4) = rev_field m 46 4).
  { rewrite <- (value32_rev_field m 46 Hm) by lia.
    unfold value32, u32. apply Z.mod_mod. lia. }
  rewrite Hrev.
  f_equal.
  - destruct (Z.eqb_spec (be_field m 22 4) 0) as [->|]; reflexivity.
  - destruct (Z.eqb_spec (be_field m 26 4) 0) as [->|]; reflexivity.
Qed.

(** [solax_ReceiveQuery] returns on every input on which the length byte
    does not wrap: the code is the classification of the input, the serial
    number is captured in the broadcast state and the sample is decoded in
    the live-data state when the frame is accepted and is the expected
    reply, and the sample is zero otherwise. *)
Lemma solax_ReceiveQuery_spec (fuel : nat) (st : Solax_StateQuery_t)
    (rx0 : Solax_Rx_t) (old : Solax_LiveData_t) (input : list Z) :
  wf_msg (rxMessage rx0) -> bytes input -> (length input <= 109)%nat ->
  (256 <= fuel)%nat -> ~ length_byte_wraps input ->
  let m := input ++ drop (length input) (rxMessage rx0) in
  let e := decode_spec input in
  let ok := bool_decide (e = ERR_NONE) && expected_reply st m in
  solax_ReceiveQuery fuel st rx0 old (Some input)
  = Ok (mkRx m (if ok && bool_decide (st = STATE_BROARDCAST)
                then take 14 (drop 9 m) ++ [0]
                else solax_InverterSerialNumber rx0),
        if ok && bool_decide (st = STATE_QUERY_LIVE_DATA)
        then solax_ReceiveQuery_decode Solax_LiveData_zero m
        else Solax_LiveData_zero,
        e).
Proof.
  intros [Hlen _] Hin Hlen109 Hfuel Hnw m e ok.
  unfold sizeof_Solax_Message_t in Hlen.
  unfold solax_ReceiveQuery.
  rewrite solax_RS485_Receive_spec by (assumption || lia).
  rewrite bind_Ok. fold m e.
  pose proof (decode_spec_not_IO input) as HIO. fold e in HIO.
  destruct (decide (e = ERR_IO)); [contradiction|].
  unfold ok, expected_reply. cbv [mret exec_ret].
  destruct st, e; try contradiction; cbn;
    repeat match goal with
           | |- context [?x =? ?y] => destruct (x =? y)
           end; reflexivity.
Qed.

(** Outside a failed [read], the sample that [solax_ReceiveQuery] returns
    does not depend on what the slot held. *)
Lemma solax_ReceiveQuery_forgets (fuel : nat) (st : Solax_StateQuery_t)
    (rx0 rx1 : Solax_Rx_t) (old old' ld : Solax_LiveData_t)
    (rd : option (list Z)) (e : Solax_ErrorQuery_t) :
  solax_ReceiveQuery fuel st rx0 old rd = Ok (rx1, ld, e) -> e <> ERR_IO ->
  solax_ReceiveQuery fuel st rx0 old' rd = Ok (rx1, ld, e).
Proof.
  unfold solax_ReceiveQuery.
  destruct (solax_RS485_Receive fuel (rxMessage rx0) rd) as [[m e0]|f];
    [|discriminate].
  cbn [mbind exec_bind]. cbv [mret exec_ret].
  destruct (decide (e0 = ERR_IO)); [congruence|].
  intros H _. exact H.
Qed.

(** C5. For a live-data frame that passed the checksum test, the decoder
    reads every field big-endian at the offset of the table and applies its
    scale (Temperature at 0, Energy_Today at 2 times 0.1, the DC voltages at
    4 and 6 and the DC currents at 8 and 10 times 0.1, AC current at 12 and
    AC voltage at 14 times 0.1, Frequency at 16 times 0.01, Power at 18,
    Energy_Total at 22 over 4 bytes times 0.1, Runtime_Total at 26 over 4
    bytes, Status at 30 keeping the low byte); ErrorBits is made of the
    bytes 49, 48, 47, 46 in this order; and [valid] is set. *)
Theorem C5_telemetry_decoding (fuel : nat) (rx0 : Solax_Rx_t)
    (old : Solax_LiveData_t) (input : list Z) :
  wf_msg (rxMessage rx0) -> bytes input -> (length input <= 109)%nat ->
  (256 <= fuel)%nat ->
  decode_spec input = ERR_NONE -> nth 6 input 0 = 0x11 -> nth 7 input 0 = 0x82 ->
  let m := input ++ drop (length input) (rxMessage rx0) in
  solax_ReceiveQuery fuel STATE_QUERY_LIVE_DATA rx0 old (Some input)
  = Ok (mkRx m (solax_InverterSerialNumber rx0),
        {| valid := true;
           Temperature := scale_1 (be_field m 0 2);
           Energy_Today := scale_0_1 (be_field m 2 2);
           DC1_Voltage := scale_0_1 (be_field m 4 2);
           DC2_Voltage := scale_0_1 (be_field m 6 2);
           DC1_Current := scale_0_1 (be_field m 8 2);
           DC2_Current := scale_0_1 (be_field m 10 2);
           AC_Current := scale_0_1 (be_field m 12 2);
           AC_Voltage := scale_0_1 (be_field m 14 2);
           Frequency := scale_0_01 (be_field m 16 2);
           Power := scale_1 (be_field m 18 2);
           Energy_Total := scale_0_1 (be_field m 22 4);
           Runtime_Total := scale_1 (be_field m 26 4);
           Status := be_field m 30 2 mod 256;
           ErrorBits := big_endian [Data m 49; Data m 48; Data m 47; Data m 46] |},
        ERR_NONE).
Proof.
  intros Hwf Hin Hlen Hfuel Hd Hc Hf m.
  pose proof (decode_spec_NONE_length input Hd) as H11.
  assert (Hnw : ~ length_byte_wraps input).
  { intros Hw. rewrite (decode_spec_wraps input Hlen Hw) in Hd. discriminate. }
  rewrite (solax_ReceiveQuery_spec fuel _ rx0 old input Hwf Hin Hlen Hfuel Hnw).
  fold m. rewrite Hd.
  assert (Hcc : ControlCode m = 17).
  { unfold ControlCode, m. rewrite field_app_l; [exact Hc|].
    unfold off_ControlCode. lia. }
  assert (Hfc : FunctionCode m = 130).
  { unfold FunctionCode, m. rewrite field_app_l; [exact Hf|].
    unfold off_FunctionCode. lia. }
  unfold expected_reply. rewrite Hcc, Hfc.
  rewrite (bool_decide_eq_true_2 (ERR_NONE = ERR_NONE)) by reflexivity.
  rewrite (bool_decide_eq_false_2 (STATE_QUERY_LIVE_DATA = STATE_BROARDCAST))
    by discriminate.
  rewrite (bool_decide_eq_true_2 (STATE_QUERY_LIVE_DATA = STATE_QUERY_LIVE_DATA))
    by reflexivity.
  cbn [Z.eqb Pos.eqb andb].
  assert (Hwf1 : wf_msg m).
  { pose proof (read_wf input (rxMessage rx0) Hwf Hin) as Hr.
    cbn [read snd] in Hr. unfold sizeof_Solax_Message_t in Hr.
    rewrite take_ge in Hr by lia. exact Hr. }
  rewrite (solax_ReceiveQuery_decode_table m Hwf1).
  unfold decode_table, rev_field.
  rewrite take4_drop
    by (unfold payload; rewrite length_drop; destruct Hwf1 as [Hl _];
        unfold sizeof_Solax_Message_t in Hl; lia).
  change (Z.of_nat 46) with 46. cbn [rev app Nat.add].
  rewrite <- !Data_payload. reflexivity.
Qed.

Lemma C5_telemetry_decoding_witness :
  exists rx1 ld,
    solax_ReceiveQuery 256 STATE_QUERY_LIVE_DATA Solax_Rx_init
                       Solax_LiveData_zero (Some rx_msg_3)
    = Ok (rx1, ld, ERR_NONE) /\
    valid ld = true /\ Status ld = 2 /\ ErrorBits ld = 0.
Proof.
  eexists _, _. split.
  - apply (C5_telemetry_decoding 256 Solax_Rx_init Solax_LiveData_zero rx_msg_3);
      by_computation.
  - repeat split; vm_compute; reflexivity.
Defined.

(** C6, as stated, fails: the frame [rx_msg_3] does not decode to a
    temperature of 50 and an energy of 1.1; 0x32 is its length byte and
    0x000B its temperature. *)
Lemma C6_counterexample :
  ~ (exists rx1 ld,
       solax_ReceiveQuery 256 STATE_QUERY_LIVE_DATA Solax_Rx_init
                          Solax_LiveData_zero (Some rx_msg_3)
       = Ok (rx1, ld, ERR_NONE) /\
       Temperature ld = float_of_Z 50 /\ Energy_Today ld = f1_1 /\
       Power ld = float_of_Z 487 /\ valid ld = true).
Proof.
  intros (rx1 & ld & H & Ht & _).
  vm_compute in H. injection H as _ <-.
  vm_compute in Ht. discriminate Ht.
Qed.

(** C6, amended. Decoding [rx_msg_3] gives Temperature 11 (raw 0x000B),
    Energy_Today 0.1 (raw 0x0001), Power 487 (raw 0x01E7) and a valid
    sample. *)
Theorem C6_rx_msg_3 (fuel : nat) :
  exists rx1 ld,
    solax_ReceiveQuery (256 + fuel) STATE_QUERY_LIVE_DATA Solax_Rx_init
                       Solax_LiveData_zero (Some rx_msg_3)
    = Ok (rx1, ld, ERR_NONE) /\
    be_field (rxMessage rx1) 0 2 = 0x000B /\ Temperature ld = float_of_Z 11 /\
    be_field (rxMessage rx1) 2 2 = 0x0001 /\ Energy_Today ld = f0_1 /\
    be_field (rxMessage rx1) 18 2 = 0x01E7 /\ Power ld = float_of_Z 487 /\
    valid ld = true.
Proof.
  unfold solax_ReceiveQuery, Solax_Rx_init. cbn [rxMessage].
  rewrite solax_RS485_Receive_spec;
    [| reflexivity | by_computation | vm_compute; lia | lia
     | intros (_ & _ & Hw); vm_compute in Hw; apply Hw; reflexivity].
  eexists _, _. split; [vm_compute; reflexivity|].
  repeat split; vm_compute; reflexivity.
Qed.

(** C8. A slot holds the sample of [rx_msg_3], with Energy_Total 481.9 and
    Runtime_Total 2575; the next frame for this slot reads zero in both
    fields. The sample is zeroed before the guarded assignments, so both
    fields of the decoded sample are zero: the values the slot held are
    not kept. *)
Theorem C8_zero_reading_overwrites (fuel : nat) :
  Energy_Total sample_3 = scale_0_1 4819 /\ Energy_Total sample_3 <> fzero /\
  Runtime_Total sample_3 = scale_1 2575 /\ Runtime_Total sample_3 <> fzero /\
  exists rx1 ld,
    solax_ReceiveQuery (256 + fuel) STATE_QUERY_LIVE_DATA Solax_Rx_init
                       sample_3 (Some rx_zero_totals)
    = Ok (rx1, ld, ERR_NONE) /\
    valid ld = true /\
    be_field (rxMessage rx1) 22 4 = 0 /\ Energy_Total ld = fzero /\
    be_field (rxMessage rx1) 26 4 = 0 /\ Runtime_Total ld = fzero.
Proof.
  split; [vm_compute; reflexivity|].
  split; [vm_compute; discriminate|].
  split; [vm_compute; reflexivity|].
  split; [vm_compute; discriminate|].
  unfold solax_ReceiveQuery, Solax_Rx_init. cbn [rxMessage].
  rewrite solax_RS485_Receive_spec;
    [| reflexivity | by_computation | vm_compute; lia | lia
     | intros (_ & _ & Hw); vm_compute in Hw; apply Hw; reflexivity].
  eexists _, _. split; [vm_compute; reflexivity|].
  repeat split; vm_compute; reflexivity.
Qed.

(** ** The query state machine *)

(** The transition table of [solax_QueryHandle]. A failure counts up and,
    at the threshold of the state, resets the counter and leaves the state;
    a success resets the counter where it changes the state, and in the
    live-data state resets the online timeout only. *)
Lemma solax_QueryHandle_switch_table (st : Solax_StateQuery_t) (cnt t : Z)
    (e : Solax_ErrorQuery_t) :
  let threshold :=
    match st with
    | STATE_BROARDCAST => 10
    | STATE_INVERTER_ADDRESS => 3
    | STATE_QUERY_LIVE_DATA => 3
    end in
  let on_threshold :=
    match st with
    | STATE_BROARDCAST => STATE_QUERY_LIVE_DATA
    | STATE_INVERTER_ADDRESS => STATE_BROARDCAST
    | STATE_QUERY_LIVE_DATA => STATE_BROARDCAST
    end in
  (e <> ERR_NONE -> cnt + 1 < threshold ->
   solax_QueryHandle_switch st cnt t e = (st, cnt + 1, t)) /\
  (e <> ERR_NONE -> threshold <= cnt + 1 ->
   solax_QueryHandle_switch st cnt t e = (on_threshold, 0, t)) /\
  (e = ERR_NONE ->
   solax_QueryHandle_switch st cnt t e =
   match st with
   | STATE_BROARDCAST => (STATE_INVERTER_ADDRESS, 0, t)
   | STATE_INVERTER_ADDRESS => (STATE_QUERY_LIVE_DATA, 0, t)
   | STATE_QUERY_LIVE_DATA => (STATE_QUERY_LIVE_DATA, cnt, 0)
   end).
Proof.
  repeat split; intros; destruct st, e; try congruence; cbn;
    repeat match goal with
           | |- context [?x >=? ?y] => destruct (Z.geb_spec x y); try lia
           end; reflexivity.
Qed.

Lemma solax_QueryHandle_switch_timeout (st : Solax_StateQuery_t) (cnt t : Z)
    (e : Solax_ErrorQuery_t) :
  snd (solax_QueryHandle_switch st cnt t e)
  = if bool_decide (st = STATE_QUERY_LIVE_DATA /\ e = ERR_NONE) then 0 else t.
Proof.
  destruct st, e; cbn;
    repeat match goal with
           | |- context [?x >=? ?y] => destruct (Z.geb_spec x y)
           end; reflexivity.
Qed.



Lemma set_fields_wf (m : Solax_Message_t) (s0 s1 d0 d1 cc fc dl : Z) :
  wf_msg m -> is_byte s0 -> is_byte s1 -> is_byte d0 -> is_byte d1 ->
  is_byte cc -> is_byte fc -> is_byte dl ->
  wf_msg (set_fields m s0 s1 d0 d1 cc fc dl) /\
  DataLength (set_fields m s0 s1 d0 d1 cc fc dl) = dl.
Proof.
  intros [Hlen Hb] H0 H1 H2 H3 H4 H5 H6.
  unfold sizeof_Solax_Message_t in Hlen. unfold set_fields. split; [split|].
  - rewrite !length_insert. exact Hlen.
  - unfold bytes. repeat apply Forall_insert; assumption.
  - apply field_lookup. unfold off_DataLength.
    apply list_lookup_insert_eq. rewrite !length_insert. lia.
Qed.

Lemma txMessage_static_wf : wf_msg txMessage_static.
Proof. by_computation. Qed.

(** [solax_SendQuery] returns in every state, and fails only when [write]
    does not take the whole frame. *)
Lemma solax_SendQuery_total (fuel : nat) (a : Args) (st : Solax_StateQuery_t)
    (serial : list Z) (wr : Z) :
  (24 <= fuel)%nat -> length serial = 15%nat -> bytes serial ->
  exists m frame,
    solax_SendQuery fuel a st serial wr
    = Ok (m, frame, if decide (wr = tx_len st) then ERR_NONE else ERR_IO).
Proof.
  intros Hfuel Hlen Hser. destruct st; cbn [solax_SendQuery tx_len].
  - unfold solax_Send_Broardcast.
    destruct (set_fields_wf txMessage_static 1 0 0 0 16 0 0 txMessage_static_wf)
      as [Hwf Hdl]; try (unfold is_byte; lia).
    destruct (solax_RS485_Send_spec fuel _ wr Hwf) as [m' Hs];
      rewrite ?Hdl; try lia.
    rewrite Hdl in Hs. eauto.
  - unfold solax_Send_InverterAddress.
    destruct (set_fields_wf txMessage_static 0 0 0 0 16 1 15 txMessage_static_wf)
      as [[Hl Hb] Hdl]; try (unfold is_byte; lia).
    unfold sizeof_Solax_Message_t in Hl.
    set (m1 := set_fields txMessage_static 0 0 0 0 16 1 15) in *.
    set (m2 := take 9 m1 ++ take 14 serial ++ drop (9 + length (take 14 serial)) m1).
    assert (Hl2 : length m2 = 109%nat).
    { unfold m2. rewrite !length_app, !length_take, length_drop. lia. }
    assert (Hb2 : bytes m2).
    { unfold m2, bytes. repeat apply Forall_app_2;
        [apply Forall_take, Hb | apply Forall_take, Hser | apply Forall_drop, Hb]. }
    assert (Hdl2 : DataLength m2 = 15).
    { unfold DataLength, field, off_DataLength, m2.
      rewrite app_nth1 by (rewrite length_take; lia).
      rewrite nth_lookup, lookup_take_lt by lia.
      rewrite <- nth_lookup. exact Hdl. }
    rewrite store_Ok by (unfold off_Data; lia). rewrite bind_Ok.
    set (m3 := <[Z.to_nat (off_Data + 14) := u8 (arg_InverterAddr a)]> m2).
    assert (Hwf3 : wf_msg m3).
    { split; [unfold m3, sizeof_Solax_Message_t; rewrite length_insert; lia|].
      unfold m3, bytes. apply Forall_insert; [exact Hb2 | apply is_byte_u8]. }
    assert (Hdl3 : DataLength m3 = 15).
    { unfold m3, DataLength. rewrite field_insert_ne; [exact Hdl2 | compute; lia]. }
    destruct (solax_RS485_Send_spec fuel m3 wr Hwf3) as [m' Hs];
      rewrite ?Hdl3; try lia.
    rewrite Hdl3 in Hs. eauto.
  - unfold solax_Send_QueryLiveData.
    destruct (set_fields_wf txMessage_static 1 0 0 (u8 (arg_InverterAddr a)) 17 2 0
                txMessage_static_wf) as [Hwf Hdl];
      try (unfold is_byte; lia); try apply is_byte_u8.
    destruct (solax_RS485_Send_spec fuel _ wr Hwf) as [m' Hs];
      rewrite ?Hdl; try lia.
    rewrite Hdl in Hs. eauto.
Qed.

Lemma Solax_Rx_init_wf : wf_rx Solax_Rx_init.
Proof. repeat split; by_computation. Qed.

Lemma Solax_Query_init_inv : online_inv Solax_Query_init.
Proof. unfold online_inv. cbn. unfold TIMEOUT_INVERTER_ONLINE. lia. Qed.

(** A call of [solax_QueryHandle] whose [read] succeeds returns, on every
    input on which the length byte does not wrap: the statics are updated
    by the switch on the classification of the input and by the update of
    the online flag, and the code is the one of the reception unless
    [write] fails. *)
Lemma solax_QueryHandle_spec (fuel : nat) (a : Args) (q : Solax_Query_t)
    (ld : Solax_LiveData_t) (input : list Z) (wr : Z) :
  wf_rx (rx q) -> bytes input -> (length input <= 109)%nat ->
  (256 <= fuel)%nat -> ~ length_byte_wraps input ->
  let errorRx := decode_spec input in
  let sw := solax_QueryHandle_switch (stateQuery q) (countError q)
                                     (timeoutInverterOnline q) errorRx in
  let on := solax_QueryHandle_online (solax_InverterOnline q) (snd sw) in
  exists rx' ld' frame,
    solax_ReceiveQuery fuel (stateQuery q) (rx q) ld (Some input)
    = Ok (rx', ld', errorRx) /\
    wf_rx rx' /\
    solax_QueryHandle fuel a q ld (Some input) wr
    = Ok (mkQuery (fst (fst sw)) (snd on) (snd (fst sw)) (fst on) rx', ld', frame,
          if decide (wr = tx_len (fst (fst sw))) then errorRx else ERR_IO).
Proof.
  intros (Hwf & Hsl & Hsb) Hin Hlen Hfuel Hnw errorRx sw on.
  pose proof (solax_ReceiveQuery_spec fuel (stateQuery q) (rx q) ld input
                Hwf Hin Hlen Hfuel Hnw) as Hrq.
  cbv zeta in Hrq. fold errorRx in Hrq.
  set (m := input ++ drop (length input) (rxMessage (rx q))) in *.
  assert (Hm : wf_msg m).
  { pose proof (read_wf input (rxMessage (rx q)) Hwf Hin) as Hr.
    cbn [read snd] in Hr. unfold sizeof_Solax_Message_t in Hr.
    rewrite take_ge in Hr by lia. exact Hr. }
  match type of Hrq with
  | _ = Ok (?r, ?l, _) => set (rx' := r) in *; set (ld' := l) in *
  end.
  assert (Hrx' : wf_rx rx').
  { unfold rx', wf_rx. cbn [rxMessage solax_InverterSerialNumber].
    split; [exact Hm|].
    destruct (_ && bool_decide (stateQuery q = STATE_BROARDCAST)); [|auto].
    destruct Hm as [Hl Hb]. unfold sizeof_Solax_Message_t in Hl. split.
    - rewrite length_app, length_take, length_drop. cbn [length]. lia.
    - apply Forall_app_2; [apply Forall_take, Forall_drop, Hb|].
      repeat constructor; unfold is_byte; lia. }
  pose proof (decode_spec_not_IO input) as HIO. fold errorRx in HIO.
  unfold solax_QueryHandle. rewrite Hrq, bind_Ok.
  destruct (decide (errorRx = ERR_IO)); [contradiction|].
  fold sw. destruct sw as [[st cnt] t] eqn:Hsw. cbn [fst snd] in *.
  fold on. destruct on as [online t'] eqn:Hon. cbn [fst snd].
  destruct Hrx' as (Hwf' & Hsl' & Hsb').
  destruct (solax_SendQuery_total fuel a st (solax_InverterSerialNumber rx') wr
              ltac:(lia) Hsl' Hsb') as (m' & frame & Hsend).
  rewrite Hsend, bind_Ok. cbv [mret exec_ret].
  exists rx', ld', frame. split; [reflexivity|].
  split; [exact (conj Hwf' (conj Hsl' Hsb'))|].
  destruct (decide (wr = tx_len st)).
  - destruct (decide (ERR_NONE = ERR_IO)); [discriminate|reflexivity].
  - destruct (decide (ERR_IO = ERR_IO)); [reflexivity|contradiction].
Qed.

(** C3. From start-up: two ticks without data, a tick with the valid
    live-data frame [rx_msg_3], one more tick without data. The success
    leaves the error counter at 2, so the single failure that follows it
    is taken as the third and the machine leaves the live-data state. *)
Theorem C3_live_data_success_keeps_countError :
  stateQuery Solax_Query_init = STATE_QUERY_LIVE_DATA /\
  countError Solax_Query_init = 0 /\
  (exists s,
     main_loop 300 default_args Main_init [tick_no_data; tick_no_data] = Ok (Some s) /\
     stateQuery (query s) = STATE_QUERY_LIVE_DATA /\ countError (query s) = 2) /\
  (exists s,
     main_loop 300 default_args Main_init
               [tick_no_data; tick_no_data; tick_live_data] = Ok (Some s) /\
     valid (nth 2 (liveData s) Solax_LiveData_zero) = true /\
     stateQuery (query s) = STATE_QUERY_LIVE_DATA /\ countError (query s) = 2) /\
  (exists s,
     main_loop 300 default_args Main_init
               [tick_no_data; tick_no_data; tick_live_data; tick_no_data] = Ok (Some s) /\
     stateQuery (query s) = STATE_BROARDCAST /\ countError (query s) = 0).
Proof.
  split; [reflexivity|]. split; [reflexivity|].
  split; [|split]; eexists; (split; [vm_compute; reflexivity|]);
    repeat split; reflexivity.
Qed.

(** A frame with a good checksum and another function code than the state
    expects is logged as invalid and still taken as a success: in the
    broadcast state [rx_msg_2] moves the machine on and no serial number is
    captured. *)
Lemma solax_QueryHandle_wrong_code :
  exists q ld frame,
    solax_QueryHandle 300 default_args
      (mkQuery STATE_BROARDCAST 30 0 false Solax_Rx_init)
      Solax_LiveData_zero (Some rx_msg_2) 26
    = Ok (q, ld, frame, ERR_NONE) /\
    stateQuery q = STATE_INVERTER_ADDRESS /\
    solax_InverterSerialNumber (rx q) = replicate 15 0.
Proof. eexists _, _, _. split; [vm_compute; reflexivity|]. split; reflexivity. Qed.


(** After a frame decoded while the flag is on, the counter restarts from 1
    and the flag is off after 29 ticks without data. *)
Lemma online_off_after_29_ticks :
  exists s,
    main_loop 300 default_args Main_init
      ([tick_live_data; tick_live_data] ++ replicate 29 tick_no_data)
    = Ok (Some s) /\
    solax_InverterOnline (query s) = false /\
    timeoutInverterOnline (query s) = 30.
Proof. eexists. split; [vm_compute; reflexivity|]. split; reflexivity. Qed.



(** ** The windowed average *)

Section Average.

Variable hist : list Solax_LiveData_t.
Variable max_idx : Z.

Lemma valid_run_length (n : nat) (idx : Z) : (length (valid_run hist max_idx n idx) <= n)%nat.
Proof.
  revert idx. induction n as [|n IH]; intros idx; cbn [valid_run]; [cbn; lia|].
  destruct (hist !! Z.to_nat idx) as [slot|]; [|cbn; lia].
  destruct (valid slot); cbn [length]; [|lia]. specialize (IH (walk_back max_idx idx)). lia.
Qed.

Lemma valid_run_stall (n : nat) (idx : Z) (slot : Solax_LiveData_t) :
  hist !! Z.to_nat idx = Some slot -> valid slot = false -> valid_run hist max_idx n idx = [].
Proof. intros Hs Hv. destruct n; cbn [valid_run]; [reflexivity|]. now rewrite Hs, Hv. Qed.

Hypothesis max_idx_range : 0 <= max_idx <= 254.
Hypothesis max_idx_hist : max_idx < Z.of_nat (length hist).

Lemma walk_back_range (idx : Z) : 0 <= idx <= max_idx -> 0 <= walk_back max_idx idx <= max_idx.
Proof. intros H. unfold walk_back. destruct (Z.eqb_spec idx 0); lia. Qed.

(** At an invalid slot nothing moves: not the sums, not the pointer, not
    the counter. At a valid slot the sample is accumulated, the pointer
    steps back and the counter goes up. *)
Lemma average_body_step (i idx cnt : Z) (acc : Solax_LiveData_t) :
  0 <= idx <= max_idx -> 0 <= cnt < 255 ->
  exists slot,
    hist !! Z.to_nat idx = Some slot /\
    average_body hist max_idx i (acc, idx, cnt)
    = Ok (if valid slot then (accumulate acc slot, walk_back max_idx idx, cnt + 1)
          else (acc, idx, cnt)).
Proof.
  intros Hidx Hcnt.
  destruct (lookup_lt_is_Some_2 hist (Z.to_nat idx)) as [slot Hs]; [lia|].
  exists slot. split; [exact Hs|].
  unfold average_body. rewrite (load_Ok _ _ _ (proj1 Hidx) Hs), bind_Ok.
  destruct (valid slot); cbn [negb]; [|reflexivity].
  unfold walk_back. rewrite (u8_small (cnt + 1)) by lia.
  destruct (Z.eqb_spec idx 0); cbn [negb]; [reflexivity|].
  rewrite u8_small by lia. reflexivity.
Qed.

(** The loop goes on for all its runs, and what it has at the end is the
    fold over [valid_run]: once a slot is invalid, the remaining runs
    change nothing. *)
Lemma average_iter (n : nat) :
  forall (i idx cnt : Z) (acc : Solax_LiveData_t),
    0 <= idx <= max_idx -> 0 <= cnt -> cnt + Z.of_nat n <= 255 ->
    exists idx',
      iterM (average_body hist max_idx) i n (acc, idx, cnt)
      = Ok (fold_left accumulate (valid_run hist max_idx n idx) acc, idx',
            cnt + Z.of_nat (length (valid_run hist max_idx n idx))).
Proof.
  induction n as [|n IH]; intros i idx cnt acc Hidx Hcnt Hn.
  - exists idx. cbn. now rewrite Z.add_0_r.
  - cbn [iterM].
    destruct (average_body_step i idx cnt acc Hidx ltac:(lia)) as (slot & Hs & ->).
    rewrite bind_Ok. destruct (valid slot) eqn:Hv.
    + destruct (IH (i + 1) (walk_back max_idx idx) (cnt + 1) (accumulate acc slot)
                  (walk_back_range idx Hidx) ltac:(lia) ltac:(lia)) as [idx' ->].
      exists idx'. cbn [valid_run]. rewrite Hs, Hv. cbn [fold_left length].
      do 2 f_equal. lia.
    + destruct (IH (i + 1) idx cnt acc Hidx Hcnt ltac:(lia)) as [idx' ->].
      exists idx'. rewrite (valid_run_stall n idx slot Hs Hv).
      rewrite (valid_run_stall (S n) idx slot Hs Hv). reflexivity.
Qed.

Lemma qos_body_step (i qos : Z) (slot : Solax_LiveData_t) :
  0 <= i -> hist !! Z.to_nat i = Some slot ->
  qos_body hist i qos = Ok (u8 (qos + (if valid slot then 1 else 0))).
Proof. intros Hi Hs. unfold qos_body. now rewrite (load_Ok _ _ _ Hi Hs). Qed.

(** The quality of service counts the valid slots of the whole buffer. *)
Lemma qos_iter (n : nat) :
  forall (i qos : Z),
    0 <= i -> Z.of_nat (Z.to_nat i + n) <= Z.of_nat (length hist) ->
    0 <= qos -> qos + Z.of_nat n <= 255 ->
    iterM (qos_body hist) i n qos
    = Ok (qos + Z.of_nat (length (filter (fun s => valid s = true)
                                         (take n (drop (Z.to_nat i) hist))))).
Proof.
  induction n as [|n IH]; intros i qos Hi Hlen Hq Hn.
  - cbn. now rewrite take_0, Z.add_0_r.
  - cbn [iterM].
    destruct (lookup_lt_is_Some_2 hist (Z.to_nat i)) as [slot Hs]; [lia|].
    rewrite (qos_body_step i qos slot Hi Hs), bind_Ok.
    rewrite (drop_S _ _ _ Hs). cbn [take].
    rewrite filter_cons.
    destruct (valid slot) eqn:Hv.
    + rewrite u8_small by lia.
      rewrite IH by lia.
      replace (Z.to_nat (i + 1)) with (S (Z.to_nat i)) by lia.
      rewrite decide_True by reflexivity. cbn [length]. f_equal. lia.
    + rewrite u8_small by lia.
      rewrite IH by lia.
      replace (Z.to_nat (i + 1)) with (S (Z.to_nat i)) by lia.
      rewrite decide_False by discriminate. f_equal. lia.
Qed.

End Average.

Lemma SFcompare_refl (f : float) : f <> S754_nan -> SFcompare f f = Some Eq.
Proof.
  destruct f as [s|s| |s m e]; intros Hf; try congruence; cbn.
  - reflexivity.
  - destruct s; reflexivity.
  - rewrite Z.compare_refl, Pos.compare_cont_refl. destruct s; reflexivity.
Qed.

Lemma SFcompare_antisym (a b : float) :
  SFcompare b a = option_map CompOpp (SFcompare a b).
Proof.
  destruct a as [sa|sa| |sa ma ea], b as [sb|sb| |sb mb eb]; cbn;
    try reflexivity; try (destruct sa; reflexivity); try (destruct sb; reflexivity);
    try (destruct sa, sb; reflexivity).
  pose proof (Pos.compare_cont_antisym ma mb Eq) as Hp. cbn in Hp.
  destruct sa, sb; cbn; try reflexivity;
    rewrite (Z.compare_antisym ea eb); destruct (ea ?= eb); cbn; try reflexivity;
    destruct (Pos.compare_cont Eq ma mb), (Pos.compare_cont Eq mb ma);
    cbn in *; congruence.
Qed.

(** On numbers, the conditional assignment [if (a < b) a = b] leaves the
    larger of the two. *)
Lemma fmax_upper (a b : float) :
  a <> S754_nan -> b <> S754_nan ->
  SFleb a (fmax a b) = true /\ SFleb b (fmax a b) = true /\
  (fmax a b = a \/ fmax a b = b).
Proof.
  intros Ha Hb. unfold fmax, flt, SFltb, SFleb.
  pose proof (SFcompare_refl a Ha) as Haa.
  pose proof (SFcompare_refl b Hb) as Hbb.
  pose proof (SFcompare_antisym a b) as Hba.
  destruct (SFcompare a b) as [[| |]|] eqn:Hab; cbn in Hba.
  - rewrite Haa, Hba. auto.
  - rewrite Hab, Hbb. auto.
  - rewrite Haa, Hba. auto.
  - destruct a, b; cbn in Hab; congruence.
Qed.

Lemma fold_accumulate (run : list Solax_LiveData_t) :
  forall acc : Solax_LiveData_t,
    fold_left accumulate run acc
    = {| valid := valid acc;
         Temperature := fold_left fadd (map Temperature run) (Temperature acc);
         DC1_Voltage := fold_left fadd (map DC1_Voltage run) (DC1_Voltage acc);
         DC2_Voltage := fold_left fadd (map DC2_Voltage run) (DC2_Voltage acc);
         DC1_Current := fold_left fadd (map DC1_Current run) (DC1_Current acc);
         DC2_Current := fold_left fadd (map DC2_Current run) (DC2_Current acc);
         AC_Current := fold_left fadd (map AC_Current run) (AC_Current acc);
         AC_Voltage := fold_left fadd (map AC_Voltage run) (AC_Voltage acc);
         Frequency := fold_left fadd (map Frequency run) (Frequency acc);
         Power := fold_left fadd (map Power run) (Power acc);
         ErrorBits := fold_left Z.lor (map ErrorBits run) (ErrorBits acc);
         Energy_Today := fold_left fmax (map Energy_Today run) (Energy_Today acc);
         Energy_Total := fold_left fmax (map Energy_Total run) (Energy_Total acc);
         Runtime_Total := fold_left fmax (map Runtime_Total run) (Runtime_Total acc);
         Status := fold_left Z.max (map Status run) (Status acc) |}.
Proof.
  induction run as [|s run IH]; intros acc.
  - destruct acc; reflexivity.
  - cbn [fold_left map]. rewrite IH. unfold accumulate at 1. cbn.
    f_equal. f_equal.
    destruct (Z.ltb_spec (Status acc) (Status s)); [rewrite Z.max_r | rewrite Z.max_l];
      (reflexivity || lia).
Qed.

Lemma divide_fold (run : list Solax_LiveData_t) :
  divide (fold_left accumulate run Solax_LiveData_zero) (Z.of_nat (length run))
  = window_average run.
Proof.
  destruct run as [|s run]; [reflexivity|].
  rewrite fold_accumulate. unfold divide.
  destruct (Z.eqb_spec (Z.of_nat (length (s :: run))) 0) as [H0|_];
    [cbn [length] in H0; lia|].
  unfold window_average, mean, fsum, fmaximum. cbn [map length].
  rewrite !length_map. reflexivity.
Qed.

Lemma solax_LiveData_Average_spec (fuel : nat) (a : Args)
    (hist : list Solax_LiveData_t) (idx max_idx : Z) :
  arg_AV_Samples a <= 254 -> 0 <= max_idx <= 254 ->
  max_idx < Z.of_nat (length hist) -> 0 <= idx <= max_idx -> (255 <= fuel)%nat ->
  solax_LiveData_Average fuel a hist idx max_idx
  = Ok (window_average
          (valid_run hist max_idx (Z.to_nat (arg_AV_Samples a + 1)) idx),
        fdiv (float_of_Z (Z.of_nat (length
                (filter (fun s => valid s = true)
                        (take (Z.to_nat (max_idx + 1)) hist)))))
             (float_of_Z (max_idx + 1))).
Proof.
  intros HW Hmax Hhist Hidx Hfuel. unfold solax_LiveData_Average.
  rewrite (for_u8_counted _ _ HW (Z.to_nat (arg_AV_Samples a + 1))) by lia.
  destruct (average_iter hist max_idx Hmax Hhist
              (Z.to_nat (arg_AV_Samples a + 1)) 0 idx 0 Solax_LiveData_zero
              Hidx ltac:(lia) ltac:(lia)) as [idx' ->].
  rewrite bind_Ok. rewrite Z.add_0_l, divide_fold.
  rewrite (for_u8_counted _ _ (proj2 Hmax) (Z.to_nat (max_idx + 1))) by lia.
  rewrite (qos_iter hist (Z.to_nat (max_idx + 1)) 0 0) by lia.
  rewrite bind_Ok. reflexivity.
Qed.

(** With a window of 255 samples or more the [uint8_t] counter of the loop
    never passes the bound and the function does not return. *)
Lemma solax_LiveData_Average_diverges (fuel : nat) (a : Args)
    (hist : list Solax_LiveData_t) (idx max_idx : Z)
    (r : Solax_LiveData_t * float) :
  255 <= arg_AV_Samples a -> solax_LiveData_Average fuel a hist idx max_idx <> Ok r.
Proof.
  intros HW H. unfold solax_LiveData_Average in H.
  apply bind_inv_Ok in H as (s & Hloop & _).
  revert Hloop. apply for_u8_diverges; [exact HW | lia].
Qed.

(** C7. With a window of [W] samples the loop makes [W + 1] runs of its
    body from the current index backward. A run on an invalid slot changes
    nothing, the walk pointer included, so that every later run meets the
    same slot; a run on a valid slot adds the sample to the sums, ors the
    error bits, keeps the larger of the four maxima, steps the pointer back
    with wrap-around and counts the sample. At the end the summed fields
    are divided by the count when it is not zero, and are zero otherwise:
    the snapshot is [window_average] of the samples of [valid_run]. *)
Theorem C7_windowed_average (fuel : nat) (a : Args)
    (hist : list Solax_LiveData_t) (idx max_idx : Z) :
  arg_AV_Samples a <= 254 -> 0 <= max_idx <= 254 ->
  max_idx < Z.of_nat (length hist) -> 0 <= idx <= max_idx -> (255 <= fuel)%nat ->
  let W := arg_AV_Samples a in
  let run := valid_run hist max_idx (Z.to_nat (W + 1)) idx in
  for_u8 fuel W (average_body hist max_idx) 0 (Solax_LiveData_zero, idx, 0)
  = iterM (average_body hist max_idx) 0 (Z.to_nat (W + 1))
          (Solax_LiveData_zero, idx, 0) /\
  (forall (i j cnt : Z) (acc : Solax_LiveData_t),
     0 <= j <= max_idx -> 0 <= cnt < 255 ->
     exists slot,
       hist !! Z.to_nat j = Some slot /\
       average_body hist max_idx i (acc, j, cnt)
       = Ok (if valid slot
             then (accumulate acc slot, (if j =? 0 then max_idx else j - 1), cnt + 1)
             else (acc, j, cnt))) /\
  (forall acc s : Solax_LiveData_t,
     accumulate acc s
     = {| valid := valid acc;
          Temperature := fadd (Temperature acc) (Temperature s);
          DC1_Voltage := fadd (DC1_Voltage acc) (DC1_Voltage s);
          DC2_Voltage := fadd (DC2_Voltage acc) (DC2_Voltage s);
          DC1_Current := fadd (DC1_Current acc) (DC1_Current s);
          DC2_Current := fadd (DC2_Current acc) (DC2_Current s);
          AC_Current := fadd (AC_Current acc) (AC_Current s);
          AC_Voltage := fadd (AC_Voltage acc) (AC_Voltage s);
          Frequency := fadd (Frequency acc) (Frequency s);
          Power := fadd (Power acc) (Power s);
          ErrorBits := Z.lor (ErrorBits acc) (ErrorBits s);
          Energy_Today := fmax (Energy_Today acc) (Energy_Today s);
          Energy_Total := fmax (Energy_Total acc) (Energy_Total s);
          Runtime_Total := fmax (Runtime_Total acc) (Runtime_Total s);
          Status := Z.max (Status acc) (Status s) |}) /\
  (length run <= Z.to_nat (W + 1))%nat /\
  exists qos,
    solax_LiveData_Average fuel a hist idx max_idx = Ok (window_average run, qos).
Proof.
  intros HW Hmax Hhist Hidx Hfuel W run.
  split; [|split; [|split; [|split]]].
  - apply for_u8_counted; [exact HW | lia | lia | unfold W; lia].
  - intros i j cnt acc Hj Hcnt.
    exact (average_body_step hist max_idx Hmax Hhist i j cnt acc Hj Hcnt).
  - intros acc s. unfold accumulate, fmax. f_equal.
    destruct (Z.ltb_spec (Status acc) (Status s)); [rewrite Z.max_r | rewrite Z.max_l];
      (reflexivity || lia).
  - apply valid_run_length.
  - eexists. apply solax_LiveData_Average_spec; assumption.
Qed.

Lemma C7_windowed_average_witness :
  exists qos,
    solax_LiveData_Average 255 default_args hist_gap 5 99
    = Ok (window_average [sample_3; sample_3], qos).
Proof.
  exact (proj2 (proj2 (proj2 (proj2
    (C7_windowed_average 255 default_args hist_gap 5 99
       ltac:(by_computation) ltac:(by_computation) ltac:(by_computation)
       ltac:(by_computation) (le_n 255)))))).
Defined.

(** ** The loop of [main] *)

Lemma Main_init_inv : main_inv Main_init.
Proof. split; [reflexivity|]. split; [cbn; lia|]. apply Solax_Rx_init_wf. Qed.

(** A tick of [main] whose [read] succeeds returns, on every input on which
    the length byte does not wrap and for every window of at most 254
    samples: the sample of [solax_QueryHandle] is written at the current
    index, the snapshot is the windowed average from that index and the
    index steps forward, from 99 to 0. *)
Lemma main_tick_spec (fuel : nat) (a : Args) (s : Main_t) (input : list Z)
    (wr : Z) :
  arg_AV_Samples a <= 254 -> (256 <= fuel)%nat -> main_inv s ->
  bytes input -> (length input <= 109)%nat -> ~ length_byte_wraps input ->
  exists q' ld' frame e qos,
    solax_QueryHandle fuel a (query s)
      (nth (Z.to_nat (index s)) (liveData s) Solax_LiveData_zero) (Some input) wr
    = Ok (q', ld', frame, e) /\
    wf_rx (rx q') /\
    main_tick fuel a s (Some input) wr
    = Ok (if decide (e = ERR_IO) then None
          else Some (mkMain q' (<[Z.to_nat (index s) := ld']> (liveData s))
                       (if index s =? 99 then 0 else index s + 1)
                       (window_average
                          (valid_run (<[Z.to_nat (index s) := ld']> (liveData s))
                             MAX_INDEX_OF_LIVE_DATA
                             (Z.to_nat (arg_AV_Samples a + 1)) (index s)))
                       qos)).
Proof.
  intros HW Hfuel (Hlen & Hidx & Hrx) Hin Hlen109 Hnw.
  destruct (lookup_lt_is_Some_2 (liveData s) (Z.to_nat (index s))) as [slot Hs];
    [lia|].
  assert (Hnth : nth (Z.to_nat (index s)) (liveData s) Solax_LiveData_zero = slot)
    by (now rewrite nth_lookup, Hs).
  rewrite Hnth.
  destruct (solax_QueryHandle_spec fuel a (query s) slot input wr Hrx Hin
              Hlen109 Hfuel Hnw) as (rx' & ld' & frame & _ & Hrx' & Hq).
  cbv zeta in Hq.
  match type of Hq with
  | _ = Ok (?q1, _, _, ?e1) => set (q' := q1) in *; set (e := e1) in *
  end.
  eexists q', ld', frame, e, _. split; [exact Hq|]. split; [exact Hrx'|].
  unfold main_tick.
  rewrite (load_Ok _ _ _ (proj1 Hidx) Hs), bind_Ok, Hq, bind_Ok.
  cbv [mret exec_ret].
  destruct (decide (e = ERR_IO)); [reflexivity|].
  rewrite store_Ok by lia. rewrite bind_Ok.
  rewrite solax_LiveData_Average_spec;
    [| exact HW
     | unfold MAX_INDEX_OF_LIVE_DATA, QUALITY_OF_SERVICE_COUNT; lia
     | rewrite length_insert;
       unfold MAX_INDEX_OF_LIVE_DATA, QUALITY_OF_SERVICE_COUNT; lia
     | unfold MAX_INDEX_OF_LIVE_DATA, QUALITY_OF_SERVICE_COUNT; lia
     | lia].
  rewrite bind_Ok. do 3 f_equal.
  rewrite (u8_small (index s + 1)) by lia.
  unfold MAX_INDEX_OF_LIVE_DATA, QUALITY_OF_SERVICE_COUNT.
  destruct (Z.gtb_spec (index s + 1) (100 - 1));
    destruct (Z.eqb_spec (index s) 99); lia || reflexivity.
Qed.

(** The invariant of [main] is kept from tick to tick. *)
Lemma main_tick_inv (fuel : nat) (a : Args) (s s' : Main_t) (input : list Z)
    (wr : Z) :
  arg_AV_Samples a <= 254 -> (256 <= fuel)%nat -> main_inv s ->
  bytes input -> (length input <= 109)%nat -> ~ length_byte_wraps input ->
  main_tick fuel a s (Some input) wr = Ok (Some s') -> main_inv s'.
Proof.
  intros HW Hfuel Hinv Hin Hlen Hnw Htick.
  destruct (main_tick_spec fuel a s input wr HW Hfuel Hinv Hin Hlen Hnw)
    as (q' & ld' & frame & e & qos & _ & Hrx' & Hspec).
  rewrite Hspec in Htick. destruct (decide (e = ERR_IO)); [discriminate|].
  injection Htick as <-. destruct Hinv as (Hl & Hidx & _).
  unfold main_inv. cbn [liveData index query].
  rewrite length_insert. split; [exact Hl|]. split; [|exact Hrx'].
  destruct (Z.eqb_spec (index s) 99); lia.
Qed.

(** C10. When the slot at the current index is invalid the walk stays on
    it: no sample is counted and the snapshot is zero in every field,
    whatever the other slots hold. So it is for the tick of [main]: when
    the sample written in this tick is invalid, the published snapshot is
    zero. *)
Theorem C10_invalid_current_slot (fuel : nat) (a : Args) :
  arg_AV_Samples a <= 254 -> (256 <= fuel)%nat ->
  (forall (hist : list Solax_LiveData_t) (idx max_idx : Z) (slot : Solax_LiveData_t),
     0 <= max_idx <= 254 -> max_idx < Z.of_nat (length hist) ->
     0 <= idx <= max_idx ->
     hist !! Z.to_nat idx = Some slot -> valid slot = false ->
     valid_run hist max_idx (Z.to_nat (arg_AV_Samples a + 1)) idx = [] /\
     exists qos,
       solax_LiveData_Average fuel a hist idx max_idx = Ok (Solax_LiveData_zero, qos)) /\
  (forall (s : Main_t) (input : list Z) (wr : Z),
     main_inv s -> bytes input -> (length input <= 109)%nat ->
     ~ length_byte_wraps input ->
     exists r,
       main_tick fuel a s (Some input) wr = Ok r /\
       forall s', r = Some s' ->
         valid (nth (Z.to_nat (index s)) (liveData s') Solax_LiveData_zero) = false ->
         solax_LiveData s' = Solax_LiveData_zero).
Proof.
  intros HW Hfuel. split.
  - intros hist idx max_idx slot Hmax Hhist Hidx Hs Hv.
    pose proof (valid_run_stall hist max_idx
                  (Z.to_nat (arg_AV_Samples a + 1)) idx slot Hs Hv) as Hrun.
    split; [exact Hrun|]. eexists.
    rewrite solax_LiveData_Average_spec by (assumption || lia).
    rewrite Hrun. reflexivity.
  - intros s input wr Hinv Hin Hlen Hnw.
    destruct (main_tick_spec fuel a s input wr HW Hfuel Hinv Hin Hlen Hnw)
      as (q' & ld' & frame & e & qos & _ & _ & Htick).
    eexists. split; [exact Htick|].
    intros s' Hs'. destruct (decide (e = ERR_IO)); [discriminate|].
    injection Hs' as <-. cbn [liveData solax_LiveData].
    destruct Hinv as (Hl & Hidx & _).
    assert (Hslot : <[Z.to_nat (index s) := ld']> (liveData s) !! Z.to_nat (index s)
                    = Some ld') by (apply list_lookup_insert_eq; lia).
    rewrite nth_lookup, Hslot. cbn [from_option id]. intros Hv.
    rewrite (valid_run_stall _ _ _ _ ld' Hslot Hv). reflexivity.
Qed.

Lemma C10_invalid_current_slot_witness :
  exists qos,
    solax_LiveData_Average 256 default_args hist_last_invalid 99 99
    = Ok (Solax_LiveData_zero, qos).
Proof.
  exact (proj2 (proj1
    (C10_invalid_current_slot 256 default_args ltac:(by_computation) (le_n 256))
    hist_last_invalid 99 99 Solax_LiveData_zero
    ltac:(by_computation) ltac:(by_computation) ltac:(by_computation)
    eq_refl eq_refl)).
Defined.

(** ** The codec: round trip and error detection *)

Lemma sum_bytes_Permutation (l1 l2 : list Z) :
  l1 ≡ₚ l2 -> sum_bytes l1 = sum_bytes l2.
Proof. unfold sum_bytes. induction 1; cbn; lia. Qed.

Lemma sum_bytes_insert (l : list Z) (i : nat) (b : Z) :
  (i < length l)%nat -> sum_bytes (<[i := b]> l) = sum_bytes l + b - nth i l 0.
Proof.
  unfold sum_bytes. revert i. induction l as [|a l IH]; intros [|i] H;
    cbn in *; try lia.
  rewrite IH by lia. lia.
Qed.

Lemma big_endian16_inj (c c' : Z) :
  big_endian16 c = big_endian16 c' -> c = c'.
Proof.
  unfold big_endian16. intros [= H1 H2].
  rewrite (Z.div_mod c 256), (Z.div_mod c' 256) by lia. congruence.
Qed.

Lemma big_endian16_bytes (c : Z) : 0 <= c < 65536 -> bytes (big_endian16 c).
Proof.
  intros Hc. unfold big_endian16, bytes, is_byte.
  repeat constructor; try (apply Z.div_pos; lia);
    try (apply Z.div_lt_upper_bound; lia); apply Z.mod_pos_bound; lia.
Qed.

Lemma checksum_shift (l : list Z) (d : Z) :
  -65536 < d < 65536 -> d <> 0 -> (sum_bytes l + d) mod 65536 <> checksum l.
Proof.
  intros Hd Hnz H. unfold checksum in H.
  pose proof (Z.div_mod (sum_bytes l + d) 65536 ltac:(lia)) as H1.
  pose proof (Z.div_mod (sum_bytes l) 65536 ltac:(lia)) as H2.
  rewrite H in H1. lia.
Qed.

(** What an accepted input looks like. *)
Lemma decode_spec_NONE_inv (input : list Z) :
  bytes input -> decode_spec input = ERR_NONE ->
  let n := Z.to_nat (9 + nth 8 input 0) in
  (11 <= length input)%nat /\ take 2 input = [0xAA; 0x55] /\
  0 <= nth 8 input 0 /\ (n + 2 <= length input)%nat /\
  take 2 (drop n input) = big_endian16 (checksum (take n input)).
Proof.
  intros Hb Hd n. pose proof (nth_is_byte input 8 Hb) as H8. unfold is_byte in H8.
  unfold decode_spec in Hd. fold n in Hd.
  destruct (Z.eqb_spec (Z.of_nat (length input)) 0); [discriminate|].
  destruct (Z.ltb_spec (Z.of_nat (length input)) 11); [discriminate|].
  cbn [orb] in Hd.
  destruct (bool_decide (take 2 input = [170; 85])) eqn:Hm; [|discriminate].
  cbn [negb] in Hd. apply bool_decide_eq_true_1 in Hm.
  destruct (Z.gtb_spec (9 + nth 8 input 0 + 2) (Z.of_nat (length input)));
    [discriminate|].
  destruct (bool_decide (take 2 (drop n input) = _)) eqn:Hc; [|discriminate].
  apply bool_decide_eq_true_1 in Hc.
  repeat split; try assumption; unfold n; lia.
Qed.

(** An input that the receiver accepts is one that the specification
    accepts. *)
Lemma solax_RS485_Receive_NONE (fuel : nat) (buf : Solax_Message_t)
    (input : list Z) (m : Solax_Message_t) :
  length buf = 109%nat -> bytes input -> (length input <= 109)%nat ->
  (256 <= fuel)%nat ->
  solax_RS485_Receive fuel buf (Some input) = Ok (m, ERR_NONE) ->
  decode_spec input = ERR_NONE.
Proof.
  intros Hbuf Hb Hlen Hfuel Hr.
  destruct (decide (length_byte_wraps input)) as [Hw|Hnw].
  - destruct (solax_RS485_Receive_wrap fuel buf input m Hbuf Hb Hlen Hw) as [_ Hne].
    now apply Hne in Hr.
  - rewrite (solax_RS485_Receive_spec fuel buf input Hbuf Hb Hlen Hfuel Hnw) in Hr.
    congruence.
Qed.

Lemma decode_spec_NONE_not_wraps (input : list Z) :
  (length input <= 109)%nat -> decode_spec input = ERR_NONE ->
  ~ length_byte_wraps input.
Proof.
  intros Hlen Hd Hw. rewrite (decode_spec_wraps input Hlen Hw) in Hd. discriminate.
Qed.

(** Classification of a frame given by its parts. *)
Lemma decode_spec_framed (hdr p chk : list Z) :
  length hdr = 9%nat -> nth 8 hdr 0 = Z.of_nat (length p) -> length chk = 2%nat ->
  decode_spec (hdr ++ p ++ chk)
  = if bool_decide (take 2 hdr = [0xAA; 0x55])
    then if bool_decide (chk = big_endian16 (checksum (hdr ++ p)))
         then ERR_NONE else ERR_CRC_ERROR
    else ERR_INVALID_MSG.
Proof.
  intros Hh H8 Hc. unfold decode_spec.
  rewrite !length_app, Hh, Hc.
  destruct (Z.eqb_spec (Z.of_nat (9 + (length p + 2))) 0); [lia|].
  destruct (Z.ltb_spec (Z.of_nat (9 + (length p + 2))) 11); [lia|].
  cbn [orb]. rewrite take_app_le by lia.
  destruct (bool_decide (take 2 hdr = [170; 85])); [|reflexivity]. cbn [negb].
  rewrite app_nth1 by lia. rewrite H8.
  destruct (Z.gtb_spec (9 + Z.of_nat (length p) + 2) (Z.of_nat (9 + (length p + 2))));
    [lia|].
  replace (Z.to_nat (9 + Z.of_nat (length p))) with (length (hdr ++ p))
    by (rewrite length_app; lia).
  rewrite (app_assoc hdr p chk).
  rewrite take_app_length, drop_app_length.
  rewrite take_ge by lia. reflexivity.
Qed.

Lemma frame_body_parts (m : Solax_Message_t) :
  frame_body m
  = ([0xAA; 0x55] ++ take 7 (drop 2 m)) ++ take (Z.to_nat (DataLength m)) (drop 9 m).
Proof.
  unfold frame_body. rewrite <- app_assoc. f_equal.
  rewrite (Nat.add_comm _ 7), <- take_take_drop, drop_drop. reflexivity.
Qed.

(** The frame that [solax_RS485_Send] builds is one that the receiver
    accepts. *)
Lemma decode_spec_frame (m : Solax_Message_t) :
  wf_msg m -> DataLength m <= 98 ->
  let frame := frame_body m ++ big_endian16 (checksum (frame_body m)) in
  bytes frame /\ Z.of_nat (length frame) = DataLength m + 11 /\
  decode_spec frame = ERR_NONE.
Proof.
  intros [Hlen Hb] Hdl frame. unfold sizeof_Solax_Message_t in Hlen.
  pose proof (field_is_byte m off_DataLength Hb) as Hdlb.
  fold (DataLength m) in Hdlb. unfold is_byte in Hdlb.
  assert (Hfb : bytes (frame_body m)).
  { unfold frame_body, bytes. apply Forall_app_2.
    - repeat constructor; unfold is_byte; lia.
    - apply Forall_take, Forall_drop, Hb. }
  assert (Hfl : length (frame_body m) = (Z.to_nat (DataLength m) + 9)%nat).
  { unfold frame_body. rewrite length_app, length_take, length_drop. cbn. lia. }
  split; [|split].
  - unfold frame, bytes. apply Forall_app_2; [exact Hfb|].
    apply big_endian16_bytes, checksum_range.
  - unfold frame. rewrite length_app, Hfl. cbn. lia.
  - unfold frame. rewrite frame_body_parts, <- app_assoc.
    rewrite decode_spec_framed.
    + rewrite bool_decide_eq_true_2 by reflexivity.
      rewrite bool_decide_eq_true_2 by reflexivity. reflexivity.
    + rewrite length_app, length_take, length_drop. cbn [length]. lia.
    + rewrite length_take, length_drop.
      change (nth 8 ([170; 85] ++ take 7 (drop 2 m)) 0)
        with (nth 6 (take 7 (drop 2 m)) 0).
      rewrite nth_lookup, lookup_take_lt, lookup_drop by lia.
      rewrite <- nth_lookup. change (nth (2 + 6) m 0) with (DataLength m). lia.
    + reflexivity.
Qed.

(** X1. On every read of at most 109 bytes on which the length byte does
    not wrap, [solax_RS485_Receive] returns: the bytes read overwrite the
    head of the buffer, the rest of the buffer keeps its old content, and
    the code is [ERR_NO_DATA] for no byte, [ERR_INVALID_MSG] for fewer than
    11 bytes, a wrong marker or a declared length beyond the bytes read,
    [ERR_CRC_ERROR] for a wrong checksum and [ERR_NONE] otherwise. *)
Theorem X1_receive_classification (fuel : nat) (buf : Solax_Message_t)
    (input : list Z) :
  length buf = 109%nat -> (256 <= fuel)%nat -> input_ok input ->
  let len := Z.of_nat (length input) in
  let n := Z.to_nat (9 + nth 8 input 0) in
  solax_RS485_Receive fuel buf (Some input)
  = Ok (input ++ drop (length input) buf,
        if len =? 0 then ERR_NO_DATA
        else if (len <? 11) || negb (bool_decide (take 2 input = [0xAA; 0x55]))
        then ERR_INVALID_MSG
        else if 9 + nth 8 input 0 + 2 >? len then ERR_INVALID_MSG
        else if bool_decide (take 2 (drop n input)
                             = big_endian16 (checksum (take n input)))
        then ERR_NONE else ERR_CRC_ERROR).
Proof.
  intros Hbuf Hfuel (Hb & Hlen & Hnw) len n.
  exact (solax_RS485_Receive_spec fuel buf input Hbuf Hb Hlen Hfuel Hnw).
Qed.

Lemma X1_receive_classification_witness :
  solax_RS485_Receive 256 (replicate 109 7) (Some rx_msg_2)
  = Ok (rx_msg_2 ++ replicate 97 7, ERR_NONE).
Proof.
  exact (X1_receive_classification 256 (replicate 109 7) rx_msg_2
           eq_refl (le_n 256) ltac:(by_computation)).
Defined.

(** X2. When one read delivers a complete frame followed by further bytes,
    the receiver accepts the frame and the bytes after it are neither
    checked nor reported: a second frame in the same read is lost. *)
Theorem X2_bytes_after_frame_ignored (fuel : nat) (buf : Solax_Message_t)
    (frame extra : list Z) (m : Solax_Message_t) :
  length buf = 109%nat -> (256 <= fuel)%nat ->
  bytes (frame ++ extra) -> (length (frame ++ extra) <= 109)%nat ->
  Z.of_nat (length frame) = nth 8 frame 0 + 11 ->
  solax_RS485_Receive fuel buf (Some frame) = Ok (m, ERR_NONE) ->
  solax_RS485_Receive fuel buf (Some (frame ++ extra))
  = Ok ((frame ++ extra) ++ drop (length (frame ++ extra)) buf, ERR_NONE).
Proof.
  intros Hbuf Hfuel Hb Hlen Hl Hr.
  assert (Hbf : bytes frame) by (apply Forall_app in Hb; tauto).
  assert (Hlf : (length frame <= 109)%nat) by (rewrite length_app in Hlen; lia).
  pose proof (solax_RS485_Receive_NONE fuel buf frame m Hbuf Hbf Hlf Hfuel Hr) as Hd.
  pose proof (decode_spec_NONE_length frame Hd) as H11.
  pose proof (decode_spec_trailing frame extra H11 Hl) as Ht.
  rewrite Hd in Ht.
  rewrite solax_RS485_Receive_spec; try assumption.
  - now rewrite Ht.
  - now apply decode_spec_NONE_not_wraps.
Qed.

Lemma X2_bytes_after_frame_ignored_witness :
  solax_RS485_Receive 256 (replicate 109 0) (Some (rx_msg_2 ++ rx_msg_3))
  = Ok ((rx_msg_2 ++ rx_msg_3) ++ replicate 36 0, ERR_NONE).
Proof.
  exact (X2_bytes_after_frame_ignored 256 (replicate 109 0) rx_msg_2 rx_msg_3
           (rx_msg_2 ++ replicate 97 0)
           eq_refl (le_n 256) ltac:(by_computation) ltac:(by_computation)
           eq_refl eq_refl).
Defined.

(** X3. Round trip of the codec: for a payload of at most 98 bytes, the
    frame that [solax_RS485_Send] hands to [write] is accepted by
    [solax_RS485_Receive] when it is read back, and the header fields and
    the payload are found in the receive buffer as they were sent. *)
Theorem X3_send_receive_round_trip (fuel : nat) (m buf : Solax_Message_t)
    (wr : Z) :
  wf_msg m -> DataLength m <= 98 -> (256 <= fuel)%nat -> length buf = 109%nat ->
  exists m' frame e rx,
    solax_RS485_Send fuel m wr = Ok (m', frame, e) /\
    solax_RS485_Receive fuel buf (Some frame) = Ok (rx, ERR_NONE) /\
    take (Z.to_nat (DataLength m) + 7) (drop 2 rx)
    = take (Z.to_nat (DataLength m) + 7) (drop 2 m).
Proof.
  intros Hm Hdl Hfuel Hbuf.
  pose proof Hm as [Hlen Hb]. unfold sizeof_Solax_Message_t in Hlen.
  pose proof (field_is_byte m off_DataLength Hb) as Hdlb.
  fold (DataLength m) in Hdlb. unfold is_byte in Hdlb.
  destruct (solax_RS485_Send_spec fuel m wr Hm Hdl ltac:(lia)) as [m' Hs].
  destruct (decode_spec_frame m Hm Hdl) as (Hfb & Hfl & Hd).
  set (frame := frame_body m ++ big_endian16 (checksum (frame_body m))) in *.
  exists m', frame, (if decide (wr = DataLength m + 11) then ERR_NONE else ERR_IO),
    (frame ++ drop (length frame) buf).
  split; [exact Hs|]. split.
  - rewrite solax_RS485_Receive_spec; try assumption; try lia.
    + now rewrite Hd.
    + apply decode_spec_NONE_not_wraps; [lia | exact Hd].
  - unfold frame, frame_body. rewrite <- !app_assoc. cbn [app drop].
    rewrite drop_0, take_app_le by (rewrite length_take, length_drop; lia).
    rewrite take_take. f_equal. lia.
Qed.

Lemma X3_send_receive_round_trip_witness :
  exists m' frame e rx,
    solax_RS485_Send 256 tx_msg_1 25 = Ok (m', frame, e) /\
    solax_RS485_Receive 256 (replicate 109 0) (Some frame) = Ok (rx, ERR_NONE) /\
    take 21 (drop 2 rx) = take 21 (drop 2 tx_msg_1).
Proof.
  exact (X3_send_receive_round_trip 256 tx_msg_1 (replicate 109 0) 25
           ltac:(by_computation) ltac:(by_computation) (le_n 256) eq_refl).
Defined.

Lemma nth_insert_ne (l : list Z) (i j : nat) (b : Z) :
  i <> j -> nth j (<[i := b]> l) 0 = nth j l 0.
Proof. intros H. now rewrite !nth_lookup, list_lookup_insert_ne. Qed.

Lemma nth_insert_eq (l : list Z) (i : nat) (b : Z) :
  (i < length l)%nat -> nth i (<[i := b]> l) 0 = b.
Proof. intros H. now rewrite nth_lookup, list_lookup_insert_eq. Qed.

(** A single altered byte, the length byte apart, is detected. *)
Lemma decode_spec_corrupt (input : list Z) (i : nat) (b : Z) :
  bytes input -> decode_spec input = ERR_NONE -> is_byte b ->
  b <> nth i input 0 ->
  (i < Z.to_nat (nth 8 input 0%Z) + 11)%nat -> i <> 8%nat ->
  decode_spec (<[i := b]> input)
  = if decide (i < 2)%nat then ERR_INVALID_MSG else ERR_CRC_ERROR.
Proof.
  intros Hb Hd Hbb Hne Hi H8.
  destruct (decode_spec_NONE_inv input Hb Hd) as (H11 & Hm & Hdl & Hn & Hc).
  cbv zeta in Hn, Hc.
  pose proof (take2_drop input 0 ltac:(lia)) as Hmk. rewrite drop_0, Hm in Hmk.
  injection Hmk as Hm0 Hm1.
  unfold decode_spec. rewrite length_insert.
  rewrite (nth_insert_ne input i 8 b H8).
  set (dl := nth 8 input 0) in *. set (n := Z.to_nat (9 + dl)) in *.
  destruct (Z.eqb_spec (Z.of_nat (length input)) 0); [lia|].
  destruct (Z.ltb_spec (Z.of_nat (length input)) 11); [lia|]. cbn [orb].
  change (take 2 (<[i:=b]> input)) with (take 2 (drop 0 (<[i:=b]> input))).
  rewrite take2_drop by (rewrite length_insert; lia).
  destruct (decide (i < 2)%nat) as [Hi2|Hi2].
  - rewrite bool_decide_eq_false_2; [reflexivity|].
    destruct i as [|[|i]]; [| |lia].
    + rewrite nth_insert_eq by lia. intros [= Hx _]. congruence.
    + rewrite (nth_insert_eq input 1) by lia. intros [= _ Hx]. congruence.
  - rewrite !nth_insert_ne by lia. rewrite <- Hm0, <- Hm1.
    rewrite bool_decide_eq_true_2 by reflexivity. cbn [negb].
    destruct (Z.gtb_spec (9 + dl + 2) (Z.of_nat (length input))); [lia|].
    rewrite bool_decide_eq_false_2; [reflexivity|].
    destruct (decide (i < n)%nat) as [Hin|Hin].
    + rewrite drop_insert_lt by lia. rewrite take_insert_lt by lia.
      rewrite Hc. intros Heq. apply big_endian16_inj in Heq.
      unfold checksum at 2 in Heq.
      rewrite sum_bytes_insert in Heq by (rewrite length_take; lia).
      rewrite nth_lookup, lookup_take_lt, <- nth_lookup in Heq by lia.
      pose proof (nth_is_byte input i Hb) as Hoi. unfold is_byte in Hoi, Hbb.
      symmetry in Heq. revert Heq.
      replace (sum_bytes (take n input) + b - nth i input 0)
        with (sum_bytes (take n input) + (b - nth i input 0)) by lia.
      apply checksum_shift; lia.
    + rewrite take_insert_ge by lia. rewrite <- Hc.
      rewrite drop_insert_ge by lia.
      change (take 2 (<[(i - n)%nat:=b]> (drop n input)))
        with (take 2 (drop 0 (<[(i - n)%nat:=b]> (drop n input)))).
      rewrite take2_drop by (rewrite length_insert, length_drop; lia).
      rewrite (take2_drop input n) by lia.
      assert (Hcase : (i = n \/ i = S n)%nat) by (unfold n in *; lia).
      destruct Hcase as [->| ->].
      * rewrite Nat.sub_diag. rewrite nth_insert_eq by (rewrite length_drop; lia).
        intros [= Hx _]. congruence.
      * replace (S n - n)%nat with 1%nat by lia.
        rewrite (nth_insert_eq _ 1) by (rewrite length_drop; lia).
        intros [= _ Hx]. congruence.
Qed.

(** X4. Error detection of the additive checksum: once the receiver accepts
    an input, it rejects the same input with any single byte of the frame
    replaced by another value, be it a marker byte (invalid message), a
    header byte other than the length byte, a payload byte or a checksum
    byte (checksum error). *)
Theorem X4_single_byte_corruption_detected (fuel : nat) (buf : Solax_Message_t)
    (input : list Z) (m : Solax_Message_t) (i : nat) (b : Z) :
  length buf = 109%nat -> (256 <= fuel)%nat ->
  bytes input -> (length input <= 109)%nat ->
  solax_RS485_Receive fuel buf (Some input) = Ok (m, ERR_NONE) ->
  (i < Z.to_nat (nth 8 input 0%Z) + 11)%nat -> i <> 8%nat ->
  is_byte b -> b <> nth i input 0 ->
  solax_RS485_Receive fuel buf (Some (<[i := b]> input))
  = Ok (<[i := b]> input ++ drop (length input) buf,
        if decide (i < 2)%nat then ERR_INVALID_MSG else ERR_CRC_ERROR).
Proof.
  intros Hbuf Hfuel Hb Hlen Hr Hi H8 Hbb Hne.
  pose proof (solax_RS485_Receive_NONE fuel buf input m Hbuf Hb Hlen Hfuel Hr) as Hd.
  destruct (decode_spec_NONE_inv input Hb Hd) as (H11 & _ & Hdl & Hn & _).
  cbv zeta in Hn.
  rewrite solax_RS485_Receive_spec;
    [| exact Hbuf | apply Forall_insert; assumption
     | rewrite length_insert; exact Hlen | exact Hfuel |].
  - rewrite length_insert. f_equal. f_equal.
    now apply decode_spec_corrupt.
  - intros (_ & _ & Hw). rewrite nth_insert_ne in Hw by exact H8. lia.
Qed.

Lemma X4_single_byte_corruption_detected_witness :
  solax_RS485_Receive 256 (replicate 109 0) (Some (<[9%nat := 0x07]> rx_msg_2))
  = Ok (<[9%nat := 0x07]> rx_msg_2 ++ replicate 97 0, ERR_CRC_ERROR).
Proof.
  exact (X4_single_byte_corruption_detected 256 (replicate 109 0) rx_msg_2
           (rx_msg_2 ++ replicate 97 0) 9 0x07
           eq_refl (le_n 256) ltac:(by_computation) ltac:(by_computation)
           eq_refl ltac:(by_computation) ltac:(by_computation)
           ltac:(by_computation) ltac:(by_computation)).
Defined.

(** X5. What the additive checksum does not detect: a frame whose payload
    bytes are put in another order has the same checksum, so the receiver
    accepts it once it accepts the original. *)
Theorem X5_reordered_payload_accepted (fuel : nat) (buf : Solax_Message_t)
    (hdr p p' chk : list Z) (m : Solax_Message_t) :
  length buf = 109%nat -> (256 <= fuel)%nat ->
  length hdr = 9%nat -> nth 8 hdr 0 = Z.of_nat (length p) -> length chk = 2%nat ->
  bytes (hdr ++ p ++ chk) -> (length (hdr ++ p ++ chk) <= 109)%nat ->
  p ≡ₚ p' ->
  solax_RS485_Receive fuel buf (Some (hdr ++ p ++ chk)) = Ok (m, ERR_NONE) ->
  solax_RS485_Receive fuel buf (Some (hdr ++ p' ++ chk))
  = Ok ((hdr ++ p' ++ chk) ++ drop (length (hdr ++ p' ++ chk)) buf, ERR_NONE).
Proof.
  intros Hbuf Hfuel Hh H8 Hc Hb Hlen Hp Hr.
  pose proof (solax_RS485_Receive_NONE fuel buf _ m Hbuf Hb Hlen Hfuel Hr) as Hd.
  assert (Hperm : hdr ++ p ++ chk ≡ₚ hdr ++ p' ++ chk) by now rewrite Hp.
  assert (Hlen' : (length (hdr ++ p' ++ chk) <= 109)%nat) by now rewrite <- Hperm.
  assert (Hd' : decode_spec (hdr ++ p' ++ chk) = ERR_NONE).
  { rewrite decode_spec_framed in Hd by assumption.
    rewrite decode_spec_framed; [| exact Hh | now rewrite <- Hp | exact Hc].
    unfold checksum in *.
    rewrite <- (sum_bytes_Permutation (hdr ++ p) (hdr ++ p')) by now rewrite Hp.
    exact Hd. }
  rewrite solax_RS485_Receive_spec; try assumption.
  - now rewrite Hd'.
  - unfold bytes. now rewrite <- Hperm.
  - now apply decode_spec_NONE_not_wraps.
Qed.

Lemma X5_reordered_payload_accepted_witness :
  solax_RS485_Receive 256 (replicate 109 0)
    (Some (take 9 rx_msg_1 ++ rev (take 14 (drop 9 rx_msg_1)) ++ drop 23 rx_msg_1))
  = Ok ((take 9 rx_msg_1 ++ rev (take 14 (drop 9 rx_msg_1)) ++ drop 23 rx_msg_1)
        ++ replicate 84 0, ERR_NONE).
Proof.
  exact (X5_reordered_payload_accepted 256 (replicate 109 0)
           (take 9 rx_msg_1) (take 14 (drop 9 rx_msg_1))
           (rev (take 14 (drop 9 rx_msg_1))) (drop 23 rx_msg_1)
           (rx_msg_1 ++ replicate 84 0)
           eq_refl (le_n 256) eq_refl eq_refl eq_refl
           ltac:(by_computation) ltac:(by_computation)
           (Permutation_rev _) eq_refl).
Defined.

(** Past the end of the array the loop of [solax_CalculateCRC] reads outside
    it. *)
Lemma CalculateCRC_iter_OutOfBounds (data : list Z) :
  forall (n : nat) (i : Z) (chk : Z),
    0 <= i -> (Z.to_nat i <= length data < Z.to_nat i + n)%nat ->
    iterM (fun i chkSum => b ← load data i; mret (u16 (chkSum + b))) i n chk
    = Fault OutOfBounds.
Proof.
  induction n as [|n IH]; intros i chk Hi Hlen; [lia|].
  cbn [iterM].
  destruct (decide (Z.to_nat i = length data)) as [He|Hn].
  - rewrite load_OutOfBounds by lia. reflexivity.
  - destruct (lookup_lt_is_Some_2 data (Z.to_nat i)) as [b Hb]; [lia|].
    rewrite (load_Ok _ _ _ Hi Hb). cbn -[u16].
    apply IH; lia.
Qed.

(** X6. [solax_CalculateCRC (data, dataLen)] has an inclusive bound: it adds
    up the [dataLen + 1] bytes [data[0]] to [data[dataLen]] modulo 65536.
    It reads outside the array when the array has [dataLen] bytes or fewer,
    and with [dataLen = 255] the [uint8_t] counter cannot pass the bound:
    the function does not return, whatever the number of steps. *)
Theorem X6_CalculateCRC_domain (fuel : nat) (data : list Z) (dataLen : Z) :
  0 <= dataLen <= 255 -> (255 <= fuel)%nat ->
  (dataLen <= 254 -> dataLen < Z.of_nat (length data) ->
   solax_CalculateCRC fuel data dataLen
   = Ok (sum_bytes (take (Z.to_nat dataLen + 1) data) mod 65536)) /\
  (dataLen <= 254 -> Z.of_nat (length data) <= dataLen ->
   solax_CalculateCRC fuel data dataLen = Fault OutOfBounds) /\
  (dataLen = 255 -> forall r, solax_CalculateCRC fuel data dataLen <> Ok r).
Proof.
  intros Hd Hfuel. split; [|split].
  - intros H254 Hlen. rewrite solax_CalculateCRC_spec by lia.
    rewrite Nat.add_1_r. reflexivity.
  - intros H254 Hlen. unfold solax_CalculateCRC.
    rewrite (for_u8_counted _ dataLen H254 (S (Z.to_nat dataLen))) by lia.
    apply CalculateCRC_iter_OutOfBounds; cbn; lia.
  - intros -> r. apply solax_CalculateCRC_255.
Qed.

Lemma X6_CalculateCRC_domain_witness :
  solax_CalculateCRC 255 rx_msg_2 9 = Ok 0x01A1 /\
  solax_CalculateCRC 255 rx_msg_2 12 = Fault OutOfBounds.
Proof.
  split.
  - exact (proj1 (X6_CalculateCRC_domain 255 rx_msg_2 9 ltac:(by_computation)
                    (le_n 255)) ltac:(by_computation) ltac:(by_computation)).
  - exact (proj1 (proj2 (X6_CalculateCRC_domain 255 rx_msg_2 12
                           ltac:(by_computation) (le_n 255)))
             ltac:(by_computation) ltac:(by_computation)).
Defined.

(** ** The queries and the handshake *)

Lemma sum_bytes_bound (l : list Z) :
  bytes l -> 0 <= sum_bytes l <= 255 * Z.of_nat (length l).
Proof.
  unfold sum_bytes. induction 1 as [|x l Hx Hl IH]; cbn [foldr length]; [lia|].
  unfold is_byte in Hx. lia.
Qed.

Lemma solax_SendQuery_frame (fuel : nat) (a : Args) (st : Solax_StateQuery_t)
    (serial : list Z) (wr : Z) :
  (24 <= fuel)%nat -> length serial = 15%nat -> bytes serial ->
  exists m,
    solax_SendQuery fuel a st serial wr
    = Ok (m, query_frame a st serial,
          if decide (wr = tx_len st) then ERR_NONE else ERR_IO).
Proof.
  intros Hfuel Hlen Hser. unfold query_frame.
  destruct st; cbn [solax_SendQuery tx_len query_body].
  - unfold solax_Send_Broardcast.
    destruct (set_fields_wf txMessage_static 1 0 0 0 16 0 0 txMessage_static_wf)
      as [Hwf Hdl]; try (unfold is_byte; lia).
    destruct (solax_RS485_Send_spec fuel _ wr Hwf) as [m' Hs];
      rewrite ?Hdl; try lia.
    rewrite Hdl in Hs. exists m'. exact Hs.
  - unfold solax_Send_InverterAddress.
    destruct (set_fields_wf txMessage_static 0 0 0 0 16 1 15 txMessage_static_wf)
      as [[Hl Hb] Hdl]; try (unfold is_byte; lia).
    unfold sizeof_Solax_Message_t in Hl.
    set (m1 := set_fields txMessage_static 0 0 0 0 16 1 15) in *.
    set (m2 := take 9 m1 ++ take 14 serial ++ drop (9 + length (take 14 serial)) m1).
    assert (Hl2 : length m2 = 109%nat).
    { unfold m2. rewrite !length_app, !length_take, length_drop. lia. }
    assert (Hb2 : bytes m2).
    { unfold m2, bytes. repeat apply Forall_app_2;
        [apply Forall_take, Hb | apply Forall_take, Hser | apply Forall_drop, Hb]. }
    assert (Hdl2 : DataLength m2 = 15).
    { unfold DataLength, field, off_DataLength, m2.
      rewrite app_nth1 by (rewrite length_take; lia).
      rewrite nth_lookup, lookup_take_lt by lia.
      rewrite <- nth_lookup. exact Hdl. }
    rewrite store_Ok by (unfold off_Data; lia). rewrite bind_Ok.
    set (m3 := <[Z.to_nat (off_Data + 14) := u8 (arg_InverterAddr a)]> m2).
    assert (Hwf3 : wf_msg m3).
    { split; [unfold m3, sizeof_Solax_Message_t; rewrite length_insert; lia|].
      unfold m3, bytes. apply Forall_insert; [exact Hb2 | apply is_byte_u8]. }
    assert (Hdl3 : DataLength m3 = 15).
    { unfold m3, DataLength. rewrite field_insert_ne; [exact Hdl2 | compute; lia]. }
    destruct (solax_RS485_Send_spec fuel m3 wr Hwf3) as [m' Hs];
      rewrite ?Hdl3; try lia.
    rewrite Hdl3 in Hs. exists m'. rewrite Hs.
    assert (Hbody : frame_body m3
                    = [170; 85; 0; 0; 0; 0; 16; 1; 15] ++ take 14 serial
                      ++ [u8 (arg_InverterAddr a)]).
    { unfold frame_body. rewrite Hdl3. unfold m3, m2, m1.
      do 15 (destruct serial as [|? serial]; [discriminate Hlen|]).
      destruct serial; [reflexivity | discriminate Hlen]. }
    rewrite Hbody. reflexivity.
  - unfold solax_Send_QueryLiveData.
    destruct (set_fields_wf txMessage_static 1 0 0 (u8 (arg_InverterAddr a)) 17 2 0
                txMessage_static_wf) as [Hwf Hdl];
      try (unfold is_byte; lia); try apply is_byte_u8.
    destruct (solax_RS485_Send_spec fuel _ wr Hwf) as [m' Hs];
      rewrite ?Hdl; try lia.
    rewrite Hdl in Hs. exists m'. exact Hs.
Qed.

(** One call of [solax_QueryHandle] whose [read] succeeds, in full: the
    receive buffer, the captured serial number, the sample, the statics, the
    frame handed to [write] and the returned code. *)
Lemma solax_QueryHandle_full (fuel : nat) (a : Args) (q : Solax_Query_t)
    (ld : Solax_LiveData_t) (input : list Z) (wr : Z) :
  wf_rx (rx q) -> (256 <= fuel)%nat -> input_ok input ->
  let m := input ++ drop (length input) (rxMessage (rx q)) in
  let e := decode_spec input in
  let ok := bool_decide (e = ERR_NONE) && expected_reply (stateQuery q) m in
  let serial :=
    if ok && bool_decide (stateQuery q = STATE_BROARDCAST)
    then take 14 (drop 9 m) ++ [0] else solax_InverterSerialNumber (rx q) in
  let ld' :=
    if ok && bool_decide (stateQuery q = STATE_QUERY_LIVE_DATA)
    then solax_ReceiveQuery_decode Solax_LiveData_zero m
    else Solax_LiveData_zero in
  let sw := solax_QueryHandle_switch (stateQuery q) (countError q)
                                     (timeoutInverterOnline q) e in
  let on := solax_QueryHandle_online (solax_InverterOnline q) (snd sw) in
  wf_msg m /\ wf_rx (mkRx m serial) /\
  solax_QueryHandle fuel a q ld (Some input) wr
  = Ok (mkQuery (fst (fst sw)) (snd on) (snd (fst sw)) (fst on) (mkRx m serial),
        ld', query_frame a (fst (fst sw)) serial,
        if decide (wr = tx_len (fst (fst sw))) then e else ERR_IO).
Proof.
  intros (Hwf & Hsl & Hsb) Hfuel (Hin & Hlen & Hnw) m e ok serial ld' sw on.
  pose proof (solax_ReceiveQuery_spec fuel (stateQuery q) (rx q) ld input
                Hwf Hin Hlen Hfuel Hnw) as Hrq.
  cbv zeta in Hrq. fold m e ok serial ld' in Hrq.
  assert (Hm : wf_msg m).
  { pose proof (read_wf input (rxMessage (rx q)) Hwf Hin) as Hr.
    cbn [read snd] in Hr. unfold sizeof_Solax_Message_t in Hr.
    rewrite take_ge in Hr by lia. exact Hr. }
  assert (Hser : length serial = 15%nat /\ bytes serial).
  { unfold serial.
    destruct (ok && bool_decide (stateQuery q = STATE_BROARDCAST)); [|auto].
    destruct Hm as [Hl Hb]. unfold sizeof_Solax_Message_t in Hl. split.
    - rewrite length_app, length_take, length_drop. cbn [length]. lia.
    - apply Forall_app_2; [apply Forall_take, Forall_drop, Hb|].
      repeat constructor; unfold is_byte; lia. }
  split; [exact Hm|]. split; [exact (conj Hm Hser)|].
  pose proof (decode_spec_not_IO input) as HIO. fold e in HIO.
  unfold solax_QueryHandle. rewrite Hrq, bind_Ok.
  destruct (decide (e = ERR_IO)); [contradiction|].
  fold sw. destruct sw as [[st cnt] t] eqn:Hsw. cbn [fst snd] in *.
  fold on. destruct on as [online t'] eqn:Hon. cbn [fst snd].
  cbn [solax_InverterSerialNumber].
  destruct (solax_SendQuery_frame fuel a st serial wr ltac:(lia)
              (proj1 Hser) (proj2 Hser)) as (m' & Hsend).
  rewrite Hsend, bind_Ok. cbv [mret exec_ret].
  destruct (decide (wr = tx_len st)).
  - destruct (decide (ERR_NONE = ERR_IO)); [discriminate|reflexivity].
  - destruct (decide (ERR_IO = ERR_IO)); [reflexivity|contradiction].
Qed.

(** The three frames written out. *)
Lemma query_frame_explicit (a : Args) (serial : list Z) :
  bytes serial ->
  let addr := arg_InverterAddr a mod 256 in
  query_frame a STATE_BROARDCAST serial
  = [0xAA; 0x55; 0x01; 0x00; 0x00; 0x00; 0x10; 0x00; 0x00; 0x01; 0x10] /\
  query_frame a STATE_QUERY_LIVE_DATA serial
  = [0xAA; 0x55; 0x01; 0x00; 0x00; addr; 0x11; 0x02; 0x00]
    ++ big_endian16 (0x0113 + addr) /\
  query_frame a STATE_INVERTER_ADDRESS serial
  = [0xAA; 0x55; 0x00; 0x00; 0x00; 0x00; 0x10; 0x01; 0x0F]
    ++ take 14 serial ++ [addr]
    ++ big_endian16 (0x011F + sum_bytes (take 14 serial) + addr).
Proof.
  intros Hser addr.
  pose proof (u8_range (arg_InverterAddr a)) as Ha.
  subst addr. change (arg_InverterAddr a mod 256) with (u8 (arg_InverterAddr a)).
  unfold query_frame, query_body.
  set (addr := u8 (arg_InverterAddr a)) in *. clearbody addr.
  split; [reflexivity|]. split.
  - do 4 f_equal. unfold checksum, sum_bytes. cbn [foldr].
    rewrite Z.mod_small by lia. first [lia | f_equal; lia].
  - rewrite <- !app_assoc. do 6 f_equal.
    unfold checksum. rewrite !sum_bytes_app.
    pose proof (sum_bytes_bound (take 14 serial)
                  ltac:(apply Forall_take, Hser)) as Hs14.
    rewrite length_take in Hs14.
    unfold sum_bytes at 1 3. cbn [foldr].
    rewrite Z.mod_small by lia. first [lia | f_equal; lia].
Qed.

(** X7. The frames of the three queries, whatever the configured address
    and the stored serial number: the broadcast query is the fixed 11 bytes
    AA 55 01 00 00 00 10 00 00 01 10; the live-data query carries the low
    byte of the configured address as second destination byte; the address
    assignment carries the 14 bytes of the serial number and the low byte of
    the address as payload; each ends with its additive checksum, and the
    call fails exactly when [write] does not take the 11, 26 or 11 bytes. *)
Theorem X7_query_frames (fuel : nat) (a : Args) (serial : list Z) (wr : Z) :
  (24 <= fuel)%nat -> length serial = 15%nat -> bytes serial ->
  let addr := arg_InverterAddr a mod 256 in
  (exists m,
     solax_SendQuery fuel a STATE_BROARDCAST serial wr
     = Ok (m, [0xAA; 0x55; 0x01; 0x00; 0x00; 0x00; 0x10; 0x00; 0x00; 0x01; 0x10],
           if decide (wr = 11) then ERR_NONE else ERR_IO)) /\
  (exists m,
     solax_SendQuery fuel a STATE_QUERY_LIVE_DATA serial wr
     = Ok (m, [0xAA; 0x55; 0x01; 0x00; 0x00; addr; 0x11; 0x02; 0x00]
              ++ big_endian16 (0x0113 + addr),
           if decide (wr = 11) then ERR_NONE else ERR_IO)) /\
  (exists m,
     solax_SendQuery fuel a STATE_INVERTER_ADDRESS serial wr
     = Ok (m, [0xAA; 0x55; 0x00; 0x00; 0x00; 0x00; 0x10; 0x01; 0x0F]
              ++ take 14 serial ++ [addr]
              ++ big_endian16 (0x011F + sum_bytes (take 14 serial) + addr),
           if decide (wr = 26) then ERR_NONE else ERR_IO)).
Proof.
  intros Hfuel Hlen Hser addr.
  destruct (query_frame_explicit a serial Hser) as (E1 & E2 & E3).
  fold addr in E2, E3. rewrite <- E1, <- E2, <- E3.
  split; [|split]; apply solax_SendQuery_frame; assumption.
Qed.

Lemma X7_query_frames_witness :
  exists m,
    solax_SendQuery 24 default_args STATE_QUERY_LIVE_DATA (replicate 15 0) 11
    = Ok (m, [0xAA; 0x55; 0x01; 0x00; 0x00; 0x0A; 0x11; 0x02; 0x00; 0x01; 0x1D],
          ERR_NONE).
Proof.
  exact (proj1 (proj2 (X7_query_frames 24 default_args (replicate 15 0) 11
                         (le_n 24) eq_refl ltac:(by_computation)))).
Defined.

Lemma expected_reply_app (st : Solax_StateQuery_t) (input rest : list Z) :
  (11 <= length input)%nat ->
  expected_reply st (input ++ rest)
  = match st with
    | STATE_BROARDCAST => (nth 6 input 0 =? 0x10) && (nth 7 input 0 =? 0x80)
    | STATE_INVERTER_ADDRESS =>
        (nth 6 input 0 =? 0x10) && (nth 7 input 0 =? 0x81) && (nth 9 input 0 =? 0x06)
    | STATE_QUERY_LIVE_DATA => (nth 6 input 0 =? 0x11) && (nth 7 input 0 =? 0x82)
    end.
Proof.
  intros H11. unfold expected_reply, ControlCode, FunctionCode, Data.
  rewrite !field_app_l
    by (unfold off_ControlCode, off_FunctionCode, off_Data; lia).
  reflexivity.
Qed.

(** X8. The handshake passes the serial number on: when the broadcast state
    receives a frame with a good checksum, control code 0x10 and function
    code 0x80, the same call stores the 14 bytes that follow the header as
    serial number, moves to the address state with the error counter at 0
    and transmits the address assignment that carries these 14 bytes and
    the configured address. *)
Theorem X8_broadcast_reply_starts_address_assignment (fuel : nat) (a : Args)
    (q : Solax_Query_t) (ld : Solax_LiveData_t) (input : list Z) (wr : Z) :
  wf_rx (rx q) -> (256 <= fuel)%nat ->
  bytes input -> (length input <= 109)%nat ->
  stateQuery q = STATE_BROARDCAST ->
  decode_spec input = ERR_NONE ->
  nth 6 input 0 = 0x10 -> nth 7 input 0 = 0x80 ->
  let serial := take 14 (drop 9 (input ++ drop (length input) (rxMessage (rx q)))) in
  exists q',
    solax_QueryHandle fuel a q ld (Some input) wr
    = Ok (q', Solax_LiveData_zero,
          [0xAA; 0x55; 0x00; 0x00; 0x00; 0x00; 0x10; 0x01; 0x0F]
          ++ serial ++ [arg_InverterAddr a mod 256]
          ++ big_endian16 (0x011F + sum_bytes serial + arg_InverterAddr a mod 256),
          if decide (wr = 26) then ERR_NONE else ERR_IO) /\
    stateQuery q' = STATE_INVERTER_ADDRESS /\ countError q' = 0 /\
    solax_InverterSerialNumber (rx q') = serial ++ [0] /\
    (23 <= length input -> serial = take 14 (drop 9 input))%nat.
Proof.
  intros Hrx Hfuel Hb Hlen Hst Hd Hcc Hfc serial.
  pose proof (decode_spec_NONE_length input Hd) as H11.
  pose proof (decode_spec_NONE_not_wraps input Hlen Hd) as Hnw.
  destruct (solax_QueryHandle_full fuel a q ld input wr Hrx Hfuel
              (conj Hb (conj Hlen Hnw))) as (Hm & Hrx' & Hq).
  cbv zeta in Hq, Hrx'. rewrite Hq. clear Hq.
  set (m := input ++ drop (length input) (rxMessage (rx q))) in *.
  assert (Hexp : expected_reply STATE_BROARDCAST m = true).
  { unfold m. rewrite expected_reply_app by exact H11.
    rewrite Hcc, Hfc. reflexivity. }
  rewrite Hst, Hd, Hexp in *.
  rewrite (bool_decide_eq_true_2 (ERR_NONE = ERR_NONE)) in * by reflexivity.
  rewrite (bool_decide_eq_true_2 (STATE_BROARDCAST = STATE_BROARDCAST)) in *
    by reflexivity.
  rewrite (bool_decide_eq_false_2 (STATE_BROARDCAST = STATE_QUERY_LIVE_DATA))
    by discriminate.
  cbn [Z.eqb Pos.eqb andb solax_QueryHandle_switch err_code negb fst snd] in *.
  fold serial in Hrx' |- *.
  destruct Hrx' as (_ & Hsl & Hsb). cbn [solax_InverterSerialNumber] in Hsl, Hsb.
  assert (Hl14 : length serial = 14%nat)
    by (rewrite length_app in Hsl; cbn [length] in Hsl; lia).
  destruct (query_frame_explicit a (serial ++ [0]) Hsb) as (_ & _ & E3).
  rewrite take_app_length' in E3 by (symmetry; exact Hl14).
  eexists. split; [rewrite E3; reflexivity|].
  cbn [stateQuery countError rx solax_InverterSerialNumber].
  split; [reflexivity|]. split; [reflexivity|]. split; [reflexivity|].
  intros H23. unfold serial, m.
  rewrite drop_app_le by lia. rewrite take_app_le by (rewrite length_drop; lia).
  reflexivity.
Qed.

Lemma X8_broadcast_reply_starts_address_assignment_witness :
  exists q',
    solax_QueryHandle 256 default_args
      (mkQuery STATE_BROARDCAST 30 0 false Solax_Rx_init) Solax_LiveData_zero
      (Some rx_msg_1) 26
    = Ok (q', Solax_LiveData_zero,
          [0xAA; 0x55; 0x00; 0x00; 0x00; 0x00; 0x10; 0x01; 0x0F;
           0x31; 0x32; 0x33; 0x34; 0x35; 0x36; 0x37;
           0x37; 0x36; 0x35; 0x34; 0x33; 0x32; 0x31; 0x0A; 0x04; 0x01],
          ERR_NONE) /\
    stateQuery q' = STATE_INVERTER_ADDRESS.
Proof.
  destruct (X8_broadcast_reply_starts_address_assignment 256 default_args
              (mkQuery STATE_BROARDCAST 30 0 false Solax_Rx_init)
              Solax_LiveData_zero rx_msg_1 26
              ltac:(by_computation) (le_n 256) ltac:(by_computation)
              ltac:(by_computation) eq_refl eq_refl eq_refl eq_refl)
    as (q' & H1 & H2 & _).
  exists q'. split; [exact H1 | exact H2].
Defined.

(** X9. A frame with a good checksum that is not the reply the state waits
    for is logged as invalid and then counts as a success: no sample is
    decoded and no serial number is stored, but the state machine moves on
    as after the expected reply, and in the live-data state the online
    timeout is reset, so that the inverter is reported online. *)
Theorem X9_unexpected_reply_counts_as_success (fuel : nat) (a : Args)
    (q : Solax_Query_t) (ld : Solax_LiveData_t) (input : list Z) (wr : Z) :
  wf_rx (rx q) -> (256 <= fuel)%nat ->
  bytes input -> (length input <= 109)%nat ->
  decode_spec input = ERR_NONE ->
  expected_reply (stateQuery q)
                 (input ++ drop (length input) (rxMessage (rx q))) = false ->
  exists q' frame e,
    solax_QueryHandle fuel a q ld (Some input) wr
    = Ok (q', Solax_LiveData_zero, frame, e) /\
    solax_InverterSerialNumber (rx q') = solax_InverterSerialNumber (rx q) /\
    (stateQuery q', countError q')
    = match stateQuery q with
      | STATE_BROARDCAST => (STATE_INVERTER_ADDRESS, 0)
      | STATE_INVERTER_ADDRESS => (STATE_QUERY_LIVE_DATA, 0)
      | STATE_QUERY_LIVE_DATA => (STATE_QUERY_LIVE_DATA, countError q)
      end /\
    (stateQuery q = STATE_QUERY_LIVE_DATA ->
     solax_InverterOnline q' = true /\
     timeoutInverterOnline q' = if solax_InverterOnline q then 1 else 0).
Proof.
  intros Hrx Hfuel Hb Hlen Hd Hexp.
  pose proof (decode_spec_NONE_not_wraps input Hlen Hd) as Hnw.
  destruct (solax_QueryHandle_full fuel a q ld input wr Hrx Hfuel
              (conj Hb (conj Hlen Hnw))) as (_ & _ & Hq).
  cbv zeta in Hq. rewrite Hd, Hexp in Hq.
  rewrite andb_false_r in Hq. cbn [andb] in Hq.
  eexists _, _, _. split; [exact Hq|].
  cbn [stateQuery countError rx solax_InverterSerialNumber solax_InverterOnline
       timeoutInverterOnline].
  split; [reflexivity|]. split.
  - destruct (stateQuery q); reflexivity.
  - intros ->. cbn [solax_QueryHandle_switch err_code Z.eqb negb fst snd].
    unfold solax_QueryHandle_online, TIMEOUT_INVERTER_ONLINE.
    destruct (solax_InverterOnline q); split; reflexivity.
Qed.

Lemma X9_unexpected_reply_counts_as_success_witness :
  exists q' frame e,
    solax_QueryHandle 256 default_args Solax_Query_init Solax_LiveData_zero
                      (Some rx_msg_1) 11
    = Ok (q', Solax_LiveData_zero, frame, e) /\
    solax_InverterOnline q' = true.
Proof.
  destruct (X9_unexpected_reply_counts_as_success 256 default_args
              Solax_Query_init Solax_LiveData_zero rx_msg_1 11
              ltac:(by_computation) (le_n 256) ltac:(by_computation)
              ltac:(by_computation) eq_refl eq_refl)
    as (q' & frame & e & H1 & _ & _ & H2).
  exists q', frame, e. split; [exact H1 | exact (proj1 (H2 eq_refl))].
Defined.

(** ** The loop of [main], tick by tick *)

(** One tick of [main] whose [read] succeeds, in full. *)
Lemma main_tick_full (fuel : nat) (a : Args) (s : Main_t) (input : list Z)
    (wr : Z) :
  arg_AV_Samples a <= 254 -> (256 <= fuel)%nat -> main_inv s -> input_ok input ->
  let q := query s in
  let m := input ++ drop (length input) (rxMessage (rx q)) in
  let e := decode_spec input in
  let ok := bool_decide (e = ERR_NONE) && expected_reply (stateQuery q) m in
  let serial :=
    if ok && bool_decide (stateQuery q = STATE_BROARDCAST)
    then take 14 (drop 9 m) ++ [0] else solax_InverterSerialNumber (rx q) in
  let ld' :=
    if ok && bool_decide (stateQuery q = STATE_QUERY_LIVE_DATA)
    then solax_ReceiveQuery_decode Solax_LiveData_zero m
    else Solax_LiveData_zero in
  let sw := solax_QueryHandle_switch (stateQuery q) (countError q)
                                     (timeoutInverterOnline q) e in
  let on := solax_QueryHandle_online (solax_InverterOnline q) (snd sw) in
  let hist := <[Z.to_nat (index s) := ld']> (liveData s) in
  main_tick fuel a s (Some input) wr
  = Ok (if decide (wr = tx_len (fst (fst sw))) then
          Some (mkMain (mkQuery (fst (fst sw)) (snd on) (snd (fst sw)) (fst on)
                                (mkRx m serial))
                       hist
                       (if index s =? 99 then 0 else index s + 1)
                       (window_average
                          (valid_run hist MAX_INDEX_OF_LIVE_DATA
                             (Z.to_nat (arg_AV_Samples a + 1)) (index s)))
                       (fdiv (float_of_Z (Z.of_nat (length
                                (filter (fun x => valid x = true) hist))))
                             (float_of_Z 100)))
        else None).
Proof.
  intros HW Hfuel (Hlen & Hidx & Hrx) Hin q m e ok serial ld' sw on hist.
  destruct (lookup_lt_is_Some_2 (liveData s) (Z.to_nat (index s))) as [slot Hs];
    [lia|].
  destruct (solax_QueryHandle_full fuel a q slot input wr Hrx Hfuel Hin)
    as (_ & _ & Hq).
  cbv zeta in Hq. fold m e ok serial ld' sw on in Hq.
  pose proof (decode_spec_not_IO input) as HIO. fold e in HIO.
  unfold main_tick. fold q.
  rewrite (load_Ok _ _ _ (proj1 Hidx) Hs), bind_Ok, Hq, bind_Ok.
  cbv [mret exec_ret].
  destruct (decide (wr = tx_len (fst (fst sw)))) as [Hw|Hw].
  - destruct (decide (e = ERR_IO)); [contradiction|].
    rewrite store_Ok by lia. rewrite bind_Ok. fold hist.
    rewrite solax_LiveData_Average_spec;
      [| exact HW
       | unfold MAX_INDEX_OF_LIVE_DATA, QUALITY_OF_SERVICE_COUNT; lia
       | unfold hist; rewrite length_insert;
         unfold MAX_INDEX_OF_LIVE_DATA, QUALITY_OF_SERVICE_COUNT; lia
       | unfold MAX_INDEX_OF_LIVE_DATA, QUALITY_OF_SERVICE_COUNT; lia
       | lia].
    rewrite bind_Ok. do 3 f_equal.
    + rewrite (u8_small (index s + 1)) by lia.
      unfold MAX_INDEX_OF_LIVE_DATA, QUALITY_OF_SERVICE_COUNT.
      destruct (Z.gtb_spec (index s + 1) (100 - 1));
        destruct (Z.eqb_spec (index s) 99); lia || reflexivity.
    + unfold MAX_INDEX_OF_LIVE_DATA, QUALITY_OF_SERVICE_COUNT.
      change (Z.to_nat (100 - 1 + 1)) with 100%nat.
      rewrite take_ge by (unfold hist; rewrite length_insert; lia).
      reflexivity.
  - destruct (decide (ERR_IO = ERR_IO)); [reflexivity|contradiction].
Qed.

(** A tick whose [read] fails: nothing is sent, nothing is stored, [main]
    returns. *)
Lemma main_tick_read_fails (fuel : nat) (a : Args) (s : Main_t) (wr : Z) :
  main_inv s -> main_tick fuel a s None wr = Ok None.
Proof.
  intros (Hlen & Hidx & _).
  destruct (lookup_lt_is_Some_2 (liveData s) (Z.to_nat (index s))) as [slot Hs];
    [lia|].
  unfold main_tick. rewrite (load_Ok _ _ _ (proj1 Hidx) Hs). reflexivity.
Qed.

(** The counters stay within their bounds over a call. *)
Lemma query_inv_step (st : Solax_StateQuery_t) (cnt t : Z) (online : bool)
    (e : Solax_ErrorQuery_t) (r r' : Solax_Rx_t) :
  query_inv (mkQuery st t cnt online r) ->
  let sw := solax_QueryHandle_switch st cnt t e in
  let on := solax_QueryHandle_online online (snd sw) in
  query_inv (mkQuery (fst (fst sw)) (snd on) (snd (fst sw)) (fst on) r').
Proof.
  intros H sw on. unfold query_inv, TIMEOUT_INVERTER_ONLINE in *.
  cbn [countError stateQuery solax_InverterOnline timeoutInverterOnline] in *.
  destruct H as [Hc Ht]. subst on sw.
  rewrite (solax_QueryHandle_switch_timeout st cnt t e).
  split.
  - destruct st, e; cbn in *;
      repeat match goal with
             | |- context [?x >=? ?y] => destruct (Z.geb_spec x y)
             end; cbn; lia.
  - unfold solax_QueryHandle_online, TIMEOUT_INVERTER_ONLINE.
    destruct (bool_decide _), online; cbn;
      repeat match goal with
             | |- context [?x >=? ?y] => destruct (Z.geb_spec x y)
             | |- context [?x =? ?y] => destruct (Z.eqb_spec x y)
             end; cbn; lia.
Qed.

Lemma main_tick_keeps_inv (fuel : nat) (a : Args) (s : Main_t)
    (t : option (list Z) * Z) :
  arg_AV_Samples a <= 254 -> (256 <= fuel)%nat ->
  main_inv s -> query_inv (query s) -> tick_ok t ->
  exists r,
    main_tick fuel a s (fst t) (snd t) = Ok r /\
    forall s', r = Some s' -> main_inv s' /\ query_inv (query s').
Proof.
  intros HW Hfuel Hinv Hq Ht. destruct t as [[input|] wr]; cbn [fst snd] in *.
  - unfold tick_ok in Ht. cbn [fst] in Ht.
    pose proof (main_tick_full fuel a s input wr HW Hfuel Hinv Ht) as Htick.
    cbv zeta in Htick. eexists. split; [exact Htick|].
    intros s' Hs'. destruct (decide (wr = tx_len _)); [|discriminate].
    injection Hs' as <-.
    destruct (solax_QueryHandle_full fuel a (query s) Solax_LiveData_zero input wr
                (proj2 (proj2 Hinv)) Hfuel Ht) as (_ & Hrx' & _).
    cbv zeta in Hrx'. destruct Hinv as (Hl & Hidx & _).
    split.
    + unfold main_inv. cbn [liveData index query rx].
      rewrite length_insert. split; [exact Hl|]. split; [|exact Hrx'].
      destruct (Z.eqb_spec (index s) 99); lia.
    + cbn [query]. destruct (query s) as [st t cnt online r].
      apply (query_inv_step st cnt t online _ r). exact Hq.
  - exists None. split; [apply main_tick_read_fails; exact Hinv | discriminate].
Qed.

Lemma main_loop_keeps_inv (fuel : nat) (a : Args)
    (ticks : list (option (list Z) * Z)) :
  arg_AV_Samples a <= 254 -> (256 <= fuel)%nat -> Forall tick_ok ticks ->
  forall s : Main_t,
    main_inv s -> query_inv (query s) ->
    exists r,
      main_loop fuel a s ticks = Ok r /\
      forall s', r = Some s' -> main_inv s' /\ query_inv (query s').
Proof.
  intros HW Hfuel Hticks. induction Hticks as [|t ticks Ht _ IH]; intros s Hinv Hq.
  - exists (Some s). split; [reflexivity|]. intros s' [= <-]. auto.
  - destruct (main_tick_keeps_inv fuel a s t HW Hfuel Hinv Hq Ht) as (r & Hr & Hk).
    destruct t as [rd wr]. cbn [fst snd] in Hr. cbn [main_loop].
    rewrite Hr, bind_Ok. destruct r as [s1|].
    + destruct (Hk s1 eq_refl) as [Hinv1 Hq1]. exact (IH s1 Hinv1 Hq1).
    + exists None. split; [reflexivity | discriminate].
Qed.

(** X10. Safety of the daemon loop: from start-up, over any number of ticks
    and whatever the serial line answers in each of them (a failed read, or
    at most 109 bytes on which the length byte does not wrap), and for every
    window of at most 254 samples, the loop runs without an access outside
    an array and without a loop that does not end. As long as it has not
    returned, the history has 100 slots, the index is within 0 to 99, the
    error counter is below the threshold of the state (10 in the broadcast
    state, 3 in the others) and the online counter is within 0 to 30. *)
Theorem X10_main_loop_safe (fuel : nat) (a : Args)
    (ticks : list (option (list Z) * Z)) :
  arg_AV_Samples a <= 254 -> (256 <= fuel)%nat -> Forall tick_ok ticks ->
  exists r,
    main_loop fuel a Main_init ticks = Ok r /\
    forall s, r = Some s ->
      length (liveData s) = 100%nat /\ 0 <= index s <= 99 /\
      0 <= countError (query s) < error_threshold (stateQuery (query s)) /\
      0 <= timeoutInverterOnline (query s) <= 30 /\
      (solax_InverterOnline (query s) = true <-> timeoutInverterOnline (query s) < 30).
Proof.
  intros HW Hfuel Hticks.
  destruct (main_loop_keeps_inv fuel a ticks HW Hfuel Hticks Main_init
              Main_init_inv) as (r & Hr & Hk).
  { unfold query_inv. cbn. unfold TIMEOUT_INVERTER_ONLINE. lia. }
  exists r. split; [exact Hr|]. intros s Hs.
  destruct (Hk s Hs) as ((Hl & Hidx & _) & Hc & Ht).
  unfold TIMEOUT_INVERTER_ONLINE in Ht.
  split; [exact Hl|]. split; [exact Hidx|]. split; [exact Hc|].
  destruct (solax_InverterOnline (query s)); split; try lia; split; intros; try lia;
    try reflexivity; discriminate.
Qed.

Lemma X10_main_loop_safe_witness :
  exists r,
    main_loop 256 default_args Main_init
      [tick_no_data; (Some rx_msg_1, 11); (None, 0)] = Ok r.
Proof.
  destruct (X10_main_loop_safe 256 default_args
              [tick_no_data; (Some rx_msg_1, 11); (None, 0)]
              ltac:(by_computation) (le_n 256) ltac:(by_computation))
    as (r & Hr & _).
  exists r. exact Hr.
Defined.

Lemma silent_step_cycle (k : Z) :
  0 <= k ->
  fst (solax_QueryHandle_switch (fst (silent_cycle k)) (snd (silent_cycle k)) 0
                                ERR_NO_DATA)
  = silent_cycle (k + 1).
Proof.
  intros Hk. unfold silent_cycle.
  rewrite <- (Zplus_mod_idemp_l k 1 13).
  pose proof (Z.mod_pos_bound k 13 ltac:(lia)) as Hr.
  set (r := k mod 13) in *. clearbody r.
  assert (Hcases : r = 0 \/ r = 1 \/ r = 2 \/ r = 3 \/ r = 4 \/ r = 5 \/ r = 6 \/
                   r = 7 \/ r = 8 \/ r = 9 \/ r = 10 \/ r = 11 \/ r = 12) by lia.
  repeat destruct Hcases as [->|Hcases]; try subst r; reflexivity.
Qed.

Lemma solax_QueryHandle_switch_state (st : Solax_StateQuery_t) (cnt t t' : Z)
    (e : Solax_ErrorQuery_t) :
  fst (solax_QueryHandle_switch st cnt t e)
  = fst (solax_QueryHandle_switch st cnt t' e).
Proof.
  destruct st, e; cbn;
    repeat match goal with
           | |- context [?x >=? ?y] => destruct (Z.geb_spec x y)
           end; reflexivity.
Qed.

Lemma input_ok_nil : input_ok [].
Proof. by_computation. Qed.

(** A tick without an answer outside the address state: the sample of the
    tick is the zero sample, and the loop goes on. *)
Lemma main_tick_silent (fuel : nat) (a : Args) (s : Main_t) (k : Z) :
  arg_AV_Samples a <= 254 -> (256 <= fuel)%nat -> main_inv s -> 0 <= k ->
  (stateQuery (query s), countError (query s)) = silent_cycle k ->
  exists s',
    main_tick fuel a s (Some []) 11 = Ok (Some s') /\ main_inv s' /\
    (stateQuery (query s'), countError (query s')) = silent_cycle (k + 1) /\
    liveData s' = <[Z.to_nat (index s) := Solax_LiveData_zero]> (liveData s).
Proof.
  intros HW Hfuel Hinv Hk Hst.
  pose proof (main_tick_full fuel a s [] 11 HW Hfuel Hinv input_ok_nil) as Htick.
  cbv zeta in Htick.
  change (decode_spec []) with ERR_NO_DATA in Htick.
  rewrite (bool_decide_eq_false_2 (ERR_NO_DATA = ERR_NONE)) in Htick by discriminate.
  cbn [andb] in Htick.
  pose proof (silent_step_cycle k Hk) as Hstep.
  rewrite <- Hst in Hstep. cbn [fst snd] in Hstep.
  rewrite (solax_QueryHandle_switch_state _ _ 0 (timeoutInverterOnline (query s)))
    in Hstep.
  set (sw := solax_QueryHandle_switch (stateQuery (query s)) (countError (query s))
                                      (timeoutInverterOnline (query s)) ERR_NO_DATA)
    in *.
  assert (Hlen : tx_len (fst (fst sw)) = 11).
  { rewrite (surjective_pairing (fst sw)) in Hstep.
    unfold silent_cycle in Hstep.
    destruct (_ <? 3); injection Hstep as -> _; reflexivity. }
  rewrite Hlen in Htick.
  destruct (decide (11 = 11)); [|contradiction].
  eexists. split; [exact Htick|]. split; [|split].
  - destruct input_ok_nil as (Hb & Hl & Hnw).
    exact (main_tick_inv fuel a s _ [] 11 HW Hfuel Hinv Hb Hl Hnw Htick).
  - cbn [query stateQuery countError]. rewrite <- Hstep.
    destruct (fst sw); reflexivity.
  - reflexivity.
Qed.

Lemma main_loop_silent (fuel : nat) (a : Args) :
  arg_AV_Samples a <= 254 -> (256 <= fuel)%nat ->
  forall (n : nat) (s : Main_t) (k : Z),
    main_inv s -> 0 <= k ->
    (stateQuery (query s), countError (query s)) = silent_cycle k ->
    exists s',
      main_loop fuel a s (replicate n tick_no_data) = Ok (Some s') /\
      main_inv s' /\
      (stateQuery (query s'), countError (query s')) = silent_cycle (k + Z.of_nat n).
Proof.
  intros HW Hfuel. induction n as [|n IH]; intros s k Hinv Hk Hst.
  - exists s. split; [reflexivity|]. split; [exact Hinv|].
    now rewrite Z.add_0_r.
  - destruct (main_tick_silent fuel a s k HW Hfuel Hinv Hk Hst)
      as (s1 & Htick & Hinv1 & Hst1 & _).
    destruct (IH s1 (k + 1) Hinv1 ltac:(lia) Hst1) as (s' & Hloop & Hinv' & Hst').
    exists s'. split; [|split; [exact Hinv'|]].
    + cbn [replicate main_loop]. unfold tick_no_data at 1.
      rewrite Htick, bind_Ok. exact Hloop.
    + rewrite Hst'. f_equal. lia.
Qed.

(** X11. On a line that stays silent the state machine never enters the
    address state: from an entry into the live-data state it sends the
    live-data query for three ticks, then the broadcast query for ten ticks,
    and starts again, with a period of 13 ticks. The loop goes on for any
    number of such ticks. *)
Theorem X11_silent_line_cycle (fuel : nat) (a : Args) (s : Main_t) (n : nat) :
  arg_AV_Samples a <= 254 -> (256 <= fuel)%nat -> main_inv s ->
  stateQuery (query s) = STATE_QUERY_LIVE_DATA -> countError (query s) = 0 ->
  exists s',
    main_loop fuel a s (replicate n tick_no_data) = Ok (Some s') /\
    let r := Z.of_nat n mod 13 in
    (stateQuery (query s'), countError (query s'))
    = if r <? 3 then (STATE_QUERY_LIVE_DATA, r) else (STATE_BROARDCAST, r - 3).
Proof.
  intros HW Hfuel Hinv Hst Hcnt.
  destruct (main_loop_silent fuel a HW Hfuel n s 0 Hinv ltac:(lia))
    as (s' & Hloop & _ & Hst').
  { rewrite Hst, Hcnt. reflexivity. }
  exists s'. split; [exact Hloop|]. exact Hst'.
Qed.

Lemma X11_silent_line_cycle_witness :
  exists s',
    main_loop 256 default_args Main_init (replicate 16 tick_no_data) = Ok (Some s') /\
    (stateQuery (query s'), countError (query s')) = (STATE_BROARDCAST, 0).
Proof.
  exact (X11_silent_line_cycle 256 default_args Main_init 16
           ltac:(by_computation) (le_n 256) Main_init_inv eq_refl eq_refl).
Defined.

(** X12. The history is a ring of 100 slots written oldest first. A tick
    that goes on overwrites the slot at the current index and no other, and
    moves the index one step forward, from 99 back to 0. What it writes does
    not depend on what the slot held: it is the sample decoded from the
    bytes just read when the state is the live-data state and the frame has
    a good checksum and the codes 0x11 and 0x82, and the all-zero invalid
    sample in every other case. *)
Theorem X12_tick_writes_current_slot (fuel : nat) (a : Args) (s : Main_t)
    (input : list Z) (wr : Z) :
  arg_AV_Samples a <= 254 -> (256 <= fuel)%nat -> main_inv s -> input_ok input ->
  let m := input ++ drop (length input) (rxMessage (rx (query s))) in
  let fresh :=
    bool_decide (stateQuery (query s) = STATE_QUERY_LIVE_DATA) &&
    bool_decide (decode_spec input = ERR_NONE) &&
    (ControlCode m =? 0x11) && (FunctionCode m =? 0x82) in
  let sample := if fresh then decode_table m else Solax_LiveData_zero in
  exists r,
    main_tick fuel a s (Some input) wr = Ok r /\
    forall s', r = Some s' ->
      liveData s' = <[Z.to_nat (index s) := sample]> (liveData s) /\
      liveData s' !! Z.to_nat (index s) = Some sample /\
      (forall j : nat, j <> Z.to_nat (index s) ->
         liveData s' !! j = liveData s !! j) /\
      index s' = (index s + 1) mod 100 /\
      rxMessage (rx (query s')) = m.
Proof.
  intros HW Hfuel Hinv Hin m fresh sample.
  pose proof (main_tick_full fuel a s input wr HW Hfuel Hinv Hin) as Htick.
  destruct (solax_QueryHandle_full fuel a (query s) Solax_LiveData_zero input wr
              (proj2 (proj2 Hinv)) Hfuel Hin) as (Hm & _ & _).
  cbv zeta in Htick, Hm. fold m in Htick, Hm.
  eexists. split; [exact Htick|].
  intros s' Hs'. destruct (decide (wr = tx_len _)); [|discriminate].
  injection Hs' as <-. cbn [liveData index query rx rxMessage].
  destruct Hinv as (Hl & Hidx & _).
  assert (Hsample :
    (if bool_decide (decode_spec input = ERR_NONE)
        && expected_reply (stateQuery (query s)) m
        && bool_decide (stateQuery (query s) = STATE_QUERY_LIVE_DATA)
     then solax_ReceiveQuery_decode Solax_LiveData_zero m
     else Solax_LiveData_zero) = sample).
  { unfold sample, fresh. rewrite (solax_ReceiveQuery_decode_table m Hm).
    destruct (stateQuery (query s)); cbn [expected_reply];
      rewrite ?(bool_decide_eq_false_2 (_ = STATE_QUERY_LIVE_DATA)) by discriminate;
      rewrite ?(bool_decide_eq_true_2 (STATE_QUERY_LIVE_DATA = _)) by reflexivity;
      rewrite ?andb_false_r; cbn [andb]; try reflexivity.
    now rewrite andb_true_r, andb_assoc. }
  rewrite Hsample.
  split; [reflexivity|]. split; [apply list_lookup_insert_eq; lia|].
  split; [intros j Hj; apply list_lookup_insert_ne; congruence|].
  split; [|reflexivity].
  destruct (Z.eqb_spec (index s) 99) as [->|Hne]; [reflexivity|].
  rewrite Z.mod_small by lia. reflexivity.
Qed.

Lemma X12_tick_writes_current_slot_witness :
  exists r,
    main_tick 256 default_args Main_init (Some rx_msg_3) 11 = Ok r /\
    forall s', r = Some s' ->
      liveData s' !! 0%nat = Some (decode_table (rx_msg_3 ++ replicate 48 0)) /\
      index s' = 1.
Proof.
  destruct (X12_tick_writes_current_slot 256 default_args Main_init rx_msg_3 11
              ltac:(by_computation) (le_n 256) Main_init_inv ltac:(by_computation))
    as (r & Hr & H).
  exists r. split; [exact Hr|]. intros s' Hs'.
  destruct (H s' Hs') as (_ & H1 & _ & H2 & _). split; [exact H1 | exact H2].
Defined.

Lemma solax_QueryHandle_read_fails (fuel : nat) (a : Args) (q : Solax_Query_t)
    (ld : Solax_LiveData_t) (wr : Z) :
  solax_QueryHandle fuel a q ld None wr = Ok (q, ld, [], ERR_IO).
Proof. destruct q as [st t cnt online [m ser]]. reflexivity. Qed.

(** X17. Input and output failures end the daemon. When [read] fails,
    [solax_QueryHandle] changes neither its statics nor the slot, sends
    nothing and returns the failure code, and [main] returns in this tick;
    when [read] succeeds and [write] does not take the whole query of the
    new state (11 bytes, 26 for the address assignment), [main] returns in
    this tick as well; in both cases the later ticks never run. In every
    other case the loop goes on with the next tick. *)
Theorem X17_io_failure_ends_main (fuel : nat) (a : Args) (s : Main_t)
    (rd : option (list Z)) (wr : Z) (ticks : list (option (list Z) * Z)) :
  arg_AV_Samples a <= 254 -> (256 <= fuel)%nat -> main_inv s -> tick_ok (rd, wr) ->
  match rd with
  | None =>
      (forall ld, solax_QueryHandle fuel a (query s) ld None wr
                  = Ok (query s, ld, [], ERR_IO)) /\
      main_loop fuel a s ((rd, wr) :: ticks) = Ok None
  | Some input =>
      let st' := fst (fst (solax_QueryHandle_switch
                             (stateQuery (query s)) (countError (query s))
                             (timeoutInverterOnline (query s))
                             (decode_spec input))) in
      if decide (wr = tx_len st')
      then exists s', main_tick fuel a s rd wr = Ok (Some s') /\
                      stateQuery (query s') = st' /\
                      main_loop fuel a s ((rd, wr) :: ticks)
                      = main_loop fuel a s' ticks
      else main_loop fuel a s ((rd, wr) :: ticks) = Ok None
  end.
Proof.
  intros HW Hfuel Hinv Ht. destruct rd as [input|].
  - unfold tick_ok in Ht. cbn [fst] in Ht.
    pose proof (main_tick_full fuel a s input wr HW Hfuel Hinv Ht) as Htick.
    cbv zeta in Htick |- *. cbn [main_loop]. rewrite Htick, bind_Ok.
    destruct (decide (wr = tx_len _)).
    + eexists. split; [reflexivity|]. split; reflexivity.
    + reflexivity.
  - split; [intros ld; apply solax_QueryHandle_read_fails|].
    cbn [main_loop]. rewrite (main_tick_read_fails fuel a s wr Hinv). reflexivity.
Qed.

Lemma X17_io_failure_ends_main_witness :
  main_loop 256 default_args Main_init [(None, 0); tick_live_data] = Ok None /\
  main_loop 256 default_args Main_init [(Some rx_msg_3, 10); tick_live_data]
  = Ok None.
Proof.
  split.
  - exact (proj2 (X17_io_failure_ends_main 256 default_args Main_init None 0
                    [tick_live_data] ltac:(by_computation) (le_n 256)
                    Main_init_inv I)).
  - exact (X17_io_failure_ends_main 256 default_args Main_init (Some rx_msg_3) 10
             [tick_live_data] ltac:(by_computation) (le_n 256)
             Main_init_inv ltac:(by_computation)).
Defined.

(** ** The snapshot: quality of service, windows, maxima *)

Lemma for_u8_skip {St} (fuel : nat) (bound : Z) (body : Z -> St -> exec St)
    (i : Z) (s : St) :
  bound < i -> for_u8 fuel bound body i s = Ok s.
Proof.
  intros H. destruct fuel; cbn; destruct (Z.leb_spec i bound); (lia || reflexivity).
Qed.

(** X13. The quality of service is the number of valid slots of the whole
    history divided by 100, whatever the window and the current index; it
    lies between 0 and 1, is 1 exactly when all 100 slots are valid and 0
    exactly when none is. *)
Theorem X13_quality_of_service (fuel : nat) (a : Args)
    (hist : list Solax_LiveData_t) (idx : Z) :
  arg_AV_Samples a <= 254 -> (255 <= fuel)%nat ->
  length hist = 100%nat -> 0 <= idx <= 99 ->
  let k := Z.of_nat (length (filter (fun s => valid s = true) hist)) in
  let qos := fdiv (float_of_Z k) (float_of_Z 100) in
  (exists avg,
     solax_LiveData_Average fuel a hist idx MAX_INDEX_OF_LIVE_DATA = Ok (avg, qos)) /\
  SFleb fzero qos = true /\ SFleb qos (float_of_Z 1) = true /\
  (qos = float_of_Z 1 <-> k = 100) /\ (qos = fzero <-> k = 0).
Proof.
  intros HW Hfuel Hlen Hidx k qos.
  assert (Hk : 0 <= k <= 100).
  { unfold k. pose proof (length_filter (fun s => valid s = true) hist). lia. }
  split.
  - eexists.
    rewrite solax_LiveData_Average_spec;
      [| exact HW
       | unfold MAX_INDEX_OF_LIVE_DATA, QUALITY_OF_SERVICE_COUNT; lia
       | unfold MAX_INDEX_OF_LIVE_DATA, QUALITY_OF_SERVICE_COUNT; lia
       | unfold MAX_INDEX_OF_LIVE_DATA, QUALITY_OF_SERVICE_COUNT; lia
       | lia].
    unfold MAX_INDEX_OF_LIVE_DATA, QUALITY_OF_SERVICE_COUNT.
    change (Z.to_nat (100 - 1 + 1)) with 100%nat.
    rewrite take_ge by lia. reflexivity.
  - assert (Hall : all_from 101 0 qos_in_unit_interval = true)
      by (vm_compute; reflexivity).
    pose proof (all_from_spec _ _ 0 k Hall ltac:(lia)) as Hq.
    unfold qos_in_unit_interval, qos_of in Hq. fold qos in Hq.
    apply andb_prop in Hq as [Hq H0]. apply andb_prop in Hq as [Hq H1].
    apply andb_prop in Hq as [Hlo Hhi].
    apply Bool.eqb_prop in H0, H1.
    split; [exact Hlo|]. split; [exact Hhi|]. split; split.
    + intros Heq. rewrite Heq in H1.
      change (feqb (float_of_Z 1) (float_of_Z 1)) with true in H1.
      symmetry in H1. apply Z.eqb_eq in H1. exact H1.
    + intros Heq. rewrite Heq, Z.eqb_refl in H1. now apply feqb_eq.
    + intros Heq. rewrite Heq in H0.
      change (feqb fzero fzero) with true in H0.
      symmetry in H0. apply Z.eqb_eq in H0. exact H0.
    + intros Heq. rewrite Heq, Z.eqb_refl in H0. now apply feqb_eq.
Qed.

Lemma X13_quality_of_service_witness :
  exists avg,
    solax_LiveData_Average 255 default_args hist_gap 5 MAX_INDEX_OF_LIVE_DATA
    = Ok (avg, fdiv (float_of_Z 99) (float_of_Z 100)).
Proof.
  exact (proj1 (X13_quality_of_service 255 default_args hist_gap 5
                  ltac:(by_computation) (le_n 255) eq_refl ltac:(by_computation))).
Defined.

(** X14. The window is not checked. With a window of 255 samples or more
    the [uint8_t] counter of the averaging loop cannot pass its bound and
    [solax_LiveData_Average] does not return; with a negative window the
    loop does not run at all and the snapshot is zero in every field,
    whatever the history holds. *)
Theorem X14_window_out_of_range (fuel : nat) (a : Args)
    (hist : list Solax_LiveData_t) (idx max_idx : Z) :
  (255 <= arg_AV_Samples a ->
   forall r, solax_LiveData_Average fuel a hist idx max_idx <> Ok r) /\
  (arg_AV_Samples a < 0 ->
   0 <= max_idx <= 254 -> max_idx < Z.of_nat (length hist) -> (255 <= fuel)%nat ->
   exists qos,
     solax_LiveData_Average fuel a hist idx max_idx = Ok (Solax_LiveData_zero, qos)).
Proof.
  split.
  - intros HW r. now apply solax_LiveData_Average_diverges.
  - intros HW Hmax Hhist Hfuel. unfold solax_LiveData_Average.
    rewrite (for_u8_skip fuel (arg_AV_Samples a)) by lia. rewrite bind_Ok.
    rewrite (for_u8_counted _ _ (proj2 Hmax) (Z.to_nat (max_idx + 1))) by lia.
    rewrite (qos_iter hist (Z.to_nat (max_idx + 1)) 0 0) by lia.
    rewrite bind_Ok. eexists. reflexivity.
Qed.

Lemma X14_window_out_of_range_witness :
  (forall r, solax_LiveData_Average 1000 (mkArgs 255 10) hist_gap 5 99 <> Ok r) /\
  exists qos,
    solax_LiveData_Average 255 (mkArgs (-1) 10) hist_gap 5 99
    = Ok (Solax_LiveData_zero, qos).
Proof.
  split.
  - exact (proj1 (X14_window_out_of_range 1000 (mkArgs 255 10) hist_gap 5 99)
             ltac:(by_computation)).
  - exact (proj2 (X14_window_out_of_range 255 (mkArgs (-1) 10) hist_gap 5 99)
             ltac:(by_computation) ltac:(by_computation) ltac:(by_computation)
             (le_n 255)).
Defined.

Lemma fold_lor_testbit (l : list Z) (k : Z) :
  forall acc : Z,
    Z.testbit (fold_left Z.lor l acc) k
    = Z.testbit acc k || existsb (fun x => Z.testbit x k) l.
Proof.
  induction l as [|x l IH]; intros acc; cbn [fold_left existsb].
  - now rewrite orb_false_r.
  - rewrite IH, Z.lor_spec. now rewrite orb_assoc.
Qed.

Lemma fold_max_upper (l : list Z) :
  forall acc : Z,
    acc <= fold_left Z.max l acc /\
    (forall x, x ∈ l -> x <= fold_left Z.max l acc) /\
    (fold_left Z.max l acc = acc \/ fold_left Z.max l acc ∈ l).
Proof.
  induction l as [|x l IH]; intros acc; cbn [fold_left].
  - split; [lia|]. split; [|now left]. intros y Hy. inversion Hy.
  - destruct (IH (Z.max acc x)) as (H1 & H2 & H3). split; [lia|]. split.
    + intros y Hy. apply elem_of_cons in Hy as [->|Hy]; [lia | now apply H2].
    + destruct H3 as [H3|H3]; [|right; apply elem_of_cons; now right].
      rewrite H3. destruct (Z.max_spec acc x) as [[_ ->]|[_ ->]];
        [right; apply elem_of_cons; now left | now left].
Qed.

Lemma elem_of_map {A B} (f : A -> B) (l : list A) (y : B) :
  y ∈ map f l <-> exists x, y = f x /\ x ∈ l.
Proof.
  induction l as [|a l IH]; cbn [map].
  - split; [intros H; inversion H | intros (x & _ & H); inversion H].
  - rewrite elem_of_cons, IH. split.
    + intros [->|(x & -> & Hx)]; [exists a | exists x];
        (split; [reflexivity|]); apply elem_of_cons; auto.
    + intros (x & -> & Hx). apply elem_of_cons in Hx as [->|Hx]; eauto.
Qed.

(** X15. In the snapshot the error bits are the union of the error bits of
    the samples of the window, and the status is the largest status among
    them: a bit set in any of these samples is set in the snapshot, and no
    other bit is. *)
Theorem X15_error_bits_and_status (fuel : nat) (a : Args)
    (hist : list Solax_LiveData_t) (idx max_idx : Z) :
  arg_AV_Samples a <= 254 -> 0 <= max_idx <= 254 ->
  max_idx < Z.of_nat (length hist) -> 0 <= idx <= max_idx -> (255 <= fuel)%nat ->
  let run := valid_run hist max_idx (Z.to_nat (arg_AV_Samples a + 1)) idx in
  exists avg qos,
    solax_LiveData_Average fuel a hist idx max_idx = Ok (avg, qos) /\
    (forall k, Z.testbit (ErrorBits avg) k
               = existsb (fun s => Z.testbit (ErrorBits s) k) run) /\
    (forall s, s ∈ run -> Status s <= Status avg) /\
    (Status avg = 0 \/ exists s, s ∈ run /\ Status avg = Status s).
Proof.
  intros HW Hmax Hhist Hidx Hfuel run.
  eexists _, _. split; [now apply solax_LiveData_Average_spec|].
  fold run. cbn [window_average ErrorBits Status].
  split; [|split].
  - intros k. rewrite fold_lor_testbit, Z.bits_0. cbn [orb].
    induction run as [|s run' IH]; [reflexivity|]. cbn [map existsb]. now rewrite IH.
  - intros s Hs. apply (fold_max_upper (map Status run) 0).
    apply elem_of_map. now exists s.
  - destruct (fold_max_upper (map Status run) 0) as (_ & _ & [H|H]); [now left|].
    right. apply elem_of_map in H as (s & Hs & Hin). now exists s.
Qed.

Lemma X15_error_bits_and_status_witness :
  exists avg qos,
    solax_LiveData_Average 255 default_args hist_gap 5 99 = Ok (avg, qos) /\
    forall s, s ∈ [sample_3; sample_3] -> Status s <= Status avg.
Proof.
  destruct (X15_error_bits_and_status 255 default_args hist_gap 5 99
              ltac:(by_computation) ltac:(by_computation) ltac:(by_computation)
              ltac:(by_computation) (le_n 255))
    as (avg & qos & H & _ & Hs & _).
  exists avg, qos. split; [exact H | exact Hs].
Defined.

(** *** The order of the floats *)

Lemma SFleb_trans (a b c : float) :
  SFleb a b = true -> SFleb b c = true -> SFleb a c = true.
Proof.
  unfold SFleb.
  destruct a as [[]|[]| |[] ma ea], b as [[]|[]| |[] mb eb],
           c as [[]|[]| |[] mc ec]; cbn; try discriminate; try reflexivity;
    change (PosDef.Pos.compare_cont Eq) with Pos.compare;
    destruct (Z.compare_spec ea eb), (Z.compare_spec eb ec),
             (Z.compare_spec ea ec); try lia; cbn;
    try discriminate; try reflexivity;
    destruct (Pos.compare_spec ma mb), (Pos.compare_spec mb mc),
             (Pos.compare_spec ma mc); cbn; try lia;
    try discriminate; try reflexivity.
Qed.

Lemma SFleb_refl (a : float) : is_nan a = false -> SFleb a a = true.
Proof.
  intros H. unfold SFleb. rewrite SFcompare_refl; [reflexivity|].
  intros ->. discriminate.
Qed.

Lemma is_nan_false (a : float) : is_nan a = false -> a <> S754_nan.
Proof. intros H ->. discriminate. Qed.

(** The running maximum of numbers is a number, is at least its start value
    and at least every element, and is the start value or one of the
    elements. *)
Lemma fold_fmax_upper (l : list float) :
  forall acc : float,
    is_nan acc = false -> Forall (fun x => is_nan x = false) l ->
    let r := fold_left fmax l acc in
    is_nan r = false /\ SFleb acc r = true /\
    (forall x, x ∈ l -> SFleb x r = true) /\ (r = acc \/ r ∈ l).
Proof.
  induction l as [|x l IH]; intros acc Hacc Hl; cbn [fold_left].
  - split; [exact Hacc|]. split; [now apply SFleb_refl|].
    split; [|now left]. intros y Hy. inversion Hy.
  - apply Forall_cons in Hl as [Hx Hl].
    destruct (fmax_upper acc x (is_nan_false _ Hacc) (is_nan_false _ Hx))
      as (Ha & Hb & Hc).
    assert (Hm : is_nan (fmax acc x) = false) by (destruct Hc as [-> | ->]; assumption).
    destruct (IH (fmax acc x) Hm Hl) as (H1 & H2 & H3 & H4).
    split; [exact H1|]. split; [exact (SFleb_trans _ _ _ Ha H2)|]. split.
    + intros y Hy. apply elem_of_cons in Hy as [->|Hy];
        [exact (SFleb_trans _ _ _ Hb H2) | now apply H3].
    + destruct H4 as [H4|H4]; [|right; apply elem_of_cons; now right].
      rewrite H4. destruct Hc as [-> | ->];
        [now left | right; apply elem_of_cons; now left].
Qed.

(** The three counters of the snapshot over a window of numbers. *)
Lemma window_average_counters (run : list Solax_LiveData_t) :
  Forall counters_are_numbers run ->
  let avg := window_average run in
  (forall s, s ∈ run ->
     SFleb (Energy_Today s) (Energy_Today avg) = true /\
     SFleb (Energy_Total s) (Energy_Total avg) = true /\
     SFleb (Runtime_Total s) (Runtime_Total avg) = true) /\
  SFleb fzero (Energy_Today avg) = true /\
  SFleb fzero (Energy_Total avg) = true /\
  SFleb fzero (Runtime_Total avg) = true /\
  (Energy_Total avg = fzero \/
   exists s, s ∈ run /\ Energy_Total avg = Energy_Total s).
Proof.
  intros Hnum avg. subst avg.
  cbn [window_average Energy_Today Energy_Total Runtime_Total].
  unfold fmaximum.
  assert (Hf : forall f : Solax_LiveData_t -> float,
             (forall s, counters_are_numbers s -> is_nan (f s) = false) ->
             Forall (fun x => is_nan x = false) (map f run)).
  { intros f Hf. induction Hnum as [|s l Hs _ IH]; cbn [map]; constructor; auto. }
  destruct (fold_fmax_upper (map Energy_Today run) fzero eq_refl
              (Hf Energy_Today ltac:(intros s (H & _ & _); exact H)))
    as (_ & A0 & A1 & _).
  destruct (fold_fmax_upper (map Energy_Total run) fzero eq_refl
              (Hf Energy_Total ltac:(intros s (_ & H & _); exact H)))
    as (_ & B0 & B1 & B2).
  destruct (fold_fmax_upper (map Runtime_Total run) fzero eq_refl
              (Hf Runtime_Total ltac:(intros s (_ & _ & H); exact H)))
    as (_ & C0 & C1 & _).
  split; [|split; [exact A0 | split; [exact B0 | split; [exact C0|]]]].
  - intros s Hs. split; [|split].
    + apply A1, elem_of_map. now exists s.
    + apply B1, elem_of_map. now exists s.
    + apply C1, elem_of_map. now exists s.
  - destruct B2 as [B2|B2]; [now left|]. right.
    apply elem_of_map in B2 as (s & Hs & Hin). now exists s.
Qed.

(** X16. In the snapshot the three counters (energy of the day, lifetime
    energy, lifetime runtime) are not averaged: each is the largest value
    among the samples of the window, and never below zero. So a sample of
    the window whose counter reads zero does not lower the published
    counter as long as the window holds another sample that reads more. *)
Theorem X16_counters_are_maxima (fuel : nat) (a : Args)
    (hist : list Solax_LiveData_t) (idx max_idx : Z) :
  arg_AV_Samples a <= 254 -> 0 <= max_idx <= 254 ->
  max_idx < Z.of_nat (length hist) -> 0 <= idx <= max_idx -> (255 <= fuel)%nat ->
  let run := valid_run hist max_idx (Z.to_nat (arg_AV_Samples a + 1)) idx in
  Forall counters_are_numbers run ->
  exists avg qos,
    solax_LiveData_Average fuel a hist idx max_idx = Ok (avg, qos) /\
    (forall s, s ∈ run ->
       SFleb (Energy_Today s) (Energy_Today avg) = true /\
       SFleb (Energy_Total s) (Energy_Total avg) = true /\
       SFleb (Runtime_Total s) (Runtime_Total avg) = true) /\
    SFleb fzero (Energy_Today avg) = true /\
    SFleb fzero (Energy_Total avg) = true /\
    SFleb fzero (Runtime_Total avg) = true /\
    (Energy_Total avg = fzero \/
     exists s, s ∈ run /\ Energy_Total avg = Energy_Total s).
Proof.
  intros HW Hmax Hhist Hidx Hfuel run Hnum.
  eexists _, _. split; [now apply solax_LiveData_Average_spec|].
  exact (window_average_counters run Hnum).
Qed.

Lemma X16_counters_are_maxima_witness :
  exists avg qos,
    solax_LiveData_Average 255 default_args hist_gap 5 99 = Ok (avg, qos) /\
    SFleb fzero (Energy_Total avg) = true.
Proof.
  destruct (X16_counters_are_maxima 255 default_args hist_gap 5 99
              ltac:(by_computation) ltac:(by_computation) ltac:(by_computation)
              ltac:(by_computation) (le_n 255) ltac:(by_computation))
    as (avg & qos & H & _ & _ & H0 & _).
  exists avg, qos. split; [exact H | exact H0].
Defined.

(** *** The decoded readings are numbers *)

Lemma shr_1_nonneg (mrs : shr_record) : 0 <= shr_m mrs -> 0 <= shr_m (shr_1 mrs).
Proof. destruct mrs as [[|[p|p|]|p] r s]; cbn; lia. Qed.

Lemma iter_pos_shr_1_nonneg (p : positive) :
  forall mrs, 0 <= shr_m mrs -> 0 <= shr_m (SpecFloat.iter_pos shr_1 p mrs).
Proof.
  induction p as [p IH|p IH|]; cbn; intros mrs H.
  - apply IH, IH, shr_1_nonneg, H.
  - apply IH, IH, H.
  - apply shr_1_nonneg, H.
Qed.

Lemma shr_fexp_nonneg (m e : Z) (l : location) :
  0 <= m -> 0 <= shr_m (fst (shr_fexp prec emax m e l)).
Proof.
  intros Hm. unfold shr_fexp, shr.
  assert (H0 : 0 <= shr_m (shr_record_of_loc m l)) by (destruct l as [|[]]; exact Hm).
  destruct (fexp prec emax (Zdigits2 m + e) - e); cbn [fst]; try exact H0.
  apply iter_pos_shr_1_nonneg, H0.
Qed.

Lemma round_nearest_even_nonneg (m : Z) (l : location) :
  0 <= m -> 0 <= round_nearest_even m l.
Proof.
  intros Hm. destruct l as [|[]]; cbn; try destruct (IntDef.Z.even m); lia.
Qed.

(** Rounding a mantissa that is not negative gives a number with the sign
    asked for. *)
Lemma binary_round_aux_number (mx ex : Z) (lx : location) :
  0 <= mx -> nonneg_number (binary_round_aux prec emax false mx ex lx) = true.
Proof.
  intros Hm. unfold binary_round_aux.
  pose proof (shr_fexp_nonneg mx ex lx Hm) as H1.
  destruct (shr_fexp prec emax mx ex lx) as [mrs' e']. cbn [fst] in H1.
  pose proof (shr_fexp_nonneg _ e' loc_Exact
                (round_nearest_even_nonneg _ (loc_of_shr_record mrs') H1)) as H2.
  destruct (shr_fexp prec emax _ e' loc_Exact) as [mrs'' e'']. cbn [fst] in H2.
  destruct (shr_m mrs''); [reflexivity | | lia].
  destruct (_ <=? _); reflexivity.
Qed.

Lemma float_of_Z_number (z : Z) : 0 <= z -> nonneg_number (float_of_Z z) = true.
Proof.
  intros Hz. unfold float_of_Z, binary_normalize.
  destruct z as [|p|p]; [reflexivity | | lia].
  unfold binary_round. destruct (shl_align _ _ _) as [mz ez].
  apply binary_round_aux_number. lia.
Qed.

Lemma fmul_number (x c : float) :
  nonneg_number x = true -> nonneg_number c = true ->
  (forall s, x = S754_zero s -> forall s', c <> S754_infinity s') ->
  (forall s, x = S754_infinity s -> forall s', c <> S754_zero s') ->
  nonneg_number (fmul x c) = true.
Proof.
  intros Hx Hc H0 Hi.
  destruct x as [[]|[]| |[] mx ex], c as [[]|[]| |[] mc ec];
    try discriminate; try reflexivity.
  - exfalso. now apply (H0 false eq_refl false).
  - exfalso. now apply (Hi false eq_refl false).
  - cbn. apply binary_round_aux_number. lia.
Qed.

Lemma scale_number (z : Z) :
  0 <= z ->
  nonneg_number (fmul (float_of_Z z) f0_1) = true /\
  nonneg_number (fmul (float_of_Z z) f0_01) = true.
Proof.
  intros Hz. pose proof (float_of_Z_number z Hz) as H.
  split; apply fmul_number; try assumption; try reflexivity;
    intros; discriminate.
Qed.

Lemma u32_range (z : Z) : 0 <= u32 z < 4294967296.
Proof. unfold u32. apply Z.mod_pos_bound. lia. Qed.

Lemma solax_ReceiveQuery_decode_numbers (m : Solax_Message_t) :
  readings_are_numbers (solax_ReceiveQuery_decode Solax_LiveData_zero m).
Proof.
  unfold readings_are_numbers, solax_ReceiveQuery_decode.
  cbn [Temperature Energy_Today DC1_Voltage DC2_Voltage DC1_Current DC2_Current
       AC_Current AC_Voltage Frequency Power Energy_Total Runtime_Total Status
       ErrorBits Solax_LiveData_zero].
  split; [|split; [apply u8_range | apply u32_range]].
  assert (H16 : forall a b, 0 <= value16 m a b)
    by (intros; apply u32_range).
  assert (H32 : forall a b c d, 0 <= value32 m a b c d)
    by (intros; apply u32_range).
  repeat constructor;
    try (apply float_of_Z_number; auto);
    try (apply scale_number; auto).
  - destruct (_ =? 0); [reflexivity | apply scale_number; auto].
  - destruct (_ =? 0); [reflexivity | apply float_of_Z_number; auto].
Qed.

Lemma Solax_LiveData_zero_numbers : readings_are_numbers Solax_LiveData_zero.
Proof. by_computation. Qed.

Lemma readings_counters (s : Solax_LiveData_t) :
  readings_are_numbers s -> counters_are_numbers s.
Proof.
  intros (H & _ & _).
  assert (Hn : forall f, nonneg_number f = true -> is_nan f = false)
    by (intros [[]|[]| |[] ? ?]; (discriminate || reflexivity)).
  repeat match goal with
         | H : Forall _ (_ :: _) |- _ => apply Forall_cons in H as [? H]
         end.
  repeat split; apply Hn; assumption.
Qed.

(** X18. Whatever bytes are read, the sample that [solax_ReceiveQuery]
    returns holds numbers only: each of the twelve readings is a zero or a
    positive number, never a NaN and never negative, the status is a byte
    and the error bits fit 32 bits. The sample is valid only in the
    live-data state and only for a frame with a good checksum. *)
Theorem X18_samples_hold_numbers (fuel : nat) (st : Solax_StateQuery_t)
    (rx0 : Solax_Rx_t) (old : Solax_LiveData_t) (input : list Z) :
  wf_msg (rxMessage rx0) -> (256 <= fuel)%nat -> input_ok input ->
  exists rx1 ld e,
    solax_ReceiveQuery fuel st rx0 old (Some input) = Ok (rx1, ld, e) /\
    readings_are_numbers ld /\
    (valid ld = true -> st = STATE_QUERY_LIVE_DATA /\ e = ERR_NONE).
Proof.
  intros Hwf Hfuel (Hb & Hlen & Hnw).
  eexists _, _, _. split; [now apply solax_ReceiveQuery_spec|].
  cbv zeta.
  destruct (bool_decide (decode_spec input = ERR_NONE)) eqn:He;
    destruct (bool_decide (st = STATE_QUERY_LIVE_DATA)) eqn:Hs;
    rewrite ?andb_false_r; cbn [andb];
    try (split; [apply Solax_LiveData_zero_numbers | discriminate]).
  destruct (expected_reply st _).
  - split; [apply solax_ReceiveQuery_decode_numbers|]. intros _.
    apply bool_decide_eq_true_1 in He, Hs. auto.
  - split; [apply Solax_LiveData_zero_numbers | discriminate].
Qed.

Lemma X18_samples_hold_numbers_witness :
  exists rx1 ld e,
    solax_ReceiveQuery 256 STATE_QUERY_LIVE_DATA Solax_Rx_init Solax_LiveData_zero
                       (Some rx_msg_4) = Ok (rx1, ld, e) /\
    readings_are_numbers ld.
Proof.
  destruct (X18_samples_hold_numbers 256 STATE_QUERY_LIVE_DATA Solax_Rx_init
              Solax_LiveData_zero rx_msg_4
              ltac:(by_computation) (le_n 256) ltac:(by_computation))
    as (rx1 & ld & e & H & Hn & _).
  exists rx1, ld, e. split; [exact H | exact Hn].
Defined.

Lemma valid_run_subset (hist : list Solax_LiveData_t) (max_idx : Z) (n : nat) :
  forall (idx : Z) (x : Solax_LiveData_t),
    x ∈ valid_run hist max_idx n idx -> x ∈ hist.
Proof.
  induction n as [|n IH]; intros idx x Hx; cbn [valid_run] in Hx.
  - inversion Hx.
  - destruct (hist !! Z.to_nat idx) as [slot|] eqn:Hs; [|inversion Hx].
    destruct (valid slot); [|inversion Hx].
    apply elem_of_cons in Hx as [->|Hx].
    + eapply list_elem_of_lookup_2, Hs.
    + eapply IH, Hx.
Qed.

Lemma latest_mkMain (q : Solax_Query_t) (hist : list Solax_LiveData_t) (idx : Z)
    (avg : Solax_LiveData_t) (qos : float) (ld : Solax_LiveData_t) :
  0 <= idx <= 99 -> hist !! Z.to_nat idx = Some ld ->
  latest (mkMain q hist (if idx =? 99 then 0 else idx + 1) avg qos) = ld.
Proof.
  intros Hidx Hs.
  unfold latest, last_index, MAX_INDEX_OF_LIVE_DATA, QUALITY_OF_SERVICE_COUNT.
  cbn [index liveData].
  replace (if (if idx =? 99 then 0 else idx + 1) =? 0 then 100 - 1
           else (if idx =? 99 then 0 else idx + 1) - 1) with idx.
  - now rewrite nth_lookup, Hs.
  - destruct (Z.eqb_spec idx 99) as [->|Hne]; [reflexivity|].
    destruct (Z.eqb_spec (idx + 1) 0); lia.
Qed.

Lemma main_tick_covers (fuel : nat) (a : Args) (s s' : Main_t) (input : list Z)
    (wr : Z) :
  0 <= arg_AV_Samples a <= 254 -> (256 <= fuel)%nat -> main_inv s ->
  input_ok input -> Forall readings_are_numbers (liveData s) ->
  main_tick fuel a s (Some input) wr = Ok (Some s') ->
  Forall readings_are_numbers (liveData s') /\ snapshot_covers_latest s'.
Proof.
  intros HW Hfuel Hinv Hin Hnum Htick.
  rewrite (main_tick_full fuel a s input wr (proj2 HW) Hfuel Hinv Hin) in Htick.
  cbv zeta in Htick. destruct (decide (wr = tx_len _)); [|discriminate].
  injection Htick as <-. destruct Hinv as (Hl & Hidx & _).
  match goal with
  | |- context [<[_ := ?l]> (liveData s)] => set (ld' := l)
  end.
  set (hist := <[Z.to_nat (index s) := ld']> (liveData s)).
  assert (Hld : readings_are_numbers ld').
  { unfold ld'. destruct (_ && _);
      [apply solax_ReceiveQuery_decode_numbers | apply Solax_LiveData_zero_numbers]. }
  assert (Hh : Forall readings_are_numbers hist)
    by (apply Forall_insert; assumption).
  split; [exact Hh|].
  assert (Hslot : hist !! Z.to_nat (index s) = Some ld')
    by (apply list_lookup_insert_eq; lia).
  unfold snapshot_covers_latest.
  rewrite (latest_mkMain _ _ _ _ _ ld' Hidx Hslot). cbn [solax_LiveData].
  replace (Z.to_nat (arg_AV_Samples a + 1)) with (S (Z.to_nat (arg_AV_Samples a)))
    by lia.
  cbn [valid_run]. rewrite Hslot.
  destruct (valid ld') eqn:Hv; [|reflexivity].
  set (run := ld' :: valid_run hist MAX_INDEX_OF_LIVE_DATA
                       (Z.to_nat (arg_AV_Samples a))
                       (walk_back MAX_INDEX_OF_LIVE_DATA (index s))).
  assert (Hrun : Forall counters_are_numbers run).
  { apply Forall_forall. intros x Hx. apply readings_counters.
    apply elem_of_cons in Hx as [->|Hx]; [exact Hld|].
    apply valid_run_subset in Hx.
    revert x Hx. apply Forall_forall. exact Hh. }
  destruct (window_average_counters run Hrun) as (Hc & _).
  apply Hc. apply elem_of_cons. now left.
Qed.

Lemma main_loop_covers (fuel : nat) (a : Args)
    (ticks : list (option (list Z) * Z)) :
  0 <= arg_AV_Samples a <= 254 -> (256 <= fuel)%nat -> Forall tick_ok ticks ->
  forall s : Main_t,
    main_inv s -> Forall readings_are_numbers (liveData s) ->
    snapshot_covers_latest s ->
    exists r,
      main_loop fuel a s ticks = Ok r /\
      forall s', r = Some s' ->
        Forall readings_are_numbers (liveData s') /\ snapshot_covers_latest s'.
Proof.
  intros HW Hfuel Hticks.
  induction Hticks as [|[rd wr] ticks Ht _ IH]; intros s Hinv Hnum Hcov.
  - exists (Some s). split; [reflexivity|]. intros s' [= <-]. auto.
  - cbn [main_loop]. destruct rd as [input|].
    + unfold tick_ok in Ht. cbn [fst] in Ht.
      pose proof (main_tick_full fuel a s input wr (proj2 HW) Hfuel Hinv Ht) as Htick.
      cbv zeta in Htick.
      destruct (decide (wr = tx_len _)).
      * pose proof (main_tick_covers fuel a s _ input wr HW Hfuel Hinv Ht Hnum Htick)
          as [Hnum1 Hcov1].
        destruct Ht as (Hb & Hlen & Hnw).
        pose proof (main_tick_inv fuel a s _ input wr (proj2 HW) Hfuel Hinv
                      Hb Hlen Hnw Htick) as Hinv1.
        rewrite Htick, bind_Ok. exact (IH _ Hinv1 Hnum1 Hcov1).
      * rewrite Htick, bind_Ok. exists None. split; [reflexivity | discriminate].
    + rewrite (main_tick_read_fails fuel a s wr Hinv), bind_Ok.
      exists None. split; [reflexivity | discriminate].
Qed.

(** X19. From start-up and over any number of ticks, with a window of 0 to
    254 samples: every slot of the history holds numbers only, and the
    published snapshot agrees with the sample of the last tick: when that
    sample is invalid the snapshot is zero in every field, and when it is
    valid the three published counters are not below those of the sample, so
    that the published lifetime energy never falls behind the latest
    reading. *)
Theorem X19_snapshot_covers_latest_sample (fuel : nat) (a : Args)
    (ticks : list (option (list Z) * Z)) :
  0 <= arg_AV_Samples a <= 254 -> (256 <= fuel)%nat -> Forall tick_ok ticks ->
  exists r,
    main_loop fuel a Main_init ticks = Ok r /\
    forall s, r = Some s ->
      Forall readings_are_numbers (liveData s) /\
      (valid (latest s) = false -> solax_LiveData s = Solax_LiveData_zero) /\
      (valid (latest s) = true ->
       SFleb (Energy_Today (latest s)) (Energy_Today (solax_LiveData s)) = true /\
       SFleb (Energy_Total (latest s)) (Energy_Total (solax_LiveData s)) = true /\
       SFleb (Runtime_Total (latest s)) (Runtime_Total (solax_LiveData s)) = true).
Proof.
  intros HW Hfuel Hticks.
  destruct (main_loop_covers fuel a ticks HW Hfuel Hticks Main_init Main_init_inv)
    as (r & Hr & Hk).
  - apply Forall_forall. intros x Hx. apply elem_of_replicate in Hx as [-> _].
    apply Solax_LiveData_zero_numbers.
  - reflexivity.
  - exists r. split; [exact Hr|]. intros s Hs.
    destruct (Hk s Hs) as [Hnum Hcov]. split; [exact Hnum|].
    unfold snapshot_covers_latest in Hcov.
    destruct (valid (latest s)); split; intros; try discriminate; assumption.
Qed.

Lemma X19_snapshot_covers_latest_sample_witness :
  exists r,
    main_loop 256 default_args Main_init [tick_live_data; tick_no_data] = Ok r.
Proof.
  destruct (X19_snapshot_covers_latest_sample 256 default_args
              [tick_live_data; tick_no_data]
              ltac:(by_computation) (le_n 256) ltac:(by_computation))
    as (r & Hr & _).
  exists r. exact Hr.
Defined.

(** ** The log line of a frame *)

Lemma store_chars_spec (s : list ascii) :
  forall (buff : list ascii) (pos : nat),
    store_chars buff (Z.of_nat pos) s
    = if decide (pos + length s < length buff)%nat
      then Ok (emit buff pos s) else Fault OutOfBounds.
Proof.
  induction s as [|c s IH]; intros buff pos; cbn [store_chars length].
  - destruct (decide (pos + 0 < length buff)%nat) as [H|H].
    + rewrite store_Ok by lia. rewrite Nat2Z.id. f_equal. unfold emit.
      cbn [app length]. rewrite Nat.add_0_r.
      rewrite insert_take_drop by lia.
      now replace (pos + 1)%nat with (S pos) by lia.
    + apply store_OutOfBounds. lia.
  - destruct (decide (pos < length buff)%nat) as [Hp|Hp].
    + rewrite store_Ok by lia. rewrite bind_Ok, Nat2Z.id.
      replace (Z.of_nat pos + 1) with (Z.of_nat (S pos)) by lia.
      rewrite IH, length_insert.
      destruct (decide (S pos + length s < length buff)%nat) as [H|H];
        destruct (decide (pos + S (length s) < length buff)%nat) as [H'|H'];
        try lia; [|reflexivity].
      f_equal. unfold emit.
      rewrite (take_S_r _ _ c) by (apply list_lookup_insert_eq; lia).
      rewrite take_insert_ge by lia. rewrite drop_insert_lt by lia.
      rewrite <- !app_assoc. cbn [app length].
      now replace (pos + S (length s) + 1)%nat with (S pos + length s + 1)%nat by lia.
    + rewrite store_OutOfBounds by lia.
      destruct (decide (pos + S (length s) < length buff)%nat); [lia|reflexivity].
Qed.

Lemma length_list_ascii_of_string (s : string) :
  length (String.list_ascii_of_string s) = String.length s.
Proof. induction s as [|c s IH]; cbn; [reflexivity | now rewrite IH]. Qed.

Lemma sprintf_spec (buff : list ascii) (pos : nat) (s : string) :
  sprintf buff (Z.of_nat pos) s
  = if decide (pos + String.length s < length buff)%nat
    then Ok (emit buff pos (String.list_ascii_of_string s), Z.of_nat (String.length s))
    else Fault OutOfBounds.
Proof.
  unfold sprintf. rewrite store_chars_spec, length_list_ascii_of_string.
  destruct (decide _); reflexivity.
Qed.

Lemma length_emit (buff : list ascii) (pos : nat) (s : list ascii) :
  (pos + length s < length buff)%nat -> length (emit buff pos s) = length buff.
Proof.
  intros H. unfold emit.
  rewrite !length_app, length_take, length_drop. cbn [length]. lia.
Qed.

(** Two texts written one after the other are their concatenation written
    at once. *)
Lemma emit_emit (buff : list ascii) (pos : nat) (s1 s2 : list ascii) :
  (pos + length s1 + length s2 < length buff)%nat ->
  emit (emit buff pos s1) (pos + length s1) s2 = emit buff pos (s1 ++ s2).
Proof.
  intros H. unfold emit.
  rewrite (app_assoc (take pos buff) s1).
  rewrite take_app_length' by (rewrite length_app, length_take; lia).
  rewrite <- !app_assoc. do 2 f_equal.
  rewrite length_app. f_equal. f_equal.
  rewrite (app_assoc (take pos buff) s1), (app_assoc _ [_]).
  rewrite drop_app_ge
    by (rewrite !length_app, length_take; cbn [length]; lia).
  rewrite !length_app, length_take. cbn [length].
  rewrite drop_drop. f_equal. lia.
Qed.

Lemma length_hex_group (i x : Z) :
  Z.of_nat (length (hex_group i x)) = 3 + (if i mod 8 =? 0 then 1 else 0).
Proof. unfold hex_group. destruct (i mod 8 =? 0); reflexivity. Qed.

Lemma length_hex_line (data : list Z) :
  forall i : Z,
    0 <= i ->
    Z.of_nat (length (hex_line i data))
    = 3 * Z.of_nat (length data)
      + ((i + Z.of_nat (length data) + 7) / 8 - (i + 7) / 8).
Proof.
  induction data as [|x data IH]; intros i Hi; cbn [hex_line length].
  - rewrite Z.add_0_r. lia.
  - rewrite length_app, Nat2Z.inj_add, length_hex_group, IH by lia.
    replace (i + 1 + Z.of_nat (length data)) with (i + Z.of_nat (S (length data)))
      by lia.
    destruct (Z.eqb_spec (i mod 8) 0) as [H0|H0];
      Z.div_mod_to_equations; lia.
Qed.

(** The loop of [log_Bin2Hex] over the bytes that remain. *)
Lemma log_Bin2Hex_loop (data tail : list Z) (bound : Z) (rest : list Z) :
  forall (fuel : nat) (pre : list Z) (buff : list ascii) (len : nat),
    data = pre ++ rest ++ tail ->
    bound = Z.of_nat (length pre + length rest) ->
    (length rest <= fuel)%nat -> rest <> [] ->
    for_int fuel bound
      (fun i '(buff, len) =>
         '(buff, len) ←
           (if i mod 8 =? 0
            then '(b, k) ← sprintf buff len " "; mret (b, len + k)
            else mret (buff, len));
         x ← load data i;
         '(b, k) ← sprintf buff len (fmt_02X_space x);
         mret (b, len + k))
      (Z.of_nat (length pre)) (buff, Z.of_nat len)
    = let text := hex_line (Z.of_nat (length pre)) rest in
      if decide (len + length text < length buff)%nat
      then Ok (emit buff len text, Z.of_nat (len + length text))
      else Fault OutOfBounds.
Proof.
  induction rest as [|x rest IH]; intros fuel pre buff len Hd Hb Hf Hne;
    [congruence|].
  destruct fuel as [|fuel]; [cbn in Hf; lia|].
  set (body := fun (i : Z) '(buff, len) => _). cbn [for_int].
  cbn [length] in Hb.
  destruct (Z.ltb_spec (Z.of_nat (length pre)) bound); [|lia].
  set (i := Z.of_nat (length pre)) in *.
  assert (Hx : load data i = Ok x).
  { apply load_Ok; [lia|]. unfold i. rewrite Nat2Z.id, Hd.
    now rewrite lookup_app_r, Nat.sub_diag by lia. }
  (* what one run of the body does *)
  assert (Hstep :
    body i (buff, Z.of_nat len)
    = if decide (len + length (hex_group i x) < length buff)%nat
      then Ok (emit buff len (hex_group i x),
               Z.of_nat (len + length (hex_group i x)))
      else Fault OutOfBounds).
  { unfold body, hex_group. destruct (i mod 8 =? 0).
    - rewrite sprintf_spec. cbn [String.length String.list_ascii_of_string app length].
      destruct (decide (len + 1 < length buff)%nat) as [H1|H1].
      + rewrite !bind_Ok, Hx, bind_Ok.
        replace (Z.of_nat len + Z.of_nat 1) with (Z.of_nat (len + 1)) by lia.
        rewrite sprintf_spec, length_emit by (cbn [length]; lia).
        cbn [String.length fmt_02X_space String.list_ascii_of_string].
        destruct (decide (len + 1 + 3 < length buff)%nat) as [H2|H2];
          destruct (decide (len + 4 < length buff)%nat) as [H3|H3]; try lia;
          [|reflexivity].
        rewrite bind_Ok. cbv [mret exec_ret]. f_equal. f_equal; [|lia].
        change (len + 1)%nat with (len + length [" "%char])%nat.
        rewrite emit_emit by (cbn [length]; lia). reflexivity.
      + destruct (decide (len + 4 < length buff)%nat); [lia|reflexivity].
    - rewrite bind_Ok, Hx, bind_Ok.
      rewrite sprintf_spec.
      cbn [String.length fmt_02X_space String.list_ascii_of_string app length].
      destruct (decide (len + 3 < length buff)%nat); [|reflexivity].
      rewrite bind_Ok. cbv [mret exec_ret]. f_equal. f_equal. lia. }
  rewrite Hstep. cbv zeta. cbn [hex_line]. fold i. rewrite length_app.
  destruct (decide (len + length (hex_group i x) < length buff)%nat) as [Hg|Hg].
  - rewrite bind_Ok.
    destruct rest as [|y rest'].
    + (* the last byte *)
      cbn [hex_line length]. rewrite app_nil_r, Nat.add_0_r.
      destruct fuel; cbn [for_int];
        (destruct (Z.ltb_spec (i + 1) bound); [cbn [length] in Hb; lia|]);
        destruct (decide _); [reflexivity | lia | reflexivity | lia].
    + replace (i + 1) with (Z.of_nat (length (pre ++ [x])))
        by (rewrite length_app; cbn [length]; lia).
      rewrite (IH fuel (pre ++ [x]) _ _);
        [| rewrite <- app_assoc; exact Hd
         | rewrite length_app; cbn [length] in *; lia
         | cbn [length] in *; lia | discriminate].
      cbv zeta. rewrite length_emit by lia.
      replace (Z.of_nat (length (pre ++ [x]))) with (i + 1)
        by (rewrite length_app; cbn [length]; lia).
      set (text := hex_line (i + 1) (y :: rest')).
      destruct (decide (len + length (hex_group i x) + length text < length buff)%nat)
        as [H1|H1];
        destruct (decide (len + (length (hex_group i x) + length text) < length buff)%nat)
          as [H2|H2]; try lia; [|reflexivity].
      f_equal. f_equal; [|f_equal; lia].
      apply emit_emit. lia.
  - destruct (decide (len + (length (hex_group i x) + length (hex_line (i + 1) rest))
                      < length buff)%nat); [lia|reflexivity].
Qed.

(** [log_Bin2Hex] in full: the text, the buffer and the returned length
    when the text and its NUL fit the buffer, and a write outside the buffer
    when they do not. *)
Lemma log_Bin2Hex_spec (fuel : nat) (buff : list ascii) (data : list Z)
    (dataLen : Z) :
  0 <= dataLen <= Z.of_nat (length data) -> (Z.to_nat dataLen <= fuel)%nat ->
  let text :=
    if dataLen =? 0 then String.list_ascii_of_string " No Data"
    else hex_line 0 (take (Z.to_nat dataLen) data) in
  log_Bin2Hex fuel buff data dataLen
  = if decide (length text < length buff)%nat
    then Ok (emit buff 0 text, Z.of_nat (length text))
    else Fault OutOfBounds.
Proof.
  intros Hd Hf text. unfold log_Bin2Hex, text.
  destruct (Z.eqb_spec dataLen 0) as [->|Hne]; cbn [negb].
  - exact (sprintf_spec buff 0 " No Data").
  - pose proof (log_Bin2Hex_loop data (drop (Z.to_nat dataLen) data) dataLen
                  (take (Z.to_nat dataLen) data) fuel [] buff 0) as Hloop.
    cbn [length app Nat.add] in Hloop. change (Z.of_nat 0) with 0 in Hloop.
    rewrite Hloop; [reflexivity | now rewrite take_drop
                   | rewrite length_take; lia | rewrite length_take; lia |].
    intros Ht. apply (f_equal length) in Ht. rewrite length_take in Ht.
    cbn [length] in Ht. lia.
Qed.

(** X20. The trace buffer of the senders and of the receiver is exactly
    large enough. [log_Bin2Hex] writes, for [n] bytes, a text of
    [3 n + ceil (n / 8)] characters and a NUL, and [" No Data"] for no byte;
    with the buffer of 343 characters that [solax_RS485_Send] and
    [solax_RS485_Receive] declare it returns the length of the text for
    every frame of up to 109 bytes, the size of a message, and it writes
    outside the buffer for 110 bytes or more. *)
Theorem X20_trace_buffer_fits_a_message (fuel : nat) (buff : list ascii)
    (data : list Z) (dataLen : Z) :
  Z.of_nat (length buff) = log_buff_size ->
  0 <= dataLen <= 255 -> dataLen <= Z.of_nat (length data) -> (255 <= fuel)%nat ->
  let len := if dataLen =? 0 then 8 else 3 * dataLen + (dataLen + 7) / 8 in
  if decide (dataLen <= sizeof_Solax_Message_t)
  then exists buff',
         log_Bin2Hex fuel buff data dataLen = Ok (buff', len) /\
         length buff' = length buff /\
         buff' !! Z.to_nat len = Some "000"%char /\ len + 1 <= log_buff_size
  else log_Bin2Hex fuel buff data dataLen = Fault OutOfBounds.
Proof.
  intros Hbuff Hd Hdata Hfuel len.
  unfold log_buff_size, sizeof_Solax_Message_t in *.
  change (3 * 109 + 109 / 8 + 3) with 343 in *.
  rewrite log_Bin2Hex_spec by lia. cbv zeta.
  set (text := if dataLen =? 0 then _ else _).
  assert (Hlen : Z.of_nat (length text) = len).
  { unfold text, len. destruct (Z.eqb_spec dataLen 0); [reflexivity|].
    rewrite length_hex_line, length_take by lia.
    change ((0 + 7) / 8) with 0.
    replace (Z.of_nat (Z.to_nat dataLen `min` length data)) with dataLen by lia.
    rewrite Z.add_0_l, Z.sub_0_r. reflexivity. }
  assert (Hfit : dataLen <= 109 <-> len < 343).
  { unfold len. destruct (Z.eqb_spec dataLen 0); [lia|].
    Z.div_mod_to_equations. lia. }
  clearbody len text.
  destruct (decide (dataLen <= 109)) as [Hle|Hgt].
  - destruct (decide (length text < length buff)%nat) as [Hl|Hl]; [|lia].
    exists (emit buff 0 text). rewrite Hlen. split; [reflexivity|].
    split; [apply length_emit; lia|]. split; [|lia].
    unfold emit. rewrite take_0. cbn [app].
    rewrite lookup_app_r by lia.
    replace (Z.to_nat len - length text)%nat with 0%nat by lia. reflexivity.
  - destruct (decide (length text < length buff)%nat) as [Hl|Hl]; [lia|].
    reflexivity.
Qed.

Lemma X20_trace_buffer_fits_a_message_witness :
  exists buff',
    log_Bin2Hex 255 (replicate 343 "x"%char) rx_msg_2 12 = Ok (buff', 38).
Proof.
  destruct (X20_trace_buffer_fits_a_message 255 (replicate 343 "x"%char) rx_msg_2 12
              eq_refl ltac:(by_computation) ltac:(by_computation) (le_n 255))
    as (buff' & H & _).
  exists buff'. exact H.
Defined.

Lemma hex_value_digit (d : Z) : 0 <= d < 16 -> hex_value (hex_digit d) = d.
Proof.
  intros Hd.
  assert (Hc : d = 0 \/ d = 1 \/ d = 2 \/ d = 3 \/ d = 4 \/ d = 5 \/ d = 6 \/
               d = 7 \/ d = 8 \/ d = 9 \/ d = 10 \/ d = 11 \/ d = 12 \/
               d = 13 \/ d = 14 \/ d = 15) by lia.
  repeat destruct Hc as [->|Hc]; try subst d; reflexivity.
Qed.

Lemma hex_digit_not_space (d : Z) : 0 <= d < 16 -> hex_digit d <> " "%char.
Proof.
  intros Hd.
  assert (Hc : d = 0 \/ d = 1 \/ d = 2 \/ d = 3 \/ d = 4 \/ d = 5 \/ d = 6 \/
               d = 7 \/ d = 8 \/ d = 9 \/ d = 10 \/ d = 11 \/ d = 12 \/
               d = 13 \/ d = 14 \/ d = 15) by lia.
  repeat destruct Hc as [->|Hc]; try subst d; discriminate.
Qed.

Lemma hex_parse_line (data : list Z) :
  forall i : Z, bytes data -> hex_parse (hex_line i data) = data.
Proof.
  induction data as [|x data IH]; intros i Hb; [reflexivity|].
  apply Forall_cons in Hb as [Hx Hb]. unfold is_byte in Hx.
  assert (Hhi : 0 <= x / 16 < 16) by (Z.div_mod_to_equations; lia).
  assert (Hlo : 0 <= x mod 16 < 16) by (Z.div_mod_to_equations; lia).
  assert (Hgroup : forall rest,
            hex_parse (hex_digit (x / 16) :: hex_digit (x mod 16) :: " "%char :: rest)
            = x :: hex_parse rest).
  { intros rest. cbn [hex_parse].
    destruct (ascii_dec (hex_digit (x / 16)) " ") as [He|_];
      [now apply hex_digit_not_space in He|].
    rewrite !hex_value_digit by assumption.
    destruct (ascii_dec " " " ") as [_|Hn]; [|contradiction].
    f_equal. Z.div_mod_to_equations. lia. }
  assert (Hspace : forall rest, hex_parse (" "%char :: rest) = hex_parse rest).
  { intros rest. cbn [hex_parse].
    destruct (ascii_dec " " " ") as [_|Hn]; [reflexivity|contradiction]. }
  cbn [hex_line]. unfold hex_group.
  destruct (i mod 8 =? 0); cbn [app]; rewrite ?Hspace, Hgroup, IH by assumption;
    reflexivity.
Qed.

(** X21. The log line loses nothing: for a frame of 1 to 109 bytes the text
    that [log_Bin2Hex] leaves in the buffer, up to the returned length,
    reads back as the bytes of the frame, two upper-case hexadecimal digits
    for each byte in the order of the frame, and the rest of the buffer
    after the NUL is left as it was. *)
Theorem X21_log_line_reads_back (fuel : nat) (buff : list ascii)
    (data : list Z) (dataLen : Z) :
  Z.of_nat (length buff) = log_buff_size -> bytes data ->
  0 < dataLen <= sizeof_Solax_Message_t -> dataLen <= Z.of_nat (length data) ->
  (255 <= fuel)%nat ->
  exists buff' len,
    log_Bin2Hex fuel buff data dataLen = Ok (buff', len) /\
    hex_parse (take (Z.to_nat len) buff') = take (Z.to_nat dataLen) data /\
    drop (Z.to_nat len + 1) buff' = drop (Z.to_nat len + 1) buff.
Proof.
  intros Hbuff Hb Hd Hdata Hfuel.
  unfold log_buff_size, sizeof_Solax_Message_t in *.
  change (3 * 109 + 109 / 8 + 3) with 343 in Hbuff.
  rewrite log_Bin2Hex_spec by lia. cbv zeta.
  destruct (Z.eqb_spec dataLen 0); [lia|].
  set (text := hex_line 0 (take (Z.to_nat dataLen) data)).
  assert (Hlen : Z.of_nat (length text) = 3 * dataLen + (dataLen + 7) / 8).
  { unfold text. rewrite length_hex_line, length_take by lia.
    change ((0 + 7) / 8) with 0.
    replace (Z.of_nat (Z.to_nat dataLen `min` length data)) with dataLen by lia.
    rewrite Z.add_0_l, Z.sub_0_r. reflexivity. }
  assert (Hfit : 3 * dataLen + (dataLen + 7) / 8 < 343)
    by (Z.div_mod_to_equations; lia).
  destruct (decide (length text < length buff)%nat) as [Hl|Hl]; [|lia].
  eexists _, _. split; [reflexivity|]. rewrite Nat2Z.id.
  unfold emit. rewrite take_0. cbn [app Nat.add]. split.
  - rewrite take_app_length. apply hex_parse_line. apply Forall_take, Hb.
  - rewrite drop_app_ge by lia.
    replace (length text + 1 - length text)%nat with 1%nat by lia.
    cbn [drop]. rewrite drop_0. reflexivity.
Qed.

Lemma X21_log_line_reads_back_witness :
  exists buff' len,
    log_Bin2Hex 255 (replicate 343 "x"%char) rx_msg_2 12 = Ok (buff', len) /\
    hex_parse (take (Z.to_nat len) buff') = rx_msg_2.
Proof.
  destruct (X21_log_line_reads_back 255 (replicate 343 "x"%char) rx_msg_2 12
              eq_refl ltac:(by_computation) ltac:(by_computation)
              ltac:(by_computation) (le_n 255))
    as (buff' & len & H & Hp & _).
  exists buff', len. split; [exact H | exact Hp].
Defined.

(** ** Replies shorter than the telemetry record *)

(** X22. The decoder does not look at the payload length. A live-data reply
    with a good checksum and the codes 0x11 and 0x82 gives a valid sample
    however short it is, and the readings beyond the bytes read are made of
    what the receive buffer held before: for a reply of at most 55 bytes the
    error bits are the bytes 58, 57, 56 and 55 of the old buffer, and for a
    reply without payload the temperature is the value of its checksum. *)
Theorem X22_short_reply_decodes_old_bytes (fuel : nat) (rx0 : Solax_Rx_t)
    (old : Solax_LiveData_t) (input : list Z) :
  wf_msg (rxMessage rx0) -> (256 <= fuel)%nat ->
  bytes input -> (length input <= 55)%nat ->
  decode_spec input = ERR_NONE -> nth 6 input 0 = 0x11 -> nth 7 input 0 = 0x82 ->
  let buf := rxMessage rx0 in
  exists rx1 ld,
    solax_ReceiveQuery fuel STATE_QUERY_LIVE_DATA rx0 old (Some input)
    = Ok (rx1, ld, ERR_NONE) /\
    valid ld = true /\
    ErrorBits ld
    = big_endian [nth 58 buf 0; nth 57 buf 0; nth 56 buf 0; nth 55 buf 0] /\
    (length input = 11%nat ->
     Temperature ld = float_of_Z (checksum (take 9 input))).
Proof.
  intros Hwf Hfuel Hb Hlen Hd Hcc Hfc buf.
  pose proof (decode_spec_NONE_length input Hd) as H11.
  pose proof (decode_spec_NONE_not_wraps input ltac:(lia) Hd) as Hnw.
  rewrite (solax_ReceiveQuery_spec fuel _ rx0 old input Hwf Hb ltac:(lia) Hfuel Hnw).
  fold buf. set (m := input ++ drop (length input) buf).
  rewrite Hd.
  assert (Hexp : expected_reply STATE_QUERY_LIVE_DATA m = true).
  { unfold m. rewrite expected_reply_app by exact H11.
    rewrite Hcc, Hfc. reflexivity. }
  rewrite Hexp.
  rewrite (bool_decide_eq_true_2 (ERR_NONE = ERR_NONE)) by reflexivity.
  rewrite (bool_decide_eq_false_2 (STATE_QUERY_LIVE_DATA = STATE_BROARDCAST))
    by discriminate.
  rewrite (bool_decide_eq_true_2 (STATE_QUERY_LIVE_DATA = STATE_QUERY_LIVE_DATA))
    by reflexivity.
  cbn [andb].
  assert (Hm : wf_msg m).
  { pose proof (read_wf input buf Hwf Hb) as Hr.
    cbn [read snd] in Hr. unfold sizeof_Solax_Message_t in Hr.
    rewrite take_ge in Hr by lia. exact Hr. }
  destruct Hwf as [Hbl _]. unfold sizeof_Solax_Message_t in Hbl. fold buf in Hbl.
  eexists _, _. split; [reflexivity|].
  rewrite (solax_ReceiveQuery_decode_table m Hm).
  split; [reflexivity|]. split.
  - cbn [decode_table ErrorBits]. unfold rev_field, payload.
    rewrite drop_drop. change (9 + 46)%nat with 55%nat.
    unfold m. rewrite drop_app_ge by lia. rewrite drop_drop.
    replace (length input + (55 - length input))%nat with 55%nat by lia.
    rewrite take4_drop by lia. reflexivity.
  - intros L11. cbn [decode_table Temperature]. unfold scale_1. f_equal.
    destruct (decode_spec_NONE_inv input Hb Hd) as (_ & _ & Hdl & Hn & Hc).
    cbv zeta in Hn, Hc.
    assert (H0 : nth 8 input 0 = 0) by lia.
    rewrite H0 in Hc. change (Z.to_nat (9 + 0)) with 9%nat in Hc.
    unfold be_field, payload. rewrite drop_0.
    unfold m. rewrite drop_app_le by lia.
    rewrite take_app_le by (rewrite length_drop; lia).
    rewrite Hc. unfold big_endian16, big_endian. cbn [fold_left].
    pose proof (checksum_range (take 9 input)).
    Z.div_mod_to_equations. lia.
Qed.

Lemma X22_short_reply_decodes_old_bytes_witness :
  exists rx1 ld,
    solax_ReceiveQuery 256 STATE_QUERY_LIVE_DATA
      (mkRx (replicate 109 0xFF) (replicate 15 0)) Solax_LiveData_zero
      (Some [0xAA; 0x55; 0x00; 0x0A; 0x01; 0x00; 0x11; 0x82; 0x00; 0x01; 0x9D])
    = Ok (rx1, ld, ERR_NONE) /\
    valid ld = true /\ ErrorBits ld = 0xFFFFFFFF.
Proof.
  destruct (X22_short_reply_decodes_old_bytes 256
              (mkRx (replicate 109 0xFF) (replicate 15 0))
              Solax_LiveData_zero
              [0xAA; 0x55; 0x00; 0x0A; 0x01; 0x00; 0x11; 0x82; 0x00; 0x01; 0x9D]
              ltac:(by_computation) (le_n 256) ltac:(by_computation)
              ltac:(by_computation) eq_refl eq_refl eq_refl)
    as (rx1 & ld & H & Hv & He & _).
  exists rx1, ld. split; [exact H|]. split; [exact Hv | exact He].
Defined.
